(** * BufferQueue consumer endpoint and layer frame notifications

    A shallow embedding of [libs/gui/BufferQueueConsumer.cpp] and of the
    frame-notification callbacks of
    [services/surfaceflinger/BufferLayer.cpp], together with the
    properties of the consumer-side state machine that the specification
    states about them.

    Conventions of the embedding:
    - [nsecs_t] (a signed 64-bit integer) is a [Z]; the two arithmetic
      operations the code performs on it are wrapped to 64 bits;
    - [uint64_t] frame numbers are [N];
    - [int] slot indices are [Z]; the slot table is a list read and
      written by index;
    - [sp<T>] smart pointers that may be [NULL] are [option]s;
    - the mutex, the condition variable and the listener callbacks are
      recorded as a trace of events, in program order. *)

From Stdlib Require Import ZArith NArith Lia Bool List.
From stdpp Require Import base list strings.

Local Open Scope Z_scope.

(** ** Status codes ([utils/Errors.h], [gui/IGraphicBufferConsumer.h]) *)

Inductive status_t : Type :=
  | NO_ERROR
  | BAD_VALUE
  | INVALID_OPERATION
  | NO_INIT
  | NO_MEMORY
  | TIMED_OUT
  | STALE_BUFFER_SLOT
  | NO_BUFFER_AVAILABLE
  | PRESENT_LATER.

Global Instance status_t_eq_dec : EqDecision status_t.
Proof. solve_decision. Defined.

(** ** Machine integers *)

Definition INT64_MIN : Z := - 2 ^ 63.
Definition INT64_MAX : Z := 2 ^ 63 - 1.

(** Result of a signed 64-bit operation whose exact value is [z]. *)
Definition wrap_int64 (z : Z) : Z := (z + 2 ^ 63) mod 2 ^ 64 - 2 ^ 63.

(** Result of an unsigned 64-bit operation whose exact value is [n]. *)
Definition wrap_uint64 (n : N) : N := (n mod 2 ^ 64)%N.

Definition in_int64 (z : Z) : Prop := INT64_MIN <= z <= INT64_MAX.

(** ** Buffers, fences, listeners *)

(** A [GraphicBuffer]: its native handle and the generation number it
    was allocated under. *)
Record GraphicBuffer : Type := {
  handle : Z;
  getGenerationNumber : N
}.

Global Instance GraphicBuffer_eq_dec : EqDecision GraphicBuffer.
Proof. solve_decision. Defined.

(** [Fence::NO_FENCE] is the fence that has already signalled. *)
Inductive Fence : Type :=
  | NO_FENCE
  | FenceFd (fd : Z).

Global Instance Fence_eq_dec : EqDecision Fence.
Proof. solve_decision. Defined.

(** Identity of a remote [IProducerListener] / [IConsumerListener]. *)
Definition ListenerId : Type := nat.

(** Modelled from the spec: the constant [BufferQueueDefs::NUM_BUFFER_SLOTS]
    is declared in a header that is not part of the sources; the
    specification fixes the slot count at 64. *)
Definition NUM_BUFFER_SLOTS : Z := 64.

Definition INVALID_BUFFER_SLOT : Z := -1.

Definition NO_CONNECTED_API : Z := 0.

(** ** BufferSlot

    [BufferSlot.h], [BufferItem.h] and [BufferQueueCore.h] are not among
    the sources.  The records below carry the members that
    [BufferQueueConsumer.cpp] and [BufferLayer.cpp] read or write, under
    the names used there. *)

Module BufferSlot.

Inductive State : Type :=
  | FREE
  | DEQUEUED
  | QUEUED
  | ACQUIRED.

Global Instance State_eq_dec : EqDecision State.
Proof. solve_decision. Defined.

Record t : Type := {
  mGraphicBuffer : option GraphicBuffer;
  mBufferState : State;
  mFence : option Fence;
  mFrameNumber : N;
  mAcquireCalled : bool;
  mAttachedByConsumer : bool;
  mNeedsCleanupOnRelease : bool;
  mEglDisplay : Z;
  mEglFence : Z
}.

Definition set_mGraphicBuffer (v : option GraphicBuffer) (b : t) : t :=
  {| mGraphicBuffer := v;
     mBufferState := mBufferState b;
     mFence := mFence b;
     mFrameNumber := mFrameNumber b;
     mAcquireCalled := mAcquireCalled b;
     mAttachedByConsumer := mAttachedByConsumer b;
     mNeedsCleanupOnRelease := mNeedsCleanupOnRelease b;
     mEglDisplay := mEglDisplay b;
     mEglFence := mEglFence b |}.

Definition set_mBufferState (v : State) (b : t) : t :=
  {| mGraphicBuffer := mGraphicBuffer b;
     mBufferState := v;
     mFence := mFence b;
     mFrameNumber := mFrameNumber b;
     mAcquireCalled := mAcquireCalled b;
     mAttachedByConsumer := mAttachedByConsumer b;
     mNeedsCleanupOnRelease := mNeedsCleanupOnRelease b;
     mEglDisplay := mEglDisplay b;
     mEglFence := mEglFence b |}.

Definition set_mFence (v : option Fence) (b : t) : t :=
  {| mGraphicBuffer := mGraphicBuffer b;
     mBufferState := mBufferState b;
     mFence := v;
     mFrameNumber := mFrameNumber b;
     mAcquireCalled := mAcquireCalled b;
     mAttachedByConsumer := mAttachedByConsumer b;
     mNeedsCleanupOnRelease := mNeedsCleanupOnRelease b;
     mEglDisplay := mEglDisplay b;
     mEglFence := mEglFence b |}.

Definition set_mFrameNumber (v : N) (b : t) : t :=
  {| mGraphicBuffer := mGraphicBuffer b;
     mBufferState := mBufferState b;
     mFence := mFence b;
     mFrameNumber := v;
     mAcquireCalled := mAcquireCalled b;
     mAttachedByConsumer := mAttachedByConsumer b;
     mNeedsCleanupOnRelease := mNeedsCleanupOnRelease b;
     mEglDisplay := mEglDisplay b;
     mEglFence := mEglFence b |}.

Definition set_mAcquireCalled (v : bool) (b : t) : t :=
  {| mGraphicBuffer := mGraphicBuffer b;
     mBufferState := mBufferState b;
     mFence := mFence b;
     mFrameNumber := mFrameNumber b;
     mAcquireCalled := v;
     mAttachedByConsumer := mAttachedByConsumer b;
     mNeedsCleanupOnRelease := mNeedsCleanupOnRelease b;
     mEglDisplay := mEglDisplay b;
     mEglFence := mEglFence b |}.

Definition set_mAttachedByConsumer (v : bool) (b : t) : t :=
  {| mGraphicBuffer := mGraphicBuffer b;
     mBufferState := mBufferState b;
     mFence := mFence b;
     mFrameNumber := mFrameNumber b;
     mAcquireCalled := mAcquireCalled b;
     mAttachedByConsumer := v;
     mNeedsCleanupOnRelease := mNeedsCleanupOnRelease b;
     mEglDisplay := mEglDisplay b;
     mEglFence := mEglFence b |}.

Definition set_mNeedsCleanupOnRelease (v : bool) (b : t) : t :=
  {| mGraphicBuffer := mGraphicBuffer b;
     mBufferState := mBufferState b;
     mFence := mFence b;
     mFrameNumber := mFrameNumber b;
     mAcquireCalled := mAcquireCalled b;
     mAttachedByConsumer := mAttachedByConsumer b;
     mNeedsCleanupOnRelease := v;
     mEglDisplay := mEglDisplay b;
     mEglFence := mEglFence b |}.

Definition set_mEglDisplay (v : Z) (b : t) : t :=
  {| mGraphicBuffer := mGraphicBuffer b;
     mBufferState := mBufferState b;
     mFence := mFence b;
     mFrameNumber := mFrameNumber b;
     mAcquireCalled := mAcquireCalled b;
     mAttachedByConsumer := mAttachedByConsumer b;
     mNeedsCleanupOnRelease := mNeedsCleanupOnRelease b;
     mEglDisplay := v;
     mEglFence := mEglFence b |}.

Definition set_mEglFence (v : Z) (b : t) : t :=
  {| mGraphicBuffer := mGraphicBuffer b;
     mBufferState := mBufferState b;
     mFence := mFence b;
     mFrameNumber := mFrameNumber b;
     mAcquireCalled := mAcquireCalled b;
     mAttachedByConsumer := mAttachedByConsumer b;
     mNeedsCleanupOnRelease := mNeedsCleanupOnRelease b;
     mEglDisplay := mEglDisplay b;
     mEglFence := v |}.

End BufferSlot.

(** ** BufferItem: one entry of the queue *)

Module BufferItem.

Record t : Type := {
  mSlot : Z;
  mGraphicBuffer : option GraphicBuffer;
  mFrameNumber : N;
  mTimestamp : Z;
  mIsAutoTimestamp : bool;
  mIsDroppable : bool;
  mAcquireCalled : bool;
  mFence : option Fence
}.

Definition set_mGraphicBuffer (v : option GraphicBuffer) (i : t) : t :=
  {| mSlot := mSlot i;
     mGraphicBuffer := v;
     mFrameNumber := mFrameNumber i;
     mTimestamp := mTimestamp i;
     mIsAutoTimestamp := mIsAutoTimestamp i;
     mIsDroppable := mIsDroppable i;
     mAcquireCalled := mAcquireCalled i;
     mFence := mFence i |}.

End BufferItem.

(** ** BufferQueueCore: the state shared by both endpoints *)

Module BufferQueueCore.

(** [mFreeSlots] is a [std::set<int>]; it is kept as the list of its
    elements in iteration order, so that [begin()] is the head.
    [mFreeBuffers] is a [std::list<int>]. *)
Record t : Type := {
  mSlots : list BufferSlot.t;
  mQueue : list BufferItem.t;
  mFreeSlots : list Z;
  mFreeBuffers : list Z;
  mIsAbandoned : bool;
  mConsumerListener : option ListenerId;
  mConsumerControlledByApp : bool;
  mConnectedProducerListener : option ListenerId;
  mConnectedApi : Z;
  mMaxAcquiredBufferCount : Z;
  mGenerationNumber : N;
  mUseAsyncBuffer : bool;
  mDefaultWidth : N;
  mDefaultHeight : N;
  mDefaultBufferFormat : Z;
  mDefaultBufferDataSpace : Z;
  mConsumerUsageBits : N;
  mTransformHint : N;
  mConsumerName : string
}.

Definition set_mSlots (v : list BufferSlot.t) (c : t) : t :=
  {| mSlots := v;
     mQueue := mQueue c;
     mFreeSlots := mFreeSlots c;
     mFreeBuffers := mFreeBuffers c;
     mIsAbandoned := mIsAbandoned c;
     mConsumerListener := mConsumerListener c;
     mConsumerControlledByApp := mConsumerControlledByApp c;
     mConnectedProducerListener := mConnectedProducerListener c;
     mConnectedApi := mConnectedApi c;
     mMaxAcquiredBufferCount := mMaxAcquiredBufferCount c;
     mGenerationNumber := mGenerationNumber c;
     mUseAsyncBuffer := mUseAsyncBuffer c;
     mDefaultWidth := mDefaultWidth c;
     mDefaultHeight := mDefaultHeight c;
     mDefaultBufferFormat := mDefaultBufferFormat c;
     mDefaultBufferDataSpace := mDefaultBufferDataSpace c;
     mConsumerUsageBits := mConsumerUsageBits c;
     mTransformHint := mTransformHint c;
     mConsumerName := mConsumerName c |}.

Definition set_mQueue (v : list BufferItem.t) (c : t) : t :=
  {| mSlots := mSlots c;
     mQueue := v;
     mFreeSlots := mFreeSlots c;
     mFreeBuffers := mFreeBuffers c;
     mIsAbandoned := mIsAbandoned c;
     mConsumerListener := mConsumerListener c;
     mConsumerControlledByApp := mConsumerControlledByApp c;
     mConnectedProducerListener := mConnectedProducerListener c;
     mConnectedApi := mConnectedApi c;
     mMaxAcquiredBufferCount := mMaxAcquiredBufferCount c;
     mGenerationNumber := mGenerationNumber c;
     mUseAsyncBuffer := mUseAsyncBuffer c;
     mDefaultWidth := mDefaultWidth c;
     mDefaultHeight := mDefaultHeight c;
     mDefaultBufferFormat := mDefaultBufferFormat c;
     mDefaultBufferDataSpace := mDefaultBufferDataSpace c;
     mConsumerUsageBits := mConsumerUsageBits c;
     mTransformHint := mTransformHint c;
     mConsumerName := mConsumerName c |}.

Definition set_mFreeSlots (v : list Z) (c : t) : t :=
  {| mSlots := mSlots c;
     mQueue := mQueue c;
     mFreeSlots := v;
     mFreeBuffers := mFreeBuffers c;
     mIsAbandoned := mIsAbandoned c;
     mConsumerListener := mConsumerListener c;
     mConsumerControlledByApp := mConsumerControlledByApp c;
     mConnectedProducerListener := mConnectedProducerListener c;
     mConnectedApi := mConnectedApi c;
     mMaxAcquiredBufferCount := mMaxAcquiredBufferCount c;
     mGenerationNumber := mGenerationNumber c;
     mUseAsyncBuffer := mUseAsyncBuffer c;
     mDefaultWidth := mDefaultWidth c;
     mDefaultHeight := mDefaultHeight c;
     mDefaultBufferFormat := mDefaultBufferFormat c;
     mDefaultBufferDataSpace := mDefaultBufferDataSpace c;
     mConsumerUsageBits := mConsumerUsageBits c;
     mTransformHint := mTransformHint c;
     mConsumerName := mConsumerName c |}.

Definition set_mFreeBuffers (v : list Z) (c : t) : t :=
  {| mSlots := mSlots c;
     mQueue := mQueue c;
     mFreeSlots := mFreeSlots c;
     mFreeBuffers := v;
     mIsAbandoned := mIsAbandoned c;
     mConsumerListener := mConsumerListener c;
     mConsumerControlledByApp := mConsumerControlledByApp c;
     mConnectedProducerListener := mConnectedProducerListener c;
     mConnectedApi := mConnectedApi c;
     mMaxAcquiredBufferCount := mMaxAcquiredBufferCount c;
     mGenerationNumber := mGenerationNumber c;
     mUseAsyncBuffer := mUseAsyncBuffer c;
     mDefaultWidth := mDefaultWidth c;
     mDefaultHeight := mDefaultHeight c;
     mDefaultBufferFormat := mDefaultBufferFormat c;
     mDefaultBufferDataSpace := mDefaultBufferDataSpace c;
     mConsumerUsageBits := mConsumerUsageBits c;
     mTransformHint := mTransformHint c;
     mConsumerName := mConsumerName c |}.

Definition set_mIsAbandoned (v : bool) (c : t) : t :=
  {| mSlots := mSlots c;
     mQueue := mQueue c;
     mFreeSlots := mFreeSlots c;
     mFreeBuffers := mFreeBuffers c;
     mIsAbandoned := v;
     mConsumerListener := mConsumerListener c;
     mConsumerControlledByApp := mConsumerControlledByApp c;
     mConnectedProducerListener := mConnectedProducerListener c;
     mConnectedApi := mConnectedApi c;
     mMaxAcquiredBufferCount := mMaxAcquiredBufferCount c;
     mGenerationNumber := mGenerationNumber c;
     mUseAsyncBuffer := mUseAsyncBuffer c;
     mDefaultWidth := mDefaultWidth c;
     mDefaultHeight := mDefaultHeight c;
     mDefaultBufferFormat := mDefaultBufferFormat c;
     mDefaultBufferDataSpace := mDefaultBufferDataSpace c;
     mConsumerUsageBits := mConsumerUsageBits c;
     mTransformHint := mTransformHint c;
     mConsumerName := mConsumerName c |}.

Definition set_mConsumerListener (v : option ListenerId) (c : t) : t :=
  {| mSlots := mSlots c;
     mQueue := mQueue c;
     mFreeSlots := mFreeSlots c;
     mFreeBuffers := mFreeBuffers c;
     mIsAbandoned := mIsAbandoned c;
     mConsumerListener := v;
     mConsumerControlledByApp := mConsumerControlledByApp c;
     mConnectedProducerListener := mConnectedProducerListener c;
     mConnectedApi := mConnectedApi c;
     mMaxAcquiredBufferCount := mMaxAcquiredBufferCount c;
     mGenerationNumber := mGenerationNumber c;
     mUseAsyncBuffer := mUseAsyncBuffer c;
     mDefaultWidth := mDefaultWidth c;
     mDefaultHeight := mDefaultHeight c;
     mDefaultBufferFormat := mDefaultBufferFormat c;
     mDefaultBufferDataSpace := mDefaultBufferDataSpace c;
     mConsumerUsageBits := mConsumerUsageBits c;
     mTransformHint := mTransformHint c;
     mConsumerName := mConsumerName c |}.

Definition set_mConsumerControlledByApp (v : bool) (c : t) : t :=
  {| mSlots := mSlots c;
     mQueue := mQueue c;
     mFreeSlots := mFreeSlots c;
     mFreeBuffers := mFreeBuffers c;
     mIsAbandoned := mIsAbandoned c;
     mConsumerListener := mConsumerListener c;
     mConsumerControlledByApp := v;
     mConnectedProducerListener := mConnectedProducerListener c;
     mConnectedApi := mConnectedApi c;
     mMaxAcquiredBufferCount := mMaxAcquiredBufferCount c;
     mGenerationNumber := mGenerationNumber c;
     mUseAsyncBuffer := mUseAsyncBuffer c;
     mDefaultWidth := mDefaultWidth c;
     mDefaultHeight := mDefaultHeight c;
     mDefaultBufferFormat := mDefaultBufferFormat c;
     mDefaultBufferDataSpace := mDefaultBufferDataSpace c;
     mConsumerUsageBits := mConsumerUsageBits c;
     mTransformHint := mTransformHint c;
     mConsumerName := mConsumerName c |}.

Definition set_mMaxAcquiredBufferCount (v : Z) (c : t) : t :=
  {| mSlots := mSlots c;
     mQueue := mQueue c;
     mFreeSlots := mFreeSlots c;
     mFreeBuffers := mFreeBuffers c;
     mIsAbandoned := mIsAbandoned c;
     mConsumerListener := mConsumerListener c;
     mConsumerControlledByApp := mConsumerControlledByApp c;
     mConnectedProducerListener := mConnectedProducerListener c;
     mConnectedApi := mConnectedApi c;
     mMaxAcquiredBufferCount := v;
     mGenerationNumber := mGenerationNumber c;
     mUseAsyncBuffer := mUseAsyncBuffer c;
     mDefaultWidth := mDefaultWidth c;
     mDefaultHeight := mDefaultHeight c;
     mDefaultBufferFormat := mDefaultBufferFormat c;
     mDefaultBufferDataSpace := mDefaultBufferDataSpace c;
     mConsumerUsageBits := mConsumerUsageBits c;
     mTransformHint := mTransformHint c;
     mConsumerName := mConsumerName c |}.

Definition set_mUseAsyncBuffer (v : bool) (c : t) : t :=
  {| mSlots := mSlots c;
     mQueue := mQueue c;
     mFreeSlots := mFreeSlots c;
     mFreeBuffers := mFreeBuffers c;
     mIsAbandoned := mIsAbandoned c;
     mConsumerListener := mConsumerListener c;
     mConsumerControlledByApp := mConsumerControlledByApp c;
     mConnectedProducerListener := mConnectedProducerListener c;
     mConnectedApi := mConnectedApi c;
     mMaxAcquiredBufferCount := mMaxAcquiredBufferCount c;
     mGenerationNumber := mGenerationNumber c;
     mUseAsyncBuffer := v;
     mDefaultWidth := mDefaultWidth c;
     mDefaultHeight := mDefaultHeight c;
     mDefaultBufferFormat := mDefaultBufferFormat c;
     mDefaultBufferDataSpace := mDefaultBufferDataSpace c;
     mConsumerUsageBits := mConsumerUsageBits c;
     mTransformHint := mTransformHint c;
     mConsumerName := mConsumerName c |}.

Definition set_mDefaultWidth (v : N) (c : t) : t :=
  {| mSlots := mSlots c;
     mQueue := mQueue c;
     mFreeSlots := mFreeSlots c;
     mFreeBuffers := mFreeBuffers c;
     mIsAbandoned := mIsAbandoned c;
     mConsumerListener := mConsumerListener c;
     mConsumerControlledByApp := mConsumerControlledByApp c;
     mConnectedProducerListener := mConnectedProducerListener c;
     mConnectedApi := mConnectedApi c;
     mMaxAcquiredBufferCount := mMaxAcquiredBufferCount c;
     mGenerationNumber := mGenerationNumber c;
     mUseAsyncBuffer := mUseAsyncBuffer c;
     mDefaultWidth := v;
     mDefaultHeight := mDefaultHeight c;
     mDefaultBufferFormat := mDefaultBufferFormat c;
     mDefaultBufferDataSpace := mDefaultBufferDataSpace c;
     mConsumerUsageBits := mConsumerUsageBits c;
     mTransformHint := mTransformHint c;
     mConsumerName := mConsumerName c |}.

Definition set_mDefaultHeight (v : N) (c : t) : t :=
  {| mSlots := mSlots c;
     mQueue := mQueue c;
     mFreeSlots := mFreeSlots c;
     mFreeBuffers := mFreeBuffers c;
     mIsAbandoned := mIsAbandoned c;
     mConsumerListener := mConsumerListener c;
     mConsumerControlledByApp := mConsumerControlledByApp c;
     mConnectedProducerListener := mConnectedProducerListener c;
     mConnectedApi := mConnectedApi c;
     mMaxAcquiredBufferCount := mMaxAcquiredBufferCount c;
     mGenerationNumber := mGenerationNumber c;
     mUseAsyncBuffer := mUseAsyncBuffer c;
     mDefaultWidth := mDefaultWidth c;
     mDefaultHeight := v;
     mDefaultBufferFormat := mDefaultBufferFormat c;
     mDefaultBufferDataSpace := mDefaultBufferDataSpace c;
     mConsumerUsageBits := mConsumerUsageBits c;
     mTransformHint := mTransformHint c;
     mConsumerName := mConsumerName c |}.

Definition set_mDefaultBufferFormat (v : Z) (c : t) : t :=
  {| mSlots := mSlots c;
     mQueue := mQueue c;
     mFreeSlots := mFreeSlots c;
     mFreeBuffers := mFreeBuffers c;
     mIsAbandoned := mIsAbandoned c;
     mConsumerListener := mConsumerListener c;
     mConsumerControlledByApp := mConsumerControlledByApp c;
     mConnectedProducerListener := mConnectedProducerListener c;
     mConnectedApi := mConnectedApi c;
     mMaxAcquiredBufferCount := mMaxAcquiredBufferCount c;
     mGenerationNumber := mGenerationNumber c;
     mUseAsyncBuffer := mUseAsyncBuffer c;
     mDefaultWidth := mDefaultWidth c;
     mDefaultHeight := mDefaultHeight c;
     mDefaultBufferFormat := v;
     mDefaultBufferDataSpace := mDefaultBufferDataSpace c;
     mConsumerUsageBits := mConsumerUsageBits c;
     mTransformHint := mTransformHint c;
     mConsumerName := mConsumerName c |}.

Definition set_mDefaultBufferDataSpace (v : Z) (c : t) : t :=
  {| mSlots := mSlots c;
     mQueue := mQueue c;
     mFreeSlots := mFreeSlots c;
     mFreeBuffers := mFreeBuffers c;
     mIsAbandoned := mIsAbandoned c;
     mConsumerListener := mConsumerListener c;
     mConsumerControlledByApp := mConsumerControlledByApp c;
     mConnectedProducerListener := mConnectedProducerListener c;
     mConnectedApi := mConnectedApi c;
     mMaxAcquiredBufferCount := mMaxAcquiredBufferCount c;
     mGenerationNumber := mGenerationNumber c;
     mUseAsyncBuffer := mUseAsyncBuffer c;
     mDefaultWidth := mDefaultWidth c;
     mDefaultHeight := mDefaultHeight c;
     mDefaultBufferFormat := mDefaultBufferFormat c;
     mDefaultBufferDataSpace := v;
     mConsumerUsageBits := mConsumerUsageBits c;
     mTransformHint := mTransformHint c;
     mConsumerName := mConsumerName c |}.

Definition set_mConsumerUsageBits (v : N) (c : t) : t :=
  {| mSlots := mSlots c;
     mQueue := mQueue c;
     mFreeSlots := mFreeSlots c;
     mFreeBuffers := mFreeBuffers c;
     mIsAbandoned := mIsAbandoned c;
     mConsumerListener := mConsumerListener c;
     mConsumerControlledByApp := mConsumerControlledByApp c;
     mConnectedProducerListener := mConnectedProducerListener c;
     mConnectedApi := mConnectedApi c;
     mMaxAcquiredBufferCount := mMaxAcquiredBufferCount c;
     mGenerationNumber := mGenerationNumber c;
     mUseAsyncBuffer := mUseAsyncBuffer c;
     mDefaultWidth := mDefaultWidth c;
     mDefaultHeight := mDefaultHeight c;
     mDefaultBufferFormat := mDefaultBufferFormat c;
     mDefaultBufferDataSpace := mDefaultBufferDataSpace c;
     mConsumerUsageBits := v;
     mTransformHint := mTransformHint c;
     mConsumerName := mConsumerName c |}.

Definition set_mTransformHint (v : N) (c : t) : t :=
  {| mSlots := mSlots c;
     mQueue := mQueue c;
     mFreeSlots := mFreeSlots c;
     mFreeBuffers := mFreeBuffers c;
     mIsAbandoned := mIsAbandoned c;
     mConsumerListener := mConsumerListener c;
     mConsumerControlledByApp := mConsumerControlledByApp c;
     mConnectedProducerListener := mConnectedProducerListener c;
     mConnectedApi := mConnectedApi c;
     mMaxAcquiredBufferCount := mMaxAcquiredBufferCount c;
     mGenerationNumber := mGenerationNumber c;
     mUseAsyncBuffer := mUseAsyncBuffer c;
     mDefaultWidth := mDefaultWidth c;
     mDefaultHeight := mDefaultHeight c;
     mDefaultBufferFormat := mDefaultBufferFormat c;
     mDefaultBufferDataSpace := mDefaultBufferDataSpace c;
     mConsumerUsageBits := mConsumerUsageBits c;
     mTransformHint := v;
     mConsumerName := mConsumerName c |}.

Definition set_mConsumerName (v : string) (c : t) : t :=
  {| mSlots := mSlots c;
     mQueue := mQueue c;
     mFreeSlots := mFreeSlots c;
     mFreeBuffers := mFreeBuffers c;
     mIsAbandoned := mIsAbandoned c;
     mConsumerListener := mConsumerListener c;
     mConsumerControlledByApp := mConsumerControlledByApp c;
     mConnectedProducerListener := mConnectedProducerListener c;
     mConnectedApi := mConnectedApi c;
     mMaxAcquiredBufferCount := mMaxAcquiredBufferCount c;
     mGenerationNumber := mGenerationNumber c;
     mUseAsyncBuffer := mUseAsyncBuffer c;
     mDefaultWidth := mDefaultWidth c;
     mDefaultHeight := mDefaultHeight c;
     mDefaultBufferFormat := mDefaultBufferFormat c;
     mDefaultBufferDataSpace := mDefaultBufferDataSpace c;
     mConsumerUsageBits := mConsumerUsageBits c;
     mTransformHint := mTransformHint c;
     mConsumerName := v |}.

End BufferQueueCore.

(** ** Slot table access *)

Definition emptySlot : BufferSlot.t :=
  {| BufferSlot.mGraphicBuffer := None;
     BufferSlot.mBufferState := BufferSlot.FREE;
     BufferSlot.mFence := Some NO_FENCE;
     BufferSlot.mFrameNumber := 0%N;
     BufferSlot.mAcquireCalled := false;
     BufferSlot.mAttachedByConsumer := false;
     BufferSlot.mNeedsCleanupOnRelease := false;
     BufferSlot.mEglDisplay := 0;
     BufferSlot.mEglFence := 0 |}.

(** [mSlots[i]] as an rvalue.  The table of a well-formed core has
    [NUM_BUFFER_SLOTS] rows; an index outside the table reads as an empty
    slot. *)
Definition slotAt (slots : list BufferSlot.t) (i : Z) : BufferSlot.t :=
  if 0 <=? i then default emptySlot (slots !! Z.to_nat i) else emptySlot.

(** [mSlots[i].field = ...]: the row at [i] is replaced by [f] of it. *)
Definition updateSlot (i : Z) (f : BufferSlot.t -> BufferSlot.t)
    (slots : list BufferSlot.t) : list BufferSlot.t :=
  if 0 <=? i then alter f (Z.to_nat i) slots else slots.

(** The counting loop [for (s = 0; s < NUM_BUFFER_SLOTS; ++s)] that opens
    [acquireBuffer] and [attachBuffer]. *)
Definition isAcquired (b : BufferSlot.t) : bool :=
  bool_decide (BufferSlot.mBufferState b = BufferSlot.ACQUIRED).

Fixpoint countAcquired (slots : list BufferSlot.t) : Z :=
  match slots with
  | [] => 0
  | b :: slots' =>
      (if isAcquired b then 1 else 0) + countAcquired slots'
  end.

Definition numAcquiredBuffers (slots : list BufferSlot.t) : Z :=
  countAcquired (take (Z.to_nat NUM_BUFFER_SLOTS) slots).

(** Modelled from the spec: [BufferQueueCore::stillTracking] is defined in
    a file that is not part of the sources.  The specification describes a
    tracked entry as one whose slot is present in the slot table and holds
    the same buffer as the entry. *)
Definition stillTracking (slots : list BufferSlot.t) (item : BufferItem.t)
    : bool :=
  match BufferSlot.mGraphicBuffer (slotAt slots (BufferItem.mSlot item)),
        BufferItem.mGraphicBuffer item with
  | Some resident, Some queued => bool_decide (handle queued = handle resident)
  | _, _ => false
  end.

(** ** Observable events of an endpoint call, in program order *)

Inductive Event : Type :=
  | EvLock                                  (* Mutex::Autolock taken *)
  | EvUnlock                                (* ... and released *)
  | EvBroadcast                             (* mDequeueCondition.broadcast() *)
  | EvOnBufferReleased (l : ListenerId).    (* listener->onBufferReleased() *)

Global Instance Event_eq_dec : EqDecision Event.
Proof. solve_decision. Defined.

(** What a call leaves behind: the status it returns, what it wrote
    through its out-parameter (if it wrote), the core, and its events. *)
Record Outcome (A : Type) : Type := mkOutcome {
  status : status_t;
  out : option A;
  core : BufferQueueCore.t;
  events : list Event
}.

Arguments mkOutcome {A} _ _ _ _.
Arguments status {A} _.
Arguments out {A} _.
Arguments core {A} _.
Arguments events {A} _.

(** The same outcome, seen through a change [f] of the core. *)
Definition withCore {A : Type} (f : BufferQueueCore.t -> BufferQueueCore.t)
    (r : Outcome A) : Outcome A :=
  mkOutcome (status r) (out r) (f (core r)) (events r).

(** ** BufferQueueConsumer *)

Module BufferQueueConsumer.

Import BufferQueueCore.

Definition MAX_REASONABLE_NSEC : Z := 1000000000.

(** *** acquireBuffer *)

(** The two locals that survive the locked scope. *)
Record Locals : Type := {
  listener : option ListenerId;
  numDroppedBuffers : nat
}.

Definition initLocals : Locals :=
  {| listener := None; numDroppedBuffers := 0 |}.

(** The tests made by one turn of the drop loop, on a queue whose first
    two entries are [front] and [bufferItem]: the [while] condition, then
    the two [break]s. *)
Definition dropTest (expectedPresent : Z) (maxFrameNumber : N)
    (front bufferItem : BufferItem.t) : bool :=
  if BufferItem.mIsAutoTimestamp front then false
  else if negb (maxFrameNumber =? 0)%N
          && (maxFrameNumber <? BufferItem.mFrameNumber bufferItem)%N
  then false
  else
    let desiredPresent := BufferItem.mTimestamp bufferItem in
    if (desiredPresent <? wrap_int64 (expectedPresent - MAX_REASONABLE_NSEC))
       || (expectedPresent <? desiredPresent)
    then false
    else true.

(** The body of the drop loop up to, and not including, the erasure of
    the front entry. *)
Definition dropFront (front : BufferItem.t) (c : t) (l : Locals)
    : t * Locals :=
  if stillTracking (mSlots c) front then
    let slots := updateSlot (BufferItem.mSlot front)
                   (BufferSlot.set_mBufferState BufferSlot.FREE) (mSlots c) in
    (set_mFreeBuffers (mFreeBuffers c ++ [BufferItem.mSlot front])
       (set_mSlots slots c),
     {| listener := mConnectedProducerListener c;
        numDroppedBuffers := S (numDroppedBuffers l) |})
  else (c, l).

(** The drop loop.  The queue is carried as [front :: rest]; erasing the
    front entry makes the head of [rest] the new front.  The loop returns
    the queue it stops on, and the core and locals at that point. *)
Fixpoint dropLoop (expectedPresent : Z) (maxFrameNumber : N)
    (front : BufferItem.t) (rest : list BufferItem.t) (c : t) (l : Locals)
    {struct rest} : BufferItem.t * list BufferItem.t * t * Locals :=
  match rest with
  | [] => (front, rest, c, l)
  | bufferItem :: rest' =>
      if dropTest expectedPresent maxFrameNumber front bufferItem then
        let '(c', l') := dropFront front c l in
        dropLoop expectedPresent maxFrameNumber bufferItem rest' c' l'
      else (front, rest, c, l)
  end.

Definition bufferIsDue (expectedPresent : Z) (front : BufferItem.t) : bool :=
  let desiredPresent := BufferItem.mTimestamp front in
  (desiredPresent <=? expectedPresent)
  || (wrap_int64 (expectedPresent + MAX_REASONABLE_NSEC) <? desiredPresent).

Definition consumerIsReady (maxFrameNumber : N) (front : BufferItem.t) : bool :=
  if (0 <? maxFrameNumber)%N
  then (BufferItem.mFrameNumber front <=? maxFrameNumber)%N
  else true.

(** The callbacks made once the lock is released. *)
Definition notifyDropped (l : Locals) : list Event :=
  match listener l with
  | Some p => repeat (EvOnBufferReleased p) (numDroppedBuffers l)
  | None => []
  end.

(** The slot update made for a front entry that is still tracked. *)
Definition markAcquired (b : BufferSlot.t) : BufferSlot.t :=
  BufferSlot.set_mFence (Some NO_FENCE)
    (BufferSlot.set_mBufferState BufferSlot.ACQUIRED
       (BufferSlot.set_mNeedsCleanupOnRelease false
          (BufferSlot.set_mAcquireCalled true b))).

(** The success path: from [int slot = front->mSlot] to the end. *)
Definition acquireFront (front : BufferItem.t) (rest : list BufferItem.t)
    (c : t) (l : Locals) : Outcome BufferItem.t :=
  let slot := BufferItem.mSlot front in
  let outBuffer := front in
  let c1 :=
    if stillTracking (mSlots c) front
    then set_mSlots (updateSlot slot markAcquired (mSlots c)) c
    else c in
  let outBuffer :=
    if BufferItem.mAcquireCalled outBuffer
    then BufferItem.set_mGraphicBuffer None outBuffer
    else outBuffer in
  let c2 := set_mQueue rest c1 in
  mkOutcome NO_ERROR (Some outBuffer) c2
    ([EvLock; EvBroadcast; EvUnlock] ++ notifyDropped l).

Definition acquireBuffer (expectedPresent : Z) (maxFrameNumber : N) (c : t)
    : Outcome BufferItem.t :=
  if mMaxAcquiredBufferCount c + 1 <=? numAcquiredBuffers (mSlots c) then
    mkOutcome INVALID_OPERATION None c [EvLock; EvUnlock]
  else
    match mQueue c with
    | [] => mkOutcome NO_BUFFER_AVAILABLE None c [EvLock; EvUnlock]
    | front0 :: rest0 =>
        if expectedPresent =? 0 then acquireFront front0 rest0 c initLocals
        else
          let '(front, rest, c1, l) :=
            dropLoop expectedPresent maxFrameNumber front0 rest0 c initLocals in
          let c2 := set_mQueue (front :: rest) c1 in
          if negb (bufferIsDue expectedPresent front)
             || negb (consumerIsReady maxFrameNumber front)
          then mkOutcome PRESENT_LATER None c2 [EvLock; EvUnlock]
          else acquireFront front rest c2 l
    end.

(** *** detachBuffer

    [BufferQueueCore::freeBufferLocked] is defined outside the sources;
    the operation is parametrised by it. *)
Definition detachBuffer (freeBufferLocked : Z -> t -> t) (slot : Z) (c : t)
    : Outcome unit :=
  if mIsAbandoned c then mkOutcome NO_INIT None c [EvLock; EvUnlock]
  else if (slot <? 0) || (NUM_BUFFER_SLOTS <=? slot) then
    mkOutcome BAD_VALUE None c [EvLock; EvUnlock]
  else if negb (isAcquired (slotAt (mSlots c) slot)) then
    mkOutcome BAD_VALUE None c [EvLock; EvUnlock]
  else
    mkOutcome NO_ERROR None (freeBufferLocked slot c)
      [EvLock; EvBroadcast; EvUnlock].

(** *** attachBuffer *)

(** The choice of a slot: the first of [mFreeSlots], else the front of
    [mFreeBuffers] (all of whose occurrences [std::list::remove] takes
    out), else none. *)
Definition findFreeSlot (c : t) : Z * t :=
  match mFreeSlots c with
  | slot :: others => (slot, set_mFreeSlots others c)
  | [] =>
      match mFreeBuffers c with
      | found :: _ =>
          (found,
           set_mFreeBuffers
             (filter (fun s => s <> found) (mFreeBuffers c)) c)
      | [] => (INVALID_BUFFER_SLOT, c)
      end
  end.

Definition markAttached (buffer : GraphicBuffer) (b : BufferSlot.t)
    : BufferSlot.t :=
  BufferSlot.set_mAcquireCalled false
    (BufferSlot.set_mFrameNumber 0%N
       (BufferSlot.set_mFence (Some NO_FENCE)
          (BufferSlot.set_mNeedsCleanupOnRelease false
             (BufferSlot.set_mAttachedByConsumer true
                (BufferSlot.set_mBufferState BufferSlot.ACQUIRED
                   (BufferSlot.set_mGraphicBuffer (Some buffer) b)))))).

(** [outSlot] tells whether the out-pointer is non-null; the slot
    written through it is the [out] of the outcome. *)
Definition attachBuffer (outSlot : bool) (buffer : option GraphicBuffer)
    (c : t) : Outcome Z :=
  if negb outSlot then mkOutcome BAD_VALUE None c []
  else
    match buffer with
    | None => mkOutcome BAD_VALUE None c []
    | Some buf =>
        if mMaxAcquiredBufferCount c + 1 <=? numAcquiredBuffers (mSlots c)
        then mkOutcome INVALID_OPERATION None c [EvLock; EvUnlock]
        else if negb (getGenerationNumber buf =? mGenerationNumber c)%N
        then mkOutcome BAD_VALUE None c [EvLock; EvUnlock]
        else
          let '(found, c1) := findFreeSlot c in
          if found =? INVALID_BUFFER_SLOT
          then mkOutcome NO_MEMORY None c1 [EvLock; EvUnlock]
          else
            mkOutcome NO_ERROR (Some found)
              (set_mSlots (updateSlot found (markAttached buf) (mSlots c1)) c1)
              [EvLock; EvUnlock]
    end.

(** *** releaseBuffer *)

Definition isQueued (slot : Z) (q : list BufferItem.t) : bool :=
  existsb (fun current => BufferItem.mSlot current =? slot) q.

Definition markReleased (releaseFence : Fence) (eglDisplay eglFence : Z)
    (b : BufferSlot.t) : BufferSlot.t :=
  BufferSlot.set_mBufferState BufferSlot.FREE
    (BufferSlot.set_mFence (Some releaseFence)
       (BufferSlot.set_mEglFence eglFence
          (BufferSlot.set_mEglDisplay eglDisplay b))).

Definition notifyReleased (l : option ListenerId) : list Event :=
  match l with
  | Some p => [EvOnBufferReleased p]
  | None => []
  end.

Definition releaseBuffer (slot : Z) (frameNumber : N)
    (releaseFence : option Fence) (eglDisplay eglFence : Z) (c : t)
    : Outcome unit :=
  match releaseFence with
  | None => mkOutcome BAD_VALUE None c []
  | Some fence =>
      if (slot <? 0) || (NUM_BUFFER_SLOTS <=? slot) then
        mkOutcome BAD_VALUE None c []
      else if negb (frameNumber =? BufferSlot.mFrameNumber
                                     (slotAt (mSlots c) slot))%N then
        mkOutcome STALE_BUFFER_SLOT None c [EvLock; EvUnlock]
      else if isQueued slot (mQueue c) then
        mkOutcome BAD_VALUE None c [EvLock; EvUnlock]
      else if isAcquired (slotAt (mSlots c) slot) then
        let slots :=
          updateSlot slot (markReleased fence eglDisplay eglFence) (mSlots c) in
        mkOutcome NO_ERROR None
          (set_mFreeBuffers (mFreeBuffers c ++ [slot]) (set_mSlots slots c))
          ([EvLock; EvBroadcast; EvUnlock]
             ++ notifyReleased (mConnectedProducerListener c))
      else if BufferSlot.mNeedsCleanupOnRelease (slotAt (mSlots c) slot) then
        mkOutcome STALE_BUFFER_SLOT None
          (set_mSlots
             (updateSlot slot (BufferSlot.set_mNeedsCleanupOnRelease false)
                (mSlots c)) c)
          [EvLock; EvUnlock]
      else mkOutcome BAD_VALUE None c [EvLock; EvUnlock]
  end.

(** *** connect, disconnect *)

Definition connect (consumerListener : option ListenerId)
    (controlledByApp : bool) (c : t) : Outcome unit :=
  match consumerListener with
  | None => mkOutcome BAD_VALUE None c []
  | Some _ =>
      if mIsAbandoned c then mkOutcome NO_INIT None c [EvLock; EvUnlock]
      else
        mkOutcome NO_ERROR None
          (set_mConsumerControlledByApp controlledByApp
             (set_mConsumerListener consumerListener c))
          [EvLock; EvUnlock]
  end.

(** [BufferQueueCore::freeAllBuffersLocked] is defined outside the
    sources; the operation is parametrised by it. *)
Definition disconnect (freeAllBuffersLocked : t -> t) (c : t) : Outcome unit :=
  match mConsumerListener c with
  | None => mkOutcome BAD_VALUE None c [EvLock; EvUnlock]
  | Some _ =>
      mkOutcome NO_ERROR None
        (freeAllBuffersLocked
           (set_mQueue []
              (set_mConsumerListener None (set_mIsAbandoned true c))))
        [EvLock; EvBroadcast; EvUnlock]
  end.

(** *** getReleasedBuffers *)

Fixpoint maskNotAcquired (s : N) (slots : list BufferSlot.t) (mask : N) : N :=
  match slots with
  | [] => mask
  | b :: slots' =>
      maskNotAcquired (s + 1)%N slots'
        (if BufferSlot.mAcquireCalled b then mask
         else N.lor mask (N.shiftl 1 s))
  end.

Fixpoint maskClearQueued (q : list BufferItem.t) (mask : N) : N :=
  match q with
  | [] => mask
  | current :: q' =>
      maskClearQueued q'
        (if BufferItem.mAcquireCalled current
         then N.ldiff mask (N.shiftl 1 (Z.to_N (BufferItem.mSlot current)))
         else mask)
  end.

Definition getReleasedBuffers (outSlotMask : bool) (c : t) : Outcome N :=
  if negb outSlotMask then mkOutcome BAD_VALUE None c []
  else if mIsAbandoned c then mkOutcome NO_INIT None c [EvLock; EvUnlock]
  else
    let mask :=
      maskNotAcquired 0 (take (Z.to_nat NUM_BUFFER_SLOTS) (mSlots c)) 0%N in
    mkOutcome NO_ERROR (Some (maskClearQueued (mQueue c) mask)) c
      [EvLock; EvUnlock].

(** *** Configuration setters *)

Definition setDefaultBufferSize (width height : N) (c : t) : Outcome unit :=
  if (width =? 0)%N || (height =? 0)%N then mkOutcome BAD_VALUE None c []
  else
    mkOutcome NO_ERROR None (set_mDefaultHeight height (set_mDefaultWidth width c))
      [EvLock; EvUnlock].

(** [BufferQueueCore::setDefaultMaxBufferCountLocked] is defined outside
    the sources; the setter only takes the lock and calls it. *)
Definition setDefaultMaxBufferCount
    (setDefaultMaxBufferCountLocked : Z -> t -> status_t * t)
    (bufferCount : Z) (c : t) : Outcome unit :=
  let '(result, c') := setDefaultMaxBufferCountLocked bufferCount c in
  mkOutcome result None c' [EvLock; EvUnlock].

Definition disableAsyncBuffer (c : t) : Outcome unit :=
  match mConsumerListener c with
  | Some _ => mkOutcome INVALID_OPERATION None c [EvLock; EvUnlock]
  | None => mkOutcome NO_ERROR None (set_mUseAsyncBuffer false c) [EvLock; EvUnlock]
  end.

Definition setMaxAcquiredBufferCount (MAX_MAX_ACQUIRED_BUFFERS : Z)
    (maxAcquiredBuffers : Z) (c : t) : Outcome unit :=
  if (maxAcquiredBuffers <? 1)
     || (MAX_MAX_ACQUIRED_BUFFERS <? maxAcquiredBuffers)
  then mkOutcome BAD_VALUE None c []
  else if negb (mConnectedApi c =? NO_CONNECTED_API)
  then mkOutcome INVALID_OPERATION None c [EvLock; EvUnlock]
  else
    mkOutcome NO_ERROR None (set_mMaxAcquiredBufferCount maxAcquiredBuffers c)
      [EvLock; EvUnlock].

(** The setters below return [void] or always [NO_ERROR].
    [setConsumerName] also keeps a copy of the name in the endpoint
    object, which nothing else in the file reads. *)
Definition setConsumerName (name : string) (c : t) : Outcome unit :=
  mkOutcome NO_ERROR None (set_mConsumerName name c) [EvLock; EvUnlock].

Definition setDefaultBufferFormat (defaultFormat : Z) (c : t) : Outcome unit :=
  mkOutcome NO_ERROR None (set_mDefaultBufferFormat defaultFormat c)
    [EvLock; EvUnlock].

Definition setDefaultBufferDataSpace (defaultDataSpace : Z) (c : t)
    : Outcome unit :=
  mkOutcome NO_ERROR None (set_mDefaultBufferDataSpace defaultDataSpace c)
    [EvLock; EvUnlock].

Definition setConsumerUsageBits (usage : N) (c : t) : Outcome unit :=
  mkOutcome NO_ERROR None (set_mConsumerUsageBits usage c) [EvLock; EvUnlock].

Definition setTransformHint (hint : N) (c : t) : Outcome unit :=
  mkOutcome NO_ERROR None (set_mTransformHint hint c) [EvLock; EvUnlock].

End BufferQueueConsumer.

(** ** BufferLayer: the frame-available and frame-replaced callbacks *)

Module BufferLayer.

Definition wrap_int32 (z : Z) : Z := (z + 2 ^ 31) mod 2 ^ 32 - 2 ^ 31.

(** Calls out of the layer and log lines, in program order. *)
Inductive Note : Type :=
  | NoteSaveBufferUpdate (frameNumber : N)  (* mInterceptor.saveBufferUpdate *)
  | NoteTimedOut                            (* ALOGE("Timed out waiting on callback") *)
  | NoteEmptyQueue                          (* ALOGE("Can't replace a frame on an empty queue") *)
  | NoteBroadcast                           (* mQueueItemCondition.broadcast() *)
  | NoteSignalLayerUpdate.                  (* mFlinger->signalLayerUpdate() *)

(** The members the two callbacks touch; all but [notes] are guarded by
    [mQueueItemLock]. *)
Record t : Type := {
  mQueueItems : list BufferItem.t;
  mQueuedFrames : Z;
  mLastFrameNumberReceived : N;
  notes : list Note
}.

Definition set_mQueueItems (v : list BufferItem.t) (l : t) : t :=
  {| mQueueItems := v;
     mQueuedFrames := mQueuedFrames l;
     mLastFrameNumberReceived := mLastFrameNumberReceived l;
     notes := notes l |}.

Definition set_mQueuedFrames (v : Z) (l : t) : t :=
  {| mQueueItems := mQueueItems l;
     mQueuedFrames := v;
     mLastFrameNumberReceived := mLastFrameNumberReceived l;
     notes := notes l |}.

Definition set_mLastFrameNumberReceived (v : N) (l : t) : t :=
  {| mQueueItems := mQueueItems l;
     mQueuedFrames := mQueuedFrames l;
     mLastFrameNumberReceived := v;
     notes := notes l |}.

Definition note (n : Note) (l : t) : t :=
  {| mQueueItems := mQueueItems l;
     mQueuedFrames := mQueuedFrames l;
     mLastFrameNumberReceived := mLastFrameNumberReceived l;
     notes := notes l ++ [n] |}.

(** One return of [mQueueItemCondition.waitRelative(mQueueItemLock,
    ms2ns(500))]: its result ([NO_ERROR] when signalled, [TIMED_OUT] after
    500 ms), and what the other threads did to the layer while the lock
    was given up. *)
Record Wake : Type := {
  result : status_t;
  others : t -> t
}.

(** Where a callback stands once the wake-ups it is given are used up:
    it has returned, or it is blocked in [waitRelative] again. *)
Inductive Run : Type :=
  | Returned (l : t)
  | Waiting (l : t).

Definition inOrder (item : BufferItem.t) (l : t) : bool :=
  (BufferItem.mFrameNumber item
     =? wrap_uint64 (mLastFrameNumberReceived l + 1))%N.

(** The layer as one return of [waitRelative] leaves it: the other
    threads have run, and a result other than [NO_ERROR] has been
    logged. *)
Definition woken (w : Wake) (l : t) : t :=
  let l := others w l in
  if bool_decide (result w = NO_ERROR) then l else note NoteTimedOut l.


(** The loop [while (item.mFrameNumber != mLastFrameNumberReceived + 1)]
    run against the wake-ups [wakes]; [k] is the rest of the locked
    scope. *)
Fixpoint waitInOrder (wakes : list Wake) (item : BufferItem.t)
    (k : t -> Run) (l : t) : Run :=
  if inOrder item l then k l
  else
    match wakes with
    | [] => Waiting l
    | w :: wakes' => waitInOrder wakes' item k (woken w l)
    end.

(** [onFrameAvailable] up to the wait loop. *)
Definition arrive (item : BufferItem.t) (l : t) : t :=
  let l := note (NoteSaveBufferUpdate (BufferItem.mFrameNumber item)) l in
  if (BufferItem.mFrameNumber item =? 1)%N
  then set_mLastFrameNumberReceived 0%N l
  else l.

(** [onFrameAvailable] after the wait loop. *)
Definition accept (item : BufferItem.t) (l : t) : t :=
  let l := set_mQueueItems (mQueueItems l ++ [item]) l in
  let l := set_mQueuedFrames (wrap_int32 (mQueuedFrames l + 1)) l in
  let l := set_mLastFrameNumberReceived (BufferItem.mFrameNumber item) l in
  let l := note NoteBroadcast l in
  note NoteSignalLayerUpdate l.

Definition onFrameAvailable (wakes : list Wake) (item : BufferItem.t) (l : t)
    : Run :=
  waitInOrder wakes item (fun l => Returned (accept item l)) (arrive item l).

(** [onFrameReplaced] after the wait loop. *)
Definition replace (item : BufferItem.t) (l : t) : t :=
  match mQueueItems l with
  | [] => note NoteEmptyQueue l
  | _ :: _ =>
      let l :=
        set_mQueueItems
          (<[ (length (mQueueItems l) - 1)%nat := item ]> (mQueueItems l)) l in
      let l := set_mLastFrameNumberReceived (BufferItem.mFrameNumber item) l in
      note NoteBroadcast l
  end.


(** A wait that ends after 500 ms with nothing received meanwhile. *)
Definition timedOut : Wake := {| result := TIMED_OUT; others := fun l => l |}.

End BufferLayer.

(** ** The entries a call drops *)

Module Dropped.

Import BufferQueueCore BufferQueueConsumer.

(** The entries erased by [dropLoop], oldest first, each with the answer
    [stillTracking] gave when it was erased. *)
Fixpoint ofLoop (expectedPresent : Z) (maxFrameNumber : N)
    (front : BufferItem.t) (rest : list BufferItem.t) (c : t)
    {struct rest} : list (BufferItem.t * bool) :=
  match rest with
  | [] => []
  | bufferItem :: rest' =>
      if dropTest expectedPresent maxFrameNumber front bufferItem then
        (front, stillTracking (mSlots c) front)
          :: ofLoop expectedPresent maxFrameNumber bufferItem rest'
               (dropFront front c initLocals).1
      else []
  end.

(** The entries erased by the drop loop of one [acquireBuffer] call. *)
Definition ofAcquire (expectedPresent : Z) (maxFrameNumber : N) (c : t)
    : list (BufferItem.t * bool) :=
  if mMaxAcquiredBufferCount c + 1 <=? numAcquiredBuffers (mSlots c) then []
  else
    match mQueue c with
    | [] => []
    | front0 :: rest0 =>
        if expectedPresent =? 0 then []
        else ofLoop expectedPresent maxFrameNumber front0 rest0 c
    end.

(** How many of them were still tracked. *)
Definition tracked (dropped : list (BufferItem.t * bool)) : nat :=
  length (filter (fun d => d.2 = true) dropped).

End Dropped.

(** ** The acquire algorithm in the specification's words *)

Module Spec.

Definition TOLERANCE : Z := 10 ^ 9.

(** "the second entry's frame number would still be acceptable to the
    consumer (<= max_frame_number when set)" *)
Definition acceptable (max_frame_number frame_number : N) : bool :=
  (max_frame_number =? 0)%N || (frame_number <=? max_frame_number)%N.

(** "Drop iff expected_present - 10^9 <= desired <= expected_present" *)
Definition timely (expected_present desired : Z) : bool :=
  (expected_present - TOLERANCE <=? desired) && (desired <=? expected_present).

(** "while queue has >1 entry, the front entry is not auto-timestamped,
    and the second entry's frame number would still be acceptable" *)
Definition drops_front (expected_present : Z) (max_frame_number : N)
    (queue : list BufferItem.t) : bool :=
  match queue with
  | front :: second :: _ =>
      negb (BufferItem.mIsAutoTimestamp front)
      && acceptable max_frame_number (BufferItem.mFrameNumber second)
      && timely expected_present (BufferItem.mTimestamp second)
  | _ => false
  end.

(** "On drop: if the front's slot is still tracked, mark slot FREE and
    push to free_buffers.  Erase front." *)
Definition free_front (front : BufferItem.t)
    (slots : list BufferSlot.t) (free_buffers : list Z)
    : list BufferSlot.t * list Z :=
  if stillTracking slots front then
    (updateSlot (BufferItem.mSlot front)
       (BufferSlot.set_mBufferState BufferSlot.FREE) slots,
     free_buffers ++ [BufferItem.mSlot front])
  else (slots, free_buffers).

Fixpoint drop_loop (expected_present : Z) (max_frame_number : N)
    (queue : list BufferItem.t) (slots : list BufferSlot.t)
    (free_buffers : list Z)
    : list BufferItem.t * list BufferSlot.t * list Z :=
  match queue with
  | [] => (queue, slots, free_buffers)
  | front :: queue' =>
      if drops_front expected_present max_frame_number queue then
        let '(slots', free_buffers') := free_front front slots free_buffers in
        drop_loop expected_present max_frame_number queue' slots' free_buffers'
      else (queue, slots, free_buffers)
  end.

(** "buffer_is_due := desired <= expected_present or
     desired > expected_present + 10^9" *)
Definition buffer_is_due (expected_present desired : Z) : bool :=
  (desired <=? expected_present) || (expected_present + TOLERANCE <? desired).

(** "consumer_is_ready := max_frame_number == 0 or
     front.frame_number <= max_frame_number" *)
Definition consumer_is_ready (max_frame_number frame_number : N) : bool :=
  (max_frame_number =? 0)%N || (frame_number <=? max_frame_number)%N.

End Spec.

(** ** Concrete cores used to exercise the operations *)

Module Scenario.

Import BufferQueueCore.

Definition buffer (h : Z) (generation : N) : GraphicBuffer :=
  {| handle := h; getGenerationNumber := generation |}.

(** A slot in state [s] that holds buffer [h] and was last queued as
    frame [frame]. *)
Definition slot (s : BufferSlot.State) (h : Z) (frame : N) : BufferSlot.t :=
  {| BufferSlot.mGraphicBuffer := Some (buffer h 0);
     BufferSlot.mBufferState := s;
     BufferSlot.mFence := Some NO_FENCE;
     BufferSlot.mFrameNumber := frame;
     BufferSlot.mAcquireCalled := false;
     BufferSlot.mAttachedByConsumer := false;
     BufferSlot.mNeedsCleanupOnRelease := false;
     BufferSlot.mEglDisplay := 0;
     BufferSlot.mEglFence := 0 |}.

(** A queue entry for slot [s] carrying buffer [h]. *)
Definition item (s : Z) (h : Z) (frame : N) (timestamp : Z) (auto : bool)
    : BufferItem.t :=
  {| BufferItem.mSlot := s;
     BufferItem.mGraphicBuffer := Some (buffer h 0);
     BufferItem.mFrameNumber := frame;
     BufferItem.mTimestamp := timestamp;
     BufferItem.mIsAutoTimestamp := auto;
     BufferItem.mIsDroppable := false;
     BufferItem.mAcquireCalled := false;
     BufferItem.mFence := Some NO_FENCE |}.

(** A table of [NUM_BUFFER_SLOTS] rows, empty but for the rows given. *)
Definition table (rows : list (Z * BufferSlot.t)) : list BufferSlot.t :=
  fold_right (fun r slots => updateSlot (fst r) (fun _ => snd r) slots)
    (replicate (Z.to_nat NUM_BUFFER_SLOTS) emptySlot) rows.

(** A core with a producer listener connected, a consumer connected, and
    [mMaxAcquiredBufferCount = 1]. *)
Definition coreOf (abandoned : bool) (slots : list BufferSlot.t)
    (queue : list BufferItem.t) (freeBuffers : list Z) : t :=
  {| mSlots := slots;
     mQueue := queue;
     mFreeSlots := [];
     mFreeBuffers := freeBuffers;
     mIsAbandoned := abandoned;
     mConsumerListener := if abandoned then None else Some 1%nat;
     mConsumerControlledByApp := false;
     mConnectedProducerListener := Some 7%nat;
     mConnectedApi := 1;
     mMaxAcquiredBufferCount := 1;
     mGenerationNumber := 0%N;
     mUseAsyncBuffer := false;
     mDefaultWidth := 1%N;
     mDefaultHeight := 1%N;
     mDefaultBufferFormat := 1;
     mDefaultBufferDataSpace := 0;
     mConsumerUsageBits := 0%N;
     mTransformHint := 0%N;
     mConsumerName := "consumer" |}.

(** An abandoned core: empty queue, slot 0 free with a buffer left. *)
Definition abandoned : t :=
  coreOf true (table [(0, slot BufferSlot.FREE 10 0)]) [] [0].

(** One frame queued for 1.5 s, explicit timestamp. *)
Definition oneLate : t :=
  coreOf false (table [(3, slot BufferSlot.QUEUED 30 1)])
    [item 3 30 1 1500000000 false] [].

(** Two frames with explicit timestamps, 1 s and 2 s, in slots 3 and 7. *)
Definition twoTimely : t :=
  coreOf false
    (table [(3, slot BufferSlot.QUEUED 30 1); (7, slot BufferSlot.QUEUED 70 2)])
    [item 3 30 1 1000000000 false; item 7 70 2 2000000000 false] [].

(** One frame queued for 1000 ns, explicit timestamp. *)
Definition oneOnTime : t :=
  coreOf false (table [(3, slot BufferSlot.QUEUED 30 1)])
    [item 3 30 1 1000 false] [].

(** One frame, number 5. *)
Definition frameFive : t :=
  coreOf false (table [(3, slot BufferSlot.QUEUED 30 5)])
    [item 3 30 5 1000 false] [].

(** As [twoTimely], but slot 3 has since been given another buffer, so
    the first entry is no longer tracked. *)
Definition staleFront : t :=
  coreOf false
    (table [(3, slot BufferSlot.DEQUEUED 31 0); (7, slot BufferSlot.QUEUED 70 2)])
    [item 3 30 1 1000000000 false; item 7 70 2 2000000000 false] [].

(** One entry whose slot has since been given another buffer. *)
Definition staleOnly : t :=
  coreOf false (table [(3, slot BufferSlot.DEQUEUED 31 0)])
    [item 3 30 1 1000 false] [].

(** Slots 0 and 1 acquired (the cap, with [mMaxAcquiredBufferCount = 1]),
    slot 2 free with a buffer. *)
Definition atCap : t :=
  coreOf false
    (table [(0, slot BufferSlot.ACQUIRED 10 1);
            (1, slot BufferSlot.ACQUIRED 11 2);
            (2, slot BufferSlot.FREE 12 0)])
    [] [2].

(** As [twoTimely], with slots 0 and 1 acquired besides: the cap is
    reached while two timely frames are queued. *)
Definition atCapTwoTimely : t :=
  coreOf false
    (table [(0, slot BufferSlot.ACQUIRED 10 1);
            (1, slot BufferSlot.ACQUIRED 11 2);
            (3, slot BufferSlot.QUEUED 30 3);
            (7, slot BufferSlot.QUEUED 70 4)])
    [item 3 30 3 1000000000 false; item 7 70 4 2000000000 false] [].

(** Slot 3 acquired as frame 1. *)
Definition oneAcquired : t :=
  coreOf false (table [(3, slot BufferSlot.ACQUIRED 30 1)]) [] [].

End Scenario.

(** ** A layer used to exercise the callbacks *)

Module LayerScenario.

Import BufferLayer.

(** A layer that has received nothing yet. *)
Definition fresh : t :=
  {| mQueueItems := [];
     mQueuedFrames := 0;
     mLastFrameNumberReceived := 0%N;
     notes := [] |}.

(** Frame 3, announced while frames 1 and 2 have not been. *)
Definition third : BufferItem.t := Scenario.item 5 50 3 3000 false.

(** The wake-up in which the callback for frame 2 has run. *)
Definition secondArrives : Wake :=
  {| result := NO_ERROR;
     others := fun l => set_mLastFrameNumberReceived 2%N l |}.

End LayerScenario.

(** ** BufferLayer: latching

    The rest of the layer: the members [latchBuffer] and the composition
    callbacks read and write, around the shadow queue above.  [Layer.h],
    [SurfaceFlingerConsumer] and the frame trackers are not among the
    sources: what the layer asks of them in one call is given to the
    call as an environment, and what it tells them is logged. *)

Module Latching.

(** The part of a [GraphicBuffer] that [latchBuffer] looks at. *)
Record Buffer : Type := {
  width : N;
  height : N;
  format : N
}.

Global Instance Buffer_eq_dec : EqDecision Buffer.
Proof. solve_decision. Defined.

Definition Rect : Type := (Z * Z * Z * Z)%type.

(** A [Layer::SyncPoint], through its accessors. *)
Module SyncPoint.

Record t : Type := {
  getFrameNumber : N;
  frameIsAvailable : bool;
  transactionIsApplied : bool
}.

Definition setFrameAvailable (p : t) : t :=
  {| getFrameNumber := getFrameNumber p;
     frameIsAvailable := true;
     transactionIsApplied := transactionIsApplied p |}.

End SyncPoint.

(** Calls out of the layer other than [signalLayerUpdate], which is
    logged in the notes of the shadow queue. *)
Inductive Call : Type :=
  | CallSetTransactionFlags          (* setTransactionFlags(eTransactionNeeded) *)
  | CallFlingerSetTransactionFlags   (* mFlinger->setTransactionFlags(eTraversalNeeded) *)
  | CallAddLatch (frameNumber : N) (latchTime : Z)
  | CallSetDataSpace (dataSpace : Z)
  | CallAddPreComposition (frameNumber : N) (refreshStartTime : Z)
  | CallAddPostComposition (frameNumber : N)
  | CallSetDesiredPresentTime (time : Z)
  | CallSetFrameReadyFence
  | CallSetFrameReadyTime (time : Z)
  | CallSetActualPresentFence
  | CallSetActualPresentTime (time : Z)
  | CallAdvanceFrame.

Record t : Type := {
  shadow : BufferLayer.t;
  mSidebandStreamChanged : bool;
  mSidebandStream : option Z;
  mAutoRefresh : bool;
  mRefreshPending : bool;
  mUpdateTexImageFailed : bool;
  mActiveBuffer : option Buffer;
  mActiveBufferSlot : Z;
  mBufferLatched : bool;
  mPreviousFrameNumber : N;
  mCurrentFrameNumber : N;
  mFrameLatencyNeeded : bool;
  mCurrentCrop : Rect;
  mCurrentTransform : N;
  mCurrentScalingMode : N;
  mCurrentOpacity : bool;
  mLocalSyncPoints : list SyncPoint.t;
  calls : list Call
}.

Definition set_shadow (v : BufferLayer.t) (l : t) : t :=
  {| shadow := v; mSidebandStreamChanged := mSidebandStreamChanged l;
     mSidebandStream := mSidebandStream l; mAutoRefresh := mAutoRefresh l;
     mRefreshPending := mRefreshPending l; mUpdateTexImageFailed :=
     mUpdateTexImageFailed l; mActiveBuffer := mActiveBuffer l;
     mActiveBufferSlot := mActiveBufferSlot l; mBufferLatched :=
     mBufferLatched l; mPreviousFrameNumber := mPreviousFrameNumber l;
     mCurrentFrameNumber := mCurrentFrameNumber l; mFrameLatencyNeeded :=
     mFrameLatencyNeeded l; mCurrentCrop := mCurrentCrop l;
     mCurrentTransform := mCurrentTransform l; mCurrentScalingMode :=
     mCurrentScalingMode l; mCurrentOpacity := mCurrentOpacity l;
     mLocalSyncPoints := mLocalSyncPoints l; calls := calls l |}.

Definition set_mSidebandStreamChanged (v : bool) (l : t) : t :=
  {| shadow := shadow l; mSidebandStreamChanged := v; mSidebandStream :=
     mSidebandStream l; mAutoRefresh := mAutoRefresh l; mRefreshPending :=
     mRefreshPending l; mUpdateTexImageFailed := mUpdateTexImageFailed l;
     mActiveBuffer := mActiveBuffer l; mActiveBufferSlot :=
     mActiveBufferSlot l; mBufferLatched := mBufferLatched l;
     mPreviousFrameNumber := mPreviousFrameNumber l; mCurrentFrameNumber :=
     mCurrentFrameNumber l; mFrameLatencyNeeded := mFrameLatencyNeeded l;
     mCurrentCrop := mCurrentCrop l; mCurrentTransform := mCurrentTransform
     l; mCurrentScalingMode := mCurrentScalingMode l; mCurrentOpacity :=
     mCurrentOpacity l; mLocalSyncPoints := mLocalSyncPoints l; calls :=
     calls l |}.

Definition set_mSidebandStream (v : option Z) (l : t) : t :=
  {| shadow := shadow l; mSidebandStreamChanged := mSidebandStreamChanged l;
     mSidebandStream := v; mAutoRefresh := mAutoRefresh l; mRefreshPending
     := mRefreshPending l; mUpdateTexImageFailed := mUpdateTexImageFailed l;
     mActiveBuffer := mActiveBuffer l; mActiveBufferSlot :=
     mActiveBufferSlot l; mBufferLatched := mBufferLatched l;
     mPreviousFrameNumber := mPreviousFrameNumber l; mCurrentFrameNumber :=
     mCurrentFrameNumber l; mFrameLatencyNeeded := mFrameLatencyNeeded l;
     mCurrentCrop := mCurrentCrop l; mCurrentTransform := mCurrentTransform
     l; mCurrentScalingMode := mCurrentScalingMode l; mCurrentOpacity :=
     mCurrentOpacity l; mLocalSyncPoints := mLocalSyncPoints l; calls :=
     calls l |}.

Definition set_mAutoRefresh (v : bool) (l : t) : t :=
  {| shadow := shadow l; mSidebandStreamChanged := mSidebandStreamChanged l;
     mSidebandStream := mSidebandStream l; mAutoRefresh := v;
     mRefreshPending := mRefreshPending l; mUpdateTexImageFailed :=
     mUpdateTexImageFailed l; mActiveBuffer := mActiveBuffer l;
     mActiveBufferSlot := mActiveBufferSlot l; mBufferLatched :=
     mBufferLatched l; mPreviousFrameNumber := mPreviousFrameNumber l;
     mCurrentFrameNumber := mCurrentFrameNumber l; mFrameLatencyNeeded :=
     mFrameLatencyNeeded l; mCurrentCrop := mCurrentCrop l;
     mCurrentTransform := mCurrentTransform l; mCurrentScalingMode :=
     mCurrentScalingMode l; mCurrentOpacity := mCurrentOpacity l;
     mLocalSyncPoints := mLocalSyncPoints l; calls := calls l |}.

Definition set_mRefreshPending (v : bool) (l : t) : t :=
  {| shadow := shadow l; mSidebandStreamChanged := mSidebandStreamChanged l;
     mSidebandStream := mSidebandStream l; mAutoRefresh := mAutoRefresh l;
     mRefreshPending := v; mUpdateTexImageFailed := mUpdateTexImageFailed l;
     mActiveBuffer := mActiveBuffer l; mActiveBufferSlot :=
     mActiveBufferSlot l; mBufferLatched := mBufferLatched l;
     mPreviousFrameNumber := mPreviousFrameNumber l; mCurrentFrameNumber :=
     mCurrentFrameNumber l; mFrameLatencyNeeded := mFrameLatencyNeeded l;
     mCurrentCrop := mCurrentCrop l; mCurrentTransform := mCurrentTransform
     l; mCurrentScalingMode := mCurrentScalingMode l; mCurrentOpacity :=
     mCurrentOpacity l; mLocalSyncPoints := mLocalSyncPoints l; calls :=
     calls l |}.

Definition set_mUpdateTexImageFailed (v : bool) (l : t) : t :=
  {| shadow := shadow l; mSidebandStreamChanged := mSidebandStreamChanged l;
     mSidebandStream := mSidebandStream l; mAutoRefresh := mAutoRefresh l;
     mRefreshPending := mRefreshPending l; mUpdateTexImageFailed := v;
     mActiveBuffer := mActiveBuffer l; mActiveBufferSlot :=
     mActiveBufferSlot l; mBufferLatched := mBufferLatched l;
     mPreviousFrameNumber := mPreviousFrameNumber l; mCurrentFrameNumber :=
     mCurrentFrameNumber l; mFrameLatencyNeeded := mFrameLatencyNeeded l;
     mCurrentCrop := mCurrentCrop l; mCurrentTransform := mCurrentTransform
     l; mCurrentScalingMode := mCurrentScalingMode l; mCurrentOpacity :=
     mCurrentOpacity l; mLocalSyncPoints := mLocalSyncPoints l; calls :=
     calls l |}.

Definition set_mActiveBuffer (v : option Buffer) (l : t) : t :=
  {| shadow := shadow l; mSidebandStreamChanged := mSidebandStreamChanged l;
     mSidebandStream := mSidebandStream l; mAutoRefresh := mAutoRefresh l;
     mRefreshPending := mRefreshPending l; mUpdateTexImageFailed :=
     mUpdateTexImageFailed l; mActiveBuffer := v; mActiveBufferSlot :=
     mActiveBufferSlot l; mBufferLatched := mBufferLatched l;
     mPreviousFrameNumber := mPreviousFrameNumber l; mCurrentFrameNumber :=
     mCurrentFrameNumber l; mFrameLatencyNeeded := mFrameLatencyNeeded l;
     mCurrentCrop := mCurrentCrop l; mCurrentTransform := mCurrentTransform
     l; mCurrentScalingMode := mCurrentScalingMode l; mCurrentOpacity :=
     mCurrentOpacity l; mLocalSyncPoints := mLocalSyncPoints l; calls :=
     calls l |}.

Definition set_mActiveBufferSlot (v : Z) (l : t) : t :=
  {| shadow := shadow l; mSidebandStreamChanged := mSidebandStreamChanged l;
     mSidebandStream := mSidebandStream l; mAutoRefresh := mAutoRefresh l;
     mRefreshPending := mRefreshPending l; mUpdateTexImageFailed :=
     mUpdateTexImageFailed l; mActiveBuffer := mActiveBuffer l;
     mActiveBufferSlot := v; mBufferLatched := mBufferLatched l;
     mPreviousFrameNumber := mPreviousFrameNumber l; mCurrentFrameNumber :=
     mCurrentFrameNumber l; mFrameLatencyNeeded := mFrameLatencyNeeded l;
     mCurrentCrop := mCurrentCrop l; mCurrentTransform := mCurrentTransform
     l; mCurrentScalingMode := mCurrentScalingMode l; mCurrentOpacity :=
     mCurrentOpacity l; mLocalSyncPoints := mLocalSyncPoints l; calls :=
     calls l |}.

Definition set_mBufferLatched (v : bool) (l : t) : t :=
  {| shadow := shadow l; mSidebandStreamChanged := mSidebandStreamChanged l;
     mSidebandStream := mSidebandStream l; mAutoRefresh := mAutoRefresh l;
     mRefreshPending := mRefreshPending l; mUpdateTexImageFailed :=
     mUpdateTexImageFailed l; mActiveBuffer := mActiveBuffer l;
     mActiveBufferSlot := mActiveBufferSlot l; mBufferLatched := v;
     mPreviousFrameNumber := mPreviousFrameNumber l; mCurrentFrameNumber :=
     mCurrentFrameNumber l; mFrameLatencyNeeded := mFrameLatencyNeeded l;
     mCurrentCrop := mCurrentCrop l; mCurrentTransform := mCurrentTransform
     l; mCurrentScalingMode := mCurrentScalingMode l; mCurrentOpacity :=
     mCurrentOpacity l; mLocalSyncPoints := mLocalSyncPoints l; calls :=
     calls l |}.

Definition set_mPreviousFrameNumber (v : N) (l : t) : t :=
  {| shadow := shadow l; mSidebandStreamChanged := mSidebandStreamChanged l;
     mSidebandStream := mSidebandStream l; mAutoRefresh := mAutoRefresh l;
     mRefreshPending := mRefreshPending l; mUpdateTexImageFailed :=
     mUpdateTexImageFailed l; mActiveBuffer := mActiveBuffer l;
     mActiveBufferSlot := mActiveBufferSlot l; mBufferLatched :=
     mBufferLatched l; mPreviousFrameNumber := v; mCurrentFrameNumber :=
     mCurrentFrameNumber l; mFrameLatencyNeeded := mFrameLatencyNeeded l;
     mCurrentCrop := mCurrentCrop l; mCurrentTransform := mCurrentTransform
     l; mCurrentScalingMode := mCurrentScalingMode l; mCurrentOpacity :=
     mCurrentOpacity l; mLocalSyncPoints := mLocalSyncPoints l; calls :=
     calls l |}.

Definition set_mCurrentFrameNumber (v : N) (l : t) : t :=
  {| shadow := shadow l; mSidebandStreamChanged := mSidebandStreamChanged l;
     mSidebandStream := mSidebandStream l; mAutoRefresh := mAutoRefresh l;
     mRefreshPending := mRefreshPending l; mUpdateTexImageFailed :=
     mUpdateTexImageFailed l; mActiveBuffer := mActiveBuffer l;
     mActiveBufferSlot := mActiveBufferSlot l; mBufferLatched :=
     mBufferLatched l; mPreviousFrameNumber := mPreviousFrameNumber l;
     mCurrentFrameNumber := v; mFrameLatencyNeeded := mFrameLatencyNeeded l;
     mCurrentCrop := mCurrentCrop l; mCurrentTransform := mCurrentTransform
     l; mCurrentScalingMode := mCurrentScalingMode l; mCurrentOpacity :=
     mCurrentOpacity l; mLocalSyncPoints := mLocalSyncPoints l; calls :=
     calls l |}.

Definition set_mFrameLatencyNeeded (v : bool) (l : t) : t :=
  {| shadow := shadow l; mSidebandStreamChanged := mSidebandStreamChanged l;
     mSidebandStream := mSidebandStream l; mAutoRefresh := mAutoRefresh l;
     mRefreshPending := mRefreshPending l; mUpdateTexImageFailed :=
     mUpdateTexImageFailed l; mActiveBuffer := mActiveBuffer l;
     mActiveBufferSlot := mActiveBufferSlot l; mBufferLatched :=
     mBufferLatched l; mPreviousFrameNumber := mPreviousFrameNumber l;
     mCurrentFrameNumber := mCurrentFrameNumber l; mFrameLatencyNeeded := v;
     mCurrentCrop := mCurrentCrop l; mCurrentTransform := mCurrentTransform
     l; mCurrentScalingMode := mCurrentScalingMode l; mCurrentOpacity :=
     mCurrentOpacity l; mLocalSyncPoints := mLocalSyncPoints l; calls :=
     calls l |}.

Definition set_mCurrentCrop (v : Rect) (l : t) : t :=
  {| shadow := shadow l; mSidebandStreamChanged := mSidebandStreamChanged l;
     mSidebandStream := mSidebandStream l; mAutoRefresh := mAutoRefresh l;
     mRefreshPending := mRefreshPending l; mUpdateTexImageFailed :=
     mUpdateTexImageFailed l; mActiveBuffer := mActiveBuffer l;
     mActiveBufferSlot := mActiveBufferSlot l; mBufferLatched :=
     mBufferLatched l; mPreviousFrameNumber := mPreviousFrameNumber l;
     mCurrentFrameNumber := mCurrentFrameNumber l; mFrameLatencyNeeded :=
     mFrameLatencyNeeded l; mCurrentCrop := v; mCurrentTransform :=
     mCurrentTransform l; mCurrentScalingMode := mCurrentScalingMode l;
     mCurrentOpacity := mCurrentOpacity l; mLocalSyncPoints :=
     mLocalSyncPoints l; calls := calls l |}.

Definition set_mCurrentTransform (v : N) (l : t) : t :=
  {| shadow := shadow l; mSidebandStreamChanged := mSidebandStreamChanged l;
     mSidebandStream := mSidebandStream l; mAutoRefresh := mAutoRefresh l;
     mRefreshPending := mRefreshPending l; mUpdateTexImageFailed :=
     mUpdateTexImageFailed l; mActiveBuffer := mActiveBuffer l;
     mActiveBufferSlot := mActiveBufferSlot l; mBufferLatched :=
     mBufferLatched l; mPreviousFrameNumber := mPreviousFrameNumber l;
     mCurrentFrameNumber := mCurrentFrameNumber l; mFrameLatencyNeeded :=
     mFrameLatencyNeeded l; mCurrentCrop := mCurrentCrop l;
     mCurrentTransform := v; mCurrentScalingMode := mCurrentScalingMode l;
     mCurrentOpacity := mCurrentOpacity l; mLocalSyncPoints :=
     mLocalSyncPoints l; calls := calls l |}.

Definition set_mCurrentScalingMode (v : N) (l : t) : t :=
  {| shadow := shadow l; mSidebandStreamChanged := mSidebandStreamChanged l;
     mSidebandStream := mSidebandStream l; mAutoRefresh := mAutoRefresh l;
     mRefreshPending := mRefreshPending l; mUpdateTexImageFailed :=
     mUpdateTexImageFailed l; mActiveBuffer := mActiveBuffer l;
     mActiveBufferSlot := mActiveBufferSlot l; mBufferLatched :=
     mBufferLatched l; mPreviousFrameNumber := mPreviousFrameNumber l;
     mCurrentFrameNumber := mCurrentFrameNumber l; mFrameLatencyNeeded :=
     mFrameLatencyNeeded l; mCurrentCrop := mCurrentCrop l;
     mCurrentTransform := mCurrentTransform l; mCurrentScalingMode := v;
     mCurrentOpacity := mCurrentOpacity l; mLocalSyncPoints :=
     mLocalSyncPoints l; calls := calls l |}.

Definition set_mCurrentOpacity (v : bool) (l : t) : t :=
  {| shadow := shadow l; mSidebandStreamChanged := mSidebandStreamChanged l;
     mSidebandStream := mSidebandStream l; mAutoRefresh := mAutoRefresh l;
     mRefreshPending := mRefreshPending l; mUpdateTexImageFailed :=
     mUpdateTexImageFailed l; mActiveBuffer := mActiveBuffer l;
     mActiveBufferSlot := mActiveBufferSlot l; mBufferLatched :=
     mBufferLatched l; mPreviousFrameNumber := mPreviousFrameNumber l;
     mCurrentFrameNumber := mCurrentFrameNumber l; mFrameLatencyNeeded :=
     mFrameLatencyNeeded l; mCurrentCrop := mCurrentCrop l;
     mCurrentTransform := mCurrentTransform l; mCurrentScalingMode :=
     mCurrentScalingMode l; mCurrentOpacity := v; mLocalSyncPoints :=
     mLocalSyncPoints l; calls := calls l |}.

Definition set_mLocalSyncPoints (v : list SyncPoint.t) (l : t) : t :=
  {| shadow := shadow l; mSidebandStreamChanged := mSidebandStreamChanged l;
     mSidebandStream := mSidebandStream l; mAutoRefresh := mAutoRefresh l;
     mRefreshPending := mRefreshPending l; mUpdateTexImageFailed :=
     mUpdateTexImageFailed l; mActiveBuffer := mActiveBuffer l;
     mActiveBufferSlot := mActiveBufferSlot l; mBufferLatched :=
     mBufferLatched l; mPreviousFrameNumber := mPreviousFrameNumber l;
     mCurrentFrameNumber := mCurrentFrameNumber l; mFrameLatencyNeeded :=
     mFrameLatencyNeeded l; mCurrentCrop := mCurrentCrop l;
     mCurrentTransform := mCurrentTransform l; mCurrentScalingMode :=
     mCurrentScalingMode l; mCurrentOpacity := mCurrentOpacity l;
     mLocalSyncPoints := v; calls := calls l |}.

Definition set_calls (v : list Call) (l : t) : t :=
  {| shadow := shadow l; mSidebandStreamChanged := mSidebandStreamChanged l;
     mSidebandStream := mSidebandStream l; mAutoRefresh := mAutoRefresh l;
     mRefreshPending := mRefreshPending l; mUpdateTexImageFailed :=
     mUpdateTexImageFailed l; mActiveBuffer := mActiveBuffer l;
     mActiveBufferSlot := mActiveBufferSlot l; mBufferLatched :=
     mBufferLatched l; mPreviousFrameNumber := mPreviousFrameNumber l;
     mCurrentFrameNumber := mCurrentFrameNumber l; mFrameLatencyNeeded :=
     mFrameLatencyNeeded l; mCurrentCrop := mCurrentCrop l;
     mCurrentTransform := mCurrentTransform l; mCurrentScalingMode :=
     mCurrentScalingMode l; mCurrentOpacity := mCurrentOpacity l;
     mLocalSyncPoints := mLocalSyncPoints l; calls := v |}.

Definition signalLayerUpdate (l : t) : t :=
  set_shadow (BufferLayer.note BufferLayer.NoteSignalLayerUpdate (shadow l)) l.

Definition call (k : Call) (l : t) : t := set_calls (calls l ++ [k]) l.

Definition mQueueItems (l : t) : list BufferItem.t :=
  BufferLayer.mQueueItems (shadow l).

Definition mQueuedFrames (l : t) : Z := BufferLayer.mQueuedFrames (shadow l).

Definition set_mQueueItems (v : list BufferItem.t) (l : t) : t :=
  set_shadow (BufferLayer.set_mQueueItems v (shadow l)) l.

Definition set_mQueuedFrames (v : Z) (l : t) : t :=
  set_shadow (BufferLayer.set_mQueuedFrames v (shadow l)) l.

(** [android_atomic_dec(&mQueuedFrames)]; the call returns the value
    the counter had. *)
Definition decQueuedFrames (l : t) : t :=
  set_mQueuedFrames (BufferLayer.wrap_int32 (mQueuedFrames l - 1)) l.

(** *** shouldPresentNow *)

(** Modelled from the spec: [s2ns] is a macro of a header that is not
    among the sources; the specification gives the tolerance as
    10^9 ns. *)
Definition s2ns (seconds : Z) : Z := seconds * 1000000000.

(** [expectedPresent] is what [computeExpectedPresent(dispSync)]
    answers. *)
Definition shouldPresentNow (expectedPresent : Z) (l : t) : bool :=
  if mSidebandStreamChanged l || mAutoRefresh l then true
  else
    match mQueueItems l with
    | [] => false
    | head :: _ =>
        let timestamp := BufferItem.mTimestamp head in
        let isPlausible := timestamp <? wrap_int64 (expectedPresent + s2ns 1) in
        let isDue := timestamp <? expectedPresent in
        isDue || negb isPlausible
    end.

(** *** Opacity *)

(** The pixel formats named by [getOpacityForFormat]; their values are
    defined outside the sources. *)
Record HalFormats : Type := {
  HAL_PIXEL_FORMAT_RGBA_8888 : N;
  HAL_PIXEL_FORMAT_BGRA_8888 : N;
  HAL_PIXEL_FORMAT_RGBA_FP16 : N;
  HAL_PIXEL_FORMAT_RGBA_1010102 : N
}.

Definition HARDWARE_IS_DEVICE_FORMAT (f : N) : bool :=
  (256 <=? f)%N && (f <=? 511)%N.

Definition getOpacityForFormat (hal : HalFormats) (f : N) : bool :=
  if HARDWARE_IS_DEVICE_FORMAT f then true
  else if (f =? HAL_PIXEL_FORMAT_RGBA_8888 hal)%N
          || (f =? HAL_PIXEL_FORMAT_BGRA_8888 hal)%N
          || (f =? HAL_PIXEL_FORMAT_RGBA_FP16 hal)%N
          || (f =? HAL_PIXEL_FORMAT_RGBA_1010102 hal)%N
  then false
  else true.

(** [layerOpaque] is [(s.flags & layer_state_t::eLayerOpaque) != 0]. *)
Definition isOpaque (layerOpaque : bool) (l : t) : bool :=
  match mSidebandStream l, mActiveBuffer l with
  | None, None => false
  | _, _ => layerOpaque || mCurrentOpacity l
  end.

(** *** The head of the shadow queue *)

Definition getHeadFrameNumber (l : t) : N :=
  match mQueueItems l with
  | head :: _ => BufferItem.mFrameNumber head
  | [] => mCurrentFrameNumber l
  end.

(** [latchUnsignaled] is the cached property; [signalPending item] is
    [item.mFenceTime->getSignalTime() == Fence::SIGNAL_TIME_PENDING]. *)
Definition headFenceHasSignaled (latchUnsignaled : bool)
    (signalPending : BufferItem.t -> bool) (l : t) : bool :=
  if latchUnsignaled then true
  else
    match mQueueItems l with
    | [] => true
    | head :: _ =>
        if BufferItem.mIsDroppable head then true
        else negb (signalPending head)
    end.

(** *** Sync points *)

(** The loop of [allTransactionsSignaled], with its two flags. *)
Fixpoint scanSyncPoints (headFrameNumber : N) (points : list SyncPoint.t)
    (matchingFramesFound allTransactionsApplied : bool)
    : bool * bool * list SyncPoint.t :=
  match points with
  | [] => (matchingFramesFound, allTransactionsApplied, [])
  | point :: points' =>
      if (headFrameNumber <? SyncPoint.getFrameNumber point)%N then
        (matchingFramesFound, allTransactionsApplied, points)
      else if negb (SyncPoint.frameIsAvailable point) then
        (true, false, SyncPoint.setFrameAvailable point :: points')
      else
        let '(m, a, rest) :=
          scanSyncPoints headFrameNumber points' true
            (allTransactionsApplied && SyncPoint.transactionIsApplied point) in
        (m, a, point :: rest)
  end.

Definition allTransactionsSignaled (l : t) : bool * t :=
  let '(matchingFramesFound, allTransactionsApplied, points) :=
    scanSyncPoints (getHeadFrameNumber l) (mLocalSyncPoints l) false true in
  (negb matchingFramesFound || allTransactionsApplied,
   set_mLocalSyncPoints points l).

Definition notifyAvailableFrames (latchUnsignaled : bool)
    (signalPending : BufferItem.t -> bool) (l : t) : t :=
  let headFrameNumber := getHeadFrameNumber l in
  let headFenceSignaled := headFenceHasSignaled latchUnsignaled signalPending l in
  set_mLocalSyncPoints
    (map (fun point =>
            if (SyncPoint.getFrameNumber point <=? headFrameNumber)%N
               && headFenceSignaled
            then SyncPoint.setFrameAvailable point
            else point)
       (mLocalSyncPoints l)) l.

(** The loop that closes [latchBuffer]. *)
Fixpoint pruneSyncPoints (currentFrameNumber : N) (points : list SyncPoint.t)
    : list SyncPoint.t :=
  match points with
  | [] => []
  | point :: points' =>
      if negb (SyncPoint.frameIsAvailable point)
         || negb (SyncPoint.transactionIsApplied point)
      then point :: pruneSyncPoints currentFrameNumber points'
      else if (SyncPoint.getFrameNumber point <=? currentFrameNumber)%N
      then pruneSyncPoints currentFrameNumber points'
      else point :: pruneSyncPoints currentFrameNumber points'
  end.

(** *** latchBuffer *)

Inductive UpdateResult : Type :=
  | Updated           (* NO_ERROR *)
  | PresentLater      (* BufferQueue::PRESENT_LATER *)
  | BufferRejected    (* SurfaceFlingerConsumer::BUFFER_REJECTED *)
  | UpdateFailed.     (* any other status *)

(** What the rest of the system answers during one [latchBuffer]. *)
Record LatchEnv : Type := {
  latchUnsignaled : bool;
  signalPending : BufferItem.t -> bool;
  getSidebandStream : option Z;
  layerOpaque : bool;
  (* updateTexImage: its result, what it stores through &mAutoRefresh
     (if it stores) and &queuedBuffer, and whether the rejecter sets
     recomputeVisibleRegions *)
  updateResult : UpdateResult;
  autoRefreshOut : option bool;
  queuedBuffer : bool;
  rejecterRecomputes : bool;
  (* the consumer's current frame, after updateTexImage *)
  getFrameNumber : N;
  getCurrentBuffer : option Buffer;
  getCurrentSlot : Z;
  getCurrentDataSpace : Z;
  getCurrentCrop : Rect;
  getCurrentTransform : N;
  getCurrentScalingMode : N
}.

(** The region returned: empty, or the transformed bounds of the
    layer. *)
Inductive Dirty : Type :=
  | NoDirty
  | DirtyBounds.

(** The loop [while (mQueueItems[0].mFrameNumber != currentFrameNumber)]
    and the [removeAt(0)] that follows it.  [None]: the loop has run off
    the end of the queue. *)
Fixpoint removeStale (currentFrameNumber : N) (items : list BufferItem.t)
    (queuedFrames : Z) : option (list BufferItem.t * Z) :=
  match items with
  | [] => None
  | head :: items' =>
      if (BufferItem.mFrameNumber head =? currentFrameNumber)%N
      then Some (items', queuedFrames)
      else removeStale currentFrameNumber items'
             (BufferLayer.wrap_int32 (queuedFrames - 1))
  end.

(** From [mActiveBuffer = getCurrentBuffer(...)] to the end, for a
    current buffer that is not null. *)
Definition promote (hal : HalFormats) (env : LatchEnv)
    (recomputeVisibleRegions : bool) (latchTime : Z) (oldOpacity : bool)
    (oldActiveBuffer : option Buffer) (active : Buffer) (l : t)
    : Dirty * bool * t :=
  let l := set_mBufferLatched true l in
  let l := set_mPreviousFrameNumber (mCurrentFrameNumber l) l in
  let l := set_mCurrentFrameNumber (getFrameNumber env) l in
  let l := call (CallAddLatch (mCurrentFrameNumber l) latchTime) l in
  let l := set_mRefreshPending true l in
  let l := set_mFrameLatencyNeeded true l in
  let recompute :=
    match oldActiveBuffer with
    | None => true
    | Some _ => recomputeVisibleRegions
    end in
  let l := call (CallSetDataSpace (getCurrentDataSpace env)) l in
  let changed :=
    negb (bool_decide (getCurrentCrop env = mCurrentCrop l))
    || negb (getCurrentTransform env =? mCurrentTransform l)%N
    || negb (getCurrentScalingMode env =? mCurrentScalingMode l)%N in
  let l :=
    if changed
    then set_mCurrentScalingMode (getCurrentScalingMode env)
           (set_mCurrentTransform (getCurrentTransform env)
              (set_mCurrentCrop (getCurrentCrop env) l))
    else l in
  let recompute := recompute || changed in
  let recompute :=
    match oldActiveBuffer with
    | Some old =>
        if negb (width active =? width old)%N
           || negb (height active =? height old)%N
        then true else recompute
    | None => recompute
    end in
  let l := set_mCurrentOpacity (getOpacityForFormat hal (format active)) l in
  let recompute :=
    if negb (Bool.eqb oldOpacity (isOpaque (layerOpaque env) l))
    then true else recompute in
  let l :=
    set_mLocalSyncPoints
      (pruneSyncPoints (mCurrentFrameNumber l) (mLocalSyncPoints l)) l in
  (DirtyBounds, recompute, l).

(** From the call of [updateTexImage] to the end of [latchBuffer]. *)
Definition update (hal : HalFormats) (env : LatchEnv)
    (recomputeVisibleRegions : bool) (latchTime : Z) (oldOpacity : bool)
    (oldActiveBuffer : option Buffer) (l : t) : option (Dirty * bool * t) :=
  let recompute := recomputeVisibleRegions || rejecterRecomputes env in
  let l :=
    match autoRefreshOut env with
    | Some b => set_mAutoRefresh b l
    | None => l
    end in
  match updateResult env, mUpdateTexImageFailed l with
  | PresentLater, _ => Some (NoDirty, recompute, signalLayerUpdate l)
  | BufferRejected, _ =>
      let l :=
        if queuedBuffer env
        then decQueuedFrames (set_mQueueItems (List.tl (mQueueItems l)) l)
        else l in
      Some (NoDirty, recompute, l)
  | UpdateFailed, _ | Updated, true =>
      let l :=
        if queuedBuffer env
        then set_mQueuedFrames 0 (set_mQueueItems [] l)
        else l in
      Some (NoDirty, recompute, set_mUpdateTexImageFailed true l)
  | Updated, false =>
      let reconciled :=
        if queuedBuffer env then
          match removeStale (getFrameNumber env) (mQueueItems l)
                  (mQueuedFrames l) with
          | Some (items, queuedFrames) =>
              Some (set_mQueuedFrames queuedFrames (set_mQueueItems items l))
          | None => None
          end
        else Some l in
      match reconciled with
      | None => None
      | Some l =>
          let more := queuedBuffer env && (1 <? mQueuedFrames l) in
          let l := if queuedBuffer env then decQueuedFrames l else l in
          let l := if more || mAutoRefresh l then signalLayerUpdate l else l in
          let l := set_mActiveBuffer (getCurrentBuffer env) l in
          let l := set_mActiveBufferSlot (getCurrentSlot env) l in
          match mActiveBuffer l with
          | None => Some (NoDirty, recompute, l)
          | Some active =>
              Some (promote hal env recompute latchTime oldOpacity
                      oldActiveBuffer active l)
          end
      end
  end.

(** [latchBuffer]: the region, the final [recomputeVisibleRegions], and
    the layer; [None] when the shadow queue does not hold the frame the
    consumer reports. *)
Definition latchBuffer (hal : HalFormats) (env : LatchEnv)
    (recomputeVisibleRegions : bool) (latchTime : Z) (l : t)
    : option (Dirty * bool * t) :=
  if mSidebandStreamChanged l then
    let l := set_mSidebandStreamChanged false l in
    let l := set_mSidebandStream (getSidebandStream env) l in
    let l :=
      match mSidebandStream l with
      | Some _ => call CallFlingerSetTransactionFlags (call CallSetTransactionFlags l)
      | None => l
      end in
    Some (DirtyBounds, true, l)
  else if (mQueuedFrames l <=? 0) && negb (mAutoRefresh l) then
    Some (NoDirty, recomputeVisibleRegions, l)
  else if mRefreshPending l then
    Some (NoDirty, recomputeVisibleRegions, l)
  else if negb (headFenceHasSignaled (latchUnsignaled env) (signalPending env) l)
  then Some (NoDirty, recomputeVisibleRegions, signalLayerUpdate l)
  else
    let oldOpacity := isOpaque (layerOpaque env) l in
    let oldActiveBuffer := mActiveBuffer l in
    let '(signaled, l) := allTransactionsSignaled l in
    if negb signaled then
      Some (NoDirty, recomputeVisibleRegions, signalLayerUpdate l)
    else
      update hal env recomputeVisibleRegions latchTime oldOpacity
        oldActiveBuffer l.

(** *** The composition callbacks *)

Definition onSidebandStreamChanged (l : t) : t :=
  if mSidebandStreamChanged l then l
  else signalLayerUpdate (set_mSidebandStreamChanged true l).

Definition onPreComposition (refreshStartTime : Z) (l : t) : bool * t :=
  let l :=
    if mBufferLatched l
    then call (CallAddPreComposition (mCurrentFrameNumber l) refreshStartTime) l
    else l in
  let l := set_mRefreshPending false l in
  ((0 <? mQueuedFrames l) || mSidebandStreamChanged l || mAutoRefresh l, l).

(** [desiredPresentTime] is the consumer's [getTimestamp()];
    [frameReadyFenceValid] and [presentFenceValid] are the [isValid()]
    of the two fences; [refreshTimestamp] is the composer's. *)
Definition onPostComposition (desiredPresentTime : Z)
    (frameReadyFenceValid presentFenceValid : bool) (refreshTimestamp : Z)
    (l : t) : bool * t :=
  if negb (mFrameLatencyNeeded l) then (false, l)
  else
    let l := call (CallAddPostComposition (mCurrentFrameNumber l)) l in
    let l := call (CallSetDesiredPresentTime desiredPresentTime) l in
    let l :=
      if frameReadyFenceValid then call CallSetFrameReadyFence l
      else call (CallSetFrameReadyTime desiredPresentTime) l in
    let l :=
      if presentFenceValid then call CallSetActualPresentFence l
      else call (CallSetActualPresentTime refreshTimestamp) l in
    let l := call CallAdvanceFrame l in
    (true, set_mFrameLatencyNeeded false l).

(** The two frame callbacks, on the whole layer. *)
Definition frameAvailable (item : BufferItem.t) (l : t) : option t :=
  match BufferLayer.onFrameAvailable [] item (shadow l) with
  | BufferLayer.Returned s => Some (set_shadow s l)
  | BufferLayer.Waiting _ => None
  end.

End Latching.

(** ** Vocabulary for the properties of the layer *)

Module LatchTerms.

Import Latching.

(** The sync points an [allTransactionsSignaled] scan can reach: those
    before the first one whose frame number is past the head's. *)
Fixpoint matchingPoints (headFrameNumber : N) (points : list SyncPoint.t)
    : list SyncPoint.t :=
  match points with
  | [] => []
  | point :: points' =>
      if (headFrameNumber <? SyncPoint.getFrameNumber point)%N then []
      else point :: matchingPoints headFrameNumber points'
  end.

(** How many of [points] have not been told that their frame is
    available. *)
Definition unnotified (points : list SyncPoint.t) : nat :=
  length (filter (fun p => SyncPoint.frameIsAvailable p = false) points).

(** The shadow queue and its counter agree. *)
Definition counted (l : t) : Prop :=
  mQueuedFrames l = Z.of_nat (length (mQueueItems l)).

(** The same, on the shadow queue alone. *)
Definition countedShadow (s : BufferLayer.t) : Prop :=
  BufferLayer.mQueuedFrames s = Z.of_nat (length (BufferLayer.mQueueItems s)).

(** [latchBuffer] gets as far as calling [updateTexImage]: no sideband
    change is pending, there is something to latch, no refresh is
    pending, the head fence has signalled and the transactions the head
    frame waits for have been applied. *)
Definition reachesUpdate (env : LatchEnv) (l : t) : Prop :=
  mSidebandStreamChanged l = false
  /\ ((mQueuedFrames l <=? 0) && negb (mAutoRefresh l)) = false
  /\ mRefreshPending l = false
  /\ headFenceHasSignaled (latchUnsignaled env) (signalPending env) l = true
  /\ (allTransactionsSignaled l).1 = true.

(** A sync point that the closing loop of [latchBuffer] erases. *)
Definition settled (currentFrameNumber : N) (p : SyncPoint.t) : bool :=
  SyncPoint.frameIsAvailable p
  && SyncPoint.transactionIsApplied p
  && (SyncPoint.getFrameNumber p <=? currentFrameNumber)%N.

(** [items] carry the frame numbers that follow [last], one by one. *)
Fixpoint consecutive (last : N) (items : list BufferItem.t) : Prop :=
  match items with
  | [] => True
  | item :: items' =>
      BufferItem.mFrameNumber item = (last + 1)%N
      /\ consecutive (last + 1) items'
  end.

(** [onFrameAvailable] called for each of [items] in turn, each call
    running alone: nothing wakes a call that has to wait. *)
Fixpoint deliver (items : list BufferItem.t) (s : BufferLayer.t)
    : BufferLayer.Run :=
  match items with
  | [] => BufferLayer.Returned s
  | item :: items' =>
      match BufferLayer.onFrameAvailable [] item s with
      | BufferLayer.Returned s' => deliver items' s'
      | BufferLayer.Waiting s' => BufferLayer.Waiting s'
      end
  end.

(** What one [onFrameAvailable] that does not wait adds to the notes. *)
Definition arrivalNotes (item : BufferItem.t) : list BufferLayer.Note :=
  [BufferLayer.NoteSaveBufferUpdate (BufferItem.mFrameNumber item);
   BufferLayer.NoteBroadcast; BufferLayer.NoteSignalLayerUpdate].

End LatchTerms.

(** ** Layers used to exercise latching *)

Module LatchScenario.

Import Latching.

Definition hal : HalFormats :=
  {| HAL_PIXEL_FORMAT_RGBA_8888 := 1;
     HAL_PIXEL_FORMAT_BGRA_8888 := 5;
     HAL_PIXEL_FORMAT_RGBA_FP16 := 22;
     HAL_PIXEL_FORMAT_RGBA_1010102 := 43 |}.

(** A layer that has never latched, with [items] in its shadow queue. *)
Definition waiting (items : list BufferItem.t) : t :=
  {| shadow :=
       {| BufferLayer.mQueueItems := items;
          BufferLayer.mQueuedFrames := Z.of_nat (length items);
          BufferLayer.mLastFrameNumberReceived :=
            List.last (map BufferItem.mFrameNumber items) 0%N;
          BufferLayer.notes := [] |};
     mSidebandStreamChanged := false;
     mSidebandStream := None;
     mAutoRefresh := false;
     mRefreshPending := false;
     mUpdateTexImageFailed := false;
     mActiveBuffer := None;
     mActiveBufferSlot := -1;
     mBufferLatched := false;
     mPreviousFrameNumber := 0%N;
     mCurrentFrameNumber := 0%N;
     mFrameLatencyNeeded := false;
     mCurrentCrop := (0, 0, 0, 0);
     mCurrentTransform := 0%N;
     mCurrentScalingMode := 0%N;
     mCurrentOpacity := true;
     mLocalSyncPoints := [];
     calls := [] |}.

Definition frame (n : N) : BufferItem.t :=
  Scenario.item 3 30 n (Z.of_N n * 1000) false.

(** The consumer has acquired frame [n] and bound a 4 x 4 buffer of
    format 1. *)
Definition acquired (n : N) : LatchEnv :=
  {| latchUnsignaled := false;
     signalPending := fun _ => false;
     getSidebandStream := None;
     layerOpaque := false;
     updateResult := Updated;
     autoRefreshOut := Some false;
     queuedBuffer := true;
     rejecterRecomputes := false;
     getFrameNumber := n;
     getCurrentBuffer := Some {| width := 4; height := 4; format := 1 |};
     getCurrentSlot := 3;
     getCurrentDataSpace := 0;
     getCurrentCrop := (0, 0, 4, 4);
     getCurrentTransform := 0%N;
     getCurrentScalingMode := 0%N |}.

Definition point (n : N) (available applied : bool) : SyncPoint.t :=
  {| SyncPoint.getFrameNumber := n;
     SyncPoint.frameIsAvailable := available;
     SyncPoint.transactionIsApplied := applied |}.

End LatchScenario.

(** * Properties *)

Import BufferQueueCore BufferQueueConsumer.

(** ** Machine arithmetic *)

Lemma wrap_int64_id (z : Z) : in_int64 z -> wrap_int64 z = z.
Proof.
  unfold in_int64, INT64_MIN, INT64_MAX, wrap_int64. intros Hz.
  rewrite Z.mod_small; lia.
Qed.

(** ** Record bookkeeping *)

Lemma set_mQueue_same (c : t) : set_mQueue (mQueue c) c = c.
Proof. destruct c; reflexivity. Qed.

(** ** The drop loop *)

Lemma dropTest_true (expectedPresent : Z) (maxFrameNumber : N)
    (front bufferItem : BufferItem.t) :
  dropTest expectedPresent maxFrameNumber front bufferItem = true <->
  BufferItem.mIsAutoTimestamp front = false
  /\ (maxFrameNumber = 0%N
      \/ (BufferItem.mFrameNumber bufferItem <= maxFrameNumber)%N)
  /\ wrap_int64 (expectedPresent - MAX_REASONABLE_NSEC)
       <= BufferItem.mTimestamp bufferItem
  /\ BufferItem.mTimestamp bufferItem <= expectedPresent.
Proof.
  unfold dropTest.
  destruct (BufferItem.mIsAutoTimestamp front); [intuition discriminate|].
  destruct (N.eqb_spec maxFrameNumber 0) as [E|E];
    destruct (N.ltb_spec maxFrameNumber (BufferItem.mFrameNumber bufferItem));
    destruct (Z.ltb_spec (BufferItem.mTimestamp bufferItem)
                (wrap_int64 (expectedPresent - MAX_REASONABLE_NSEC)));
    destruct (Z.ltb_spec expectedPresent (BufferItem.mTimestamp bufferItem));
    simpl; split; intros Hd; try discriminate; try lia;
    repeat split; try lia; auto.
Qed.

(** Either the loop does not turn at all, or the entry it stops on went
    through the drop test as a second entry. *)
Lemma dropLoop_stops (expectedPresent : Z) (maxFrameNumber : N)
    (rest : list BufferItem.t) :
  forall front c l front' rest' c' l',
    dropLoop expectedPresent maxFrameNumber front rest c l
      = (front', rest', c', l') ->
    (front' = front /\ rest' = rest /\ c' = c /\ l' = l)
    \/ (BufferItem.mTimestamp front' <= expectedPresent
        /\ (maxFrameNumber = 0%N
            \/ (BufferItem.mFrameNumber front' <= maxFrameNumber)%N)).
Proof.
  induction rest as [|bufferItem rest IH]; intros front c l front' rest' c' l'.
  - simpl. intros [= <- <- <- <-]. left. auto.
  - simpl.
    destruct (dropTest expectedPresent maxFrameNumber front bufferItem) eqn:T.
    + destruct (dropFront front c l) as [c1 l1]. intros H.
      apply dropTest_true in T as (_ & Hmax & _ & Hts).
      destruct (IH _ _ _ _ _ _ _ H) as [(-> & _ & _ & _)|Hdone]; right; auto.
    + intros [= <- <- <- <-]. left. auto.
Qed.

(** ** acquireBuffer: the calls that acquire nothing *)

(** C1. Whenever [acquireBuffer] returns [PRESENT_LATER] or
    [NO_BUFFER_AVAILABLE], the core it leaves is the core it started
    from: no queue entry erased, no slot changed, nothing appended to
    [mFreeBuffers]; nothing is written to the out-parameter and no
    callback is made.  This holds for every core, every [expectedPresent]
    and every [maxFrameNumber]. *)
Theorem acquire_deferred_or_empty_leaves_core
    (expectedPresent : Z) (maxFrameNumber : N) (c : t) :
  status (acquireBuffer expectedPresent maxFrameNumber c) = PRESENT_LATER
  \/ status (acquireBuffer expectedPresent maxFrameNumber c)
       = NO_BUFFER_AVAILABLE ->
  core (acquireBuffer expectedPresent maxFrameNumber c) = c
  /\ out (acquireBuffer expectedPresent maxFrameNumber c) = None
  /\ events (acquireBuffer expectedPresent maxFrameNumber c)
       = [EvLock; EvUnlock].
Proof.
  unfold acquireBuffer.
  destruct (mMaxAcquiredBufferCount c + 1 <=? numAcquiredBuffers (mSlots c)).
  { simpl. intros [?|?]; discriminate. }
  destruct (mQueue c) as [|front0 rest0] eqn:Q; [simpl; auto|].
  destruct (expectedPresent =? 0).
  { simpl. intros [?|?]; discriminate. }
  destruct (dropLoop expectedPresent maxFrameNumber front0 rest0 c initLocals)
    as [[[front rest] c1] l] eqn:D.
  destruct (negb (bufferIsDue expectedPresent front)
            || negb (consumerIsReady maxFrameNumber front)) eqn:G.
  2:{ simpl. intros [?|?]; discriminate. }
  intros _. simpl.
  destruct (dropLoop_stops _ _ _ _ _ _ _ _ _ _ D)
    as [(-> & -> & -> & _)|[Hts Hmax]].
  - rewrite <- Q, set_mQueue_same. auto.
  - exfalso. unfold bufferIsDue, consumerIsReady in G.
    apply Z.leb_le in Hts. rewrite Hts in G. simpl in G.
    destruct (N.ltb_spec 0 maxFrameNumber); [|discriminate].
    destruct Hmax as [->|Hle]; [lia|].
    apply N.leb_le in Hle. rewrite Hle in G. discriminate.
Qed.

Lemma acquire_deferred_or_empty_leaves_core_witness :
  status (acquireBuffer 1000000000 0 Scenario.oneLate) = PRESENT_LATER
  /\ core (acquireBuffer 1000000000 0 Scenario.oneLate) = Scenario.oneLate.
Proof.
  split; [reflexivity|].
  apply (acquire_deferred_or_empty_leaves_core 1000000000 0 Scenario.oneLate).
  left. reflexivity.
Defined.

(** ** The abandoned flag *)

Lemma dropFront_abandoned (b : bool) (front : BufferItem.t) (c : t)
    (l : Locals) :
  dropFront front (set_mIsAbandoned b c) l
  = (set_mIsAbandoned b (dropFront front c l).1, (dropFront front c l).2).
Proof.
  destruct c. unfold dropFront. simpl.
  destruct (stillTracking _ front); reflexivity.
Qed.

Lemma dropLoop_abandoned (b : bool) (expectedPresent : Z) (maxFrameNumber : N)
    (rest : list BufferItem.t) :
  forall front c l,
    dropLoop expectedPresent maxFrameNumber front rest
      (set_mIsAbandoned b c) l
    = let '(front', rest', c', l') :=
        dropLoop expectedPresent maxFrameNumber front rest c l in
      (front', rest', set_mIsAbandoned b c', l').
Proof.
  induction rest as [|bufferItem rest IH]; intros front c l; simpl.
  - reflexivity.
  - destruct (dropTest _ _ front bufferItem); [|reflexivity].
    rewrite dropFront_abandoned.
    destruct (dropFront front c l) as [c1 l1]. simpl. apply IH.
Qed.

Lemma acquireFront_abandoned (b : bool) (front : BufferItem.t)
    (rest : list BufferItem.t) (c : t) (l : Locals) :
  acquireFront front rest (set_mIsAbandoned b c) l
  = withCore (set_mIsAbandoned b) (acquireFront front rest c l).
Proof.
  destruct c. unfold acquireFront, withCore. simpl.
  destruct (stillTracking _ front); reflexivity.
Qed.

Lemma acquireBuffer_abandoned (b : bool) (expectedPresent : Z)
    (maxFrameNumber : N) (c : t) :
  acquireBuffer expectedPresent maxFrameNumber (set_mIsAbandoned b c)
  = withCore (set_mIsAbandoned b)
      (acquireBuffer expectedPresent maxFrameNumber c).
Proof.
  unfold acquireBuffer.
  replace (mMaxAcquiredBufferCount (set_mIsAbandoned b c))
    with (mMaxAcquiredBufferCount c) by (destruct c; reflexivity).
  replace (mSlots (set_mIsAbandoned b c)) with (mSlots c)
    by (destruct c; reflexivity).
  replace (mQueue (set_mIsAbandoned b c)) with (mQueue c)
    by (destruct c; reflexivity).
  destruct (_ <=? _); [reflexivity|].
  destruct (mQueue c) as [|front0 rest0]; [reflexivity|].
  destruct (expectedPresent =? 0); [apply acquireFront_abandoned|].
  rewrite dropLoop_abandoned.
  destruct (dropLoop _ _ front0 rest0 c initLocals) as [[[front rest] c1] l].
  destruct (negb _ || negb _).
  - destruct c1; reflexivity.
  - replace (set_mQueue (front :: rest) (set_mIsAbandoned b c1))
      with (set_mIsAbandoned b (set_mQueue (front :: rest) c1))
      by (destruct c1; reflexivity).
    apply acquireFront_abandoned.
Qed.

Lemma releaseBuffer_abandoned (b : bool) (slot : Z) (frameNumber : N)
    (releaseFence : option Fence) (eglDisplay eglFence : Z) (c : t) :
  releaseBuffer slot frameNumber releaseFence eglDisplay eglFence
    (set_mIsAbandoned b c)
  = withCore (set_mIsAbandoned b)
      (releaseBuffer slot frameNumber releaseFence eglDisplay eglFence c).
Proof.
  destruct c. unfold releaseBuffer, withCore. simpl.
  repeat (match goal with
          | |- context [match ?x with _ => _ end] => destruct x
          end; simpl; try reflexivity).
Qed.

Lemma attachBuffer_abandoned (b : bool) (outSlot : bool)
    (buffer : option GraphicBuffer) (c : t) :
  attachBuffer outSlot buffer (set_mIsAbandoned b c)
  = withCore (set_mIsAbandoned b) (attachBuffer outSlot buffer c).
Proof.
  destruct c as [slots q freeSlots freeBuffers ? ? ? ? ? ? ? ? ? ? ? ? ? ? ?].
  unfold attachBuffer, withCore, findFreeSlot. simpl.
  destruct outSlot; [|reflexivity]. destruct buffer; [|reflexivity]. simpl.
  destruct (_ <=? _); [reflexivity|].
  destruct (negb _); [reflexivity|].
  destruct freeSlots as [|s ?]; [destruct freeBuffers as [|f ?]|]; simpl;
    try reflexivity;
    match goal with |- context [?x =? INVALID_BUFFER_SLOT] =>
      destruct (x =? INVALID_BUFFER_SLOT) end; reflexivity.
Qed.

Lemma setters_abandoned (b : bool) (c : t) :
  (forall w h, setDefaultBufferSize w h (set_mIsAbandoned b c)
               = withCore (set_mIsAbandoned b) (setDefaultBufferSize w h c))
  /\ disableAsyncBuffer (set_mIsAbandoned b c)
     = withCore (set_mIsAbandoned b) (disableAsyncBuffer c)
  /\ (forall cap n, setMaxAcquiredBufferCount cap n (set_mIsAbandoned b c)
                    = withCore (set_mIsAbandoned b)
                        (setMaxAcquiredBufferCount cap n c))
  /\ (forall name, setConsumerName name (set_mIsAbandoned b c)
                   = withCore (set_mIsAbandoned b) (setConsumerName name c))
  /\ (forall f, setDefaultBufferFormat f (set_mIsAbandoned b c)
                = withCore (set_mIsAbandoned b) (setDefaultBufferFormat f c))
  /\ (forall d, setDefaultBufferDataSpace d (set_mIsAbandoned b c)
                = withCore (set_mIsAbandoned b) (setDefaultBufferDataSpace d c))
  /\ (forall u, setConsumerUsageBits u (set_mIsAbandoned b c)
                = withCore (set_mIsAbandoned b) (setConsumerUsageBits u c))
  /\ (forall h, setTransformHint h (set_mIsAbandoned b c)
                = withCore (set_mIsAbandoned b) (setTransformHint h c)).
Proof.
  destruct c as [? ? ? ? ? consumer ? ? ? ? ? ? ? ? ? ? ? ? ?].
  repeat split; intros;
    unfold setDefaultBufferSize, disableAsyncBuffer, setMaxAcquiredBufferCount,
      withCore; simpl;
    repeat (match goal with
            | |- context [if ?x then _ else _] => destruct x
            | |- context [match ?x with Some _ => _ | None => _ end] =>
                destruct x
            end; simpl); reflexivity.
Qed.

Lemma abandoned_twice (c : t) :
  mIsAbandoned c = true ->
  set_mIsAbandoned true (set_mIsAbandoned false c) = c.
Proof. destruct c. simpl. intros ->. reflexivity. Qed.

(** C2, as the code has it.  On an abandoned core [detachBuffer],
    [connect] and [getReleasedBuffers] fail with [NO_INIT] and leave the
    core alone.  [acquireBuffer], [releaseBuffer], [attachBuffer] and the
    setters written in this file never read the flag: on an abandoned
    core each does exactly what it does on the same core with the flag
    clear. *)
Theorem abandoned_gates_detach_connect_mask_only (c : t) :
  mIsAbandoned c = true ->
  (forall freeBufferLocked slot,
      detachBuffer freeBufferLocked slot c
      = mkOutcome NO_INIT None c [EvLock; EvUnlock])
  /\ (forall consumerListener controlledByApp,
         connect (Some consumerListener) controlledByApp c
         = mkOutcome NO_INIT None c [EvLock; EvUnlock])
  /\ getReleasedBuffers true c = mkOutcome NO_INIT None c [EvLock; EvUnlock]
  /\ (forall expectedPresent maxFrameNumber,
         acquireBuffer expectedPresent maxFrameNumber c
         = withCore (set_mIsAbandoned true)
             (acquireBuffer expectedPresent maxFrameNumber
                (set_mIsAbandoned false c)))
  /\ (forall slot frameNumber releaseFence eglDisplay eglFence,
         releaseBuffer slot frameNumber releaseFence eglDisplay eglFence c
         = withCore (set_mIsAbandoned true)
             (releaseBuffer slot frameNumber releaseFence eglDisplay eglFence
                (set_mIsAbandoned false c)))
  /\ (forall outSlot buffer,
         attachBuffer outSlot buffer c
         = withCore (set_mIsAbandoned true)
             (attachBuffer outSlot buffer (set_mIsAbandoned false c)))
  /\ (forall w h,
         setDefaultBufferSize w h c
         = withCore (set_mIsAbandoned true)
             (setDefaultBufferSize w h (set_mIsAbandoned false c)))
  /\ disableAsyncBuffer c
     = withCore (set_mIsAbandoned true)
         (disableAsyncBuffer (set_mIsAbandoned false c))
  /\ (forall cap n,
         setMaxAcquiredBufferCount cap n c
         = withCore (set_mIsAbandoned true)
             (setMaxAcquiredBufferCount cap n (set_mIsAbandoned false c)))
  /\ (forall name,
         setConsumerName name c
         = withCore (set_mIsAbandoned true)
             (setConsumerName name (set_mIsAbandoned false c)))
  /\ (forall f,
         setDefaultBufferFormat f c
         = withCore (set_mIsAbandoned true)
             (setDefaultBufferFormat f (set_mIsAbandoned false c)))
  /\ (forall d,
         setDefaultBufferDataSpace d c
         = withCore (set_mIsAbandoned true)
             (setDefaultBufferDataSpace d (set_mIsAbandoned false c)))
  /\ (forall u,
         setConsumerUsageBits u c
         = withCore (set_mIsAbandoned true)
             (setConsumerUsageBits u (set_mIsAbandoned false c)))
  /\ (forall h,
         setTransformHint h c
         = withCore (set_mIsAbandoned true)
             (setTransformHint h (set_mIsAbandoned false c))).
Proof.
  intros Hab.
  split; [|split; [|split]].
  - intros. unfold detachBuffer. rewrite Hab. reflexivity.
  - intros. unfold connect. rewrite Hab. reflexivity.
  - unfold getReleasedBuffers. rewrite Hab. reflexivity.
  - pose proof (abandoned_twice c Hab) as E.
    pose proof (setters_abandoned true (set_mIsAbandoned false c)) as S.
    rewrite E in S.
    destruct S as (S1 & S2 & S3 & S4 & S5 & S6 & S7 & S8).
    split; [|split; [|split]].
    + intros. rewrite <- acquireBuffer_abandoned, E. reflexivity.
    + intros. rewrite <- releaseBuffer_abandoned, E. reflexivity.
    + intros. rewrite <- attachBuffer_abandoned, E. reflexivity.
    + repeat split; assumption.
Qed.

Lemma abandoned_gates_detach_connect_mask_only_witness :
  status (detachBuffer (fun _ c => c) 0 Scenario.abandoned) = NO_INIT
  /\ status (acquireBuffer 0 0 Scenario.abandoned)
     = status (acquireBuffer 0 0 (set_mIsAbandoned false Scenario.abandoned)).
Proof.
  pose proof (abandoned_gates_detach_connect_mask_only Scenario.abandoned
                eq_refl) as (D & _ & _ & A & _).
  split.
  - rewrite D. reflexivity.
  - rewrite A. reflexivity.
Defined.

(** C2 as stated does not hold: on an abandoned core [acquireBuffer]
    answers [NO_BUFFER_AVAILABLE], [releaseBuffer] answers [BAD_VALUE],
    [attachBuffer] succeeds and hands out slot 0, and
    [setTransformHint] succeeds and writes the hint. *)
Lemma abandoned_core_still_served :
  mIsAbandoned Scenario.abandoned = true
  /\ status (acquireBuffer 0 0 Scenario.abandoned) = NO_BUFFER_AVAILABLE
  /\ status (releaseBuffer 0 0 (Some NO_FENCE) 0 0 Scenario.abandoned)
     = BAD_VALUE
  /\ status (attachBuffer true (Some (Scenario.buffer 11 0)) Scenario.abandoned)
     = NO_ERROR
  /\ out (attachBuffer true (Some (Scenario.buffer 11 0)) Scenario.abandoned)
     = Some 0
  /\ status (setTransformHint 4 Scenario.abandoned) = NO_ERROR
  /\ mTransformHint (core (setTransformHint 4 Scenario.abandoned)) = 4%N.
Proof. repeat split; reflexivity. Qed.

(** ** The slot table *)

Lemma slotAt_updateSlot_ne (i j : Z) (f : BufferSlot.t -> BufferSlot.t)
    (slots : list BufferSlot.t) :
  i <> j -> slotAt (updateSlot i f slots) j = slotAt slots j.
Proof.
  intros Hne. unfold slotAt, updateSlot.
  destruct (Z.leb_spec 0 i); [|reflexivity].
  destruct (Z.leb_spec 0 j); [|reflexivity].
  rewrite list_lookup_alter_ne by lia. reflexivity.
Qed.

(** A slot that reads differently from the empty slot is in the table. *)
Lemma slotAt_updateSlot_eq (i : Z) (f : BufferSlot.t -> BufferSlot.t)
    (slots : list BufferSlot.t) :
  slotAt slots i <> emptySlot ->
  slotAt (updateSlot i f slots) i = f (slotAt slots i).
Proof.
  unfold slotAt, updateSlot.
  destruct (Z.leb_spec 0 i); [|congruence].
  rewrite list_lookup_alter_eq.
  destruct (slots !! Z.to_nat i); simpl; congruence.
Qed.

Lemma stillTracking_in_table (slots : list BufferSlot.t) (item : BufferItem.t) :
  stillTracking slots item = true ->
  slotAt slots (BufferItem.mSlot item) <> emptySlot.
Proof.
  unfold stillTracking. intros H E. rewrite E in H. discriminate.
Qed.

(** ** Counting the ACQUIRED slots *)

Lemma countAcquired_alter (f : BufferSlot.t -> BufferSlot.t) (i : nat) :
  forall slots,
    countAcquired (alter f i slots)
    = match slots !! i with
      | Some b =>
          countAcquired slots
          - (if isAcquired b then 1 else 0)
          + (if isAcquired (f b) then 1 else 0)
      | None => countAcquired slots
      end.
Proof.
  induction i as [|i IH]; intros [|b slots]; simpl; try reflexivity.
  - lia.
  - change (list_alter f i slots) with (alter f i slots).
    rewrite IH. destruct (slots !! i); lia.
Qed.

Lemma numAcquiredBuffers_updateSlot (i : Z) (f : BufferSlot.t -> BufferSlot.t)
    (slots : list BufferSlot.t) :
  numAcquiredBuffers (updateSlot i f slots)
  = if (0 <=? i) && (i <? NUM_BUFFER_SLOTS)
    then match slots !! Z.to_nat i with
         | Some b =>
             numAcquiredBuffers slots
             - (if isAcquired b then 1 else 0)
             + (if isAcquired (f b) then 1 else 0)
         | None => numAcquiredBuffers slots
         end
    else numAcquiredBuffers slots.
Proof.
  unfold numAcquiredBuffers, updateSlot.
  destruct (Z.leb_spec 0 i); simpl; [|reflexivity].
  destruct (Z.ltb_spec i NUM_BUFFER_SLOTS).
  - rewrite take_alter_lt by lia. rewrite countAcquired_alter.
    rewrite lookup_take_lt by lia. reflexivity.
  - rewrite take_alter_ge by lia. reflexivity.
Qed.

Lemma numAcquiredBuffers_free (i : Z) (slots : list BufferSlot.t) :
  numAcquiredBuffers
    (updateSlot i (BufferSlot.set_mBufferState BufferSlot.FREE) slots)
  <= numAcquiredBuffers slots.
Proof.
  rewrite numAcquiredBuffers_updateSlot.
  destruct ((0 <=? i) && (i <? NUM_BUFFER_SLOTS)); [|lia].
  destruct (slots !! Z.to_nat i) as [b|]; [|lia].
  destruct (isAcquired b); simpl; lia.
Qed.

(** ** The drop loop against the specification *)

Lemma set_slots_free_twice (s1 s2 : list BufferSlot.t) (f1 f2 : list Z)
    (c : t) :
  set_mFreeBuffers f2 (set_mSlots s2 (set_mFreeBuffers f1 (set_mSlots s1 c)))
  = set_mFreeBuffers f2 (set_mSlots s2 c).
Proof. destruct c; reflexivity. Qed.

Lemma set_slots_free_same (c : t) :
  set_mFreeBuffers (mFreeBuffers c) (set_mSlots (mSlots c) c) = c.
Proof. destruct c; reflexivity. Qed.

Lemma dropTest_spec (expectedPresent : Z) (maxFrameNumber : N)
    (front second : BufferItem.t) (rest : list BufferItem.t) :
  INT64_MIN + MAX_REASONABLE_NSEC <= expectedPresent <= INT64_MAX ->
  dropTest expectedPresent maxFrameNumber front second
  = Spec.drops_front expectedPresent maxFrameNumber (front :: second :: rest).
Proof.
  intros Hrange. unfold dropTest, Spec.drops_front, Spec.acceptable, Spec.timely.
  rewrite wrap_int64_id
    by (unfold in_int64, INT64_MIN, INT64_MAX, MAX_REASONABLE_NSEC in *; lia).
  unfold Spec.TOLERANCE, MAX_REASONABLE_NSEC.
  destruct (BufferItem.mIsAutoTimestamp front); [reflexivity|]. simpl.
  destruct (N.eqb_spec maxFrameNumber 0);
    destruct (N.ltb_spec maxFrameNumber (BufferItem.mFrameNumber second));
    destruct (N.leb_spec (BufferItem.mFrameNumber second) maxFrameNumber);
    try lia; simpl;
    destruct (Z.ltb_spec (BufferItem.mTimestamp second)
                (expectedPresent - 1000000000));
    destruct (Z.leb_spec (expectedPresent - 10 ^ 9)
                (BufferItem.mTimestamp second));
    try lia; simpl;
    destruct (Z.ltb_spec expectedPresent (BufferItem.mTimestamp second));
    destruct (Z.leb_spec (BufferItem.mTimestamp second) expectedPresent);
    try lia; reflexivity.
Qed.

Lemma dropFront_spec (front : BufferItem.t) (c : t) (l : Locals) :
  (dropFront front c l).1
  = set_mFreeBuffers
      (Spec.free_front front (mSlots c) (mFreeBuffers c)).2
      (set_mSlots (Spec.free_front front (mSlots c) (mFreeBuffers c)).1 c).
Proof.
  unfold dropFront, Spec.free_front.
  destruct (stillTracking (mSlots c) front); simpl; [reflexivity|].
  symmetry. apply set_slots_free_same.
Qed.

Lemma dropLoop_refines (expectedPresent : Z) (maxFrameNumber : N)
    (rest : list BufferItem.t) :
  INT64_MIN + MAX_REASONABLE_NSEC <= expectedPresent <= INT64_MAX ->
  forall front c l front' rest' c' l',
    dropLoop expectedPresent maxFrameNumber front rest c l
      = (front', rest', c', l') ->
    Spec.drop_loop expectedPresent maxFrameNumber (front :: rest)
      (mSlots c) (mFreeBuffers c)
      = (front' :: rest', mSlots c', mFreeBuffers c')
    /\ c' = set_mFreeBuffers (mFreeBuffers c') (set_mSlots (mSlots c') c).
Proof.
  intros Hrange.
  induction rest as [|second rest IH]; intros front c l front' rest' c' l'.
  - simpl. intros [= <- <- <- <-]. split; [reflexivity|].
    symmetry. apply set_slots_free_same.
  - cbn [dropLoop Spec.drop_loop].
    rewrite <- (dropTest_spec _ _ _ _ rest Hrange).
    destruct (dropTest expectedPresent maxFrameNumber front second).
    + pose proof (dropFront_spec front c l) as E.
      destruct (dropFront front c l) as [c1 l1]. simpl in E.
      destruct (Spec.free_front front (mSlots c) (mFreeBuffers c))
        as [slots1 free1]. simpl in E.
      intros H. apply IH in H as [H1 H2].
      assert (mSlots c1 = slots1) as Es by (rewrite E; destruct c; reflexivity).
      assert (mFreeBuffers c1 = free1) as Ef
          by (rewrite E; destruct c; reflexivity).
      rewrite Es, Ef in H1. split; [exact H1|].
      rewrite H2, E. apply set_slots_free_twice.
    + intros [= <- <- <- <-]. split; [reflexivity|].
      symmetry. apply set_slots_free_same.
Qed.

Lemma dropFront_effect (front : BufferItem.t) (c : t) (l : Locals) :
  (stillTracking (mSlots c) front = true ->
   BufferSlot.mBufferState
     (slotAt (mSlots (dropFront front c l).1) (BufferItem.mSlot front))
     = BufferSlot.FREE
   /\ (forall j, j <> BufferItem.mSlot front ->
         slotAt (mSlots (dropFront front c l).1) j = slotAt (mSlots c) j)
   /\ mFreeBuffers (dropFront front c l).1
      = mFreeBuffers c ++ [BufferItem.mSlot front]
   /\ mQueue (dropFront front c l).1 = mQueue c)
  /\ (stillTracking (mSlots c) front = false -> dropFront front c l = (c, l)).
Proof.
  unfold dropFront. split; intros T; rewrite T; [|reflexivity].
  destruct c as [slots q ? free ? ? ? ? ? ? ? ? ? ? ? ? ? ? ?]. simpl in *.
  repeat split.
  - rewrite slotAt_updateSlot_eq by (apply stillTracking_in_table; exact T).
    reflexivity.
  - intros j Hj. apply slotAt_updateSlot_ne. congruence.
Qed.

Lemma dropLoop_auto (expectedPresent : Z) (maxFrameNumber : N)
    (front : BufferItem.t) (rest : list BufferItem.t) (c : t) (l : Locals) :
  BufferItem.mIsAutoTimestamp front = true ->
  dropLoop expectedPresent maxFrameNumber front rest c l = (front, rest, c, l).
Proof.
  intros A. destruct rest as [|second rest]; [reflexivity|].
  simpl. unfold dropTest. rewrite A. reflexivity.
Qed.

(** *** One turn of the loop, seen from [acquireBuffer] *)

Lemma dropFront_core_any_locals (front : BufferItem.t) (c : t) (l l0 : Locals) :
  (dropFront front c l).1 = (dropFront front c l0).1.
Proof. unfold dropFront. destruct (stillTracking _ front); reflexivity. Qed.

Lemma dropFront_count (front : BufferItem.t) (c : t) (l : Locals) :
  numAcquiredBuffers (mSlots (dropFront front c l).1)
  <= numAcquiredBuffers (mSlots c)
  /\ mMaxAcquiredBufferCount (dropFront front c l).1
     = mMaxAcquiredBufferCount c.
Proof.
  unfold dropFront. destruct (stillTracking _ front); [|simpl; lia].
  destruct c; simpl. split; [apply numAcquiredBuffers_free|reflexivity].
Qed.

Lemma dropFront_set_mQueue (q : list BufferItem.t) (front : BufferItem.t)
    (c : t) (l : Locals) :
  dropFront front (set_mQueue q c) l
  = (set_mQueue q (dropFront front c l).1, (dropFront front c l).2).
Proof.
  destruct c. unfold dropFront. simpl.
  destruct (stillTracking _ front); reflexivity.
Qed.

(** The loop does not read the queue member of the core it carries. *)
Lemma dropLoop_set_mQueue (q : list BufferItem.t) (expectedPresent : Z)
    (maxFrameNumber : N) (rest : list BufferItem.t) :
  forall front c l,
    dropLoop expectedPresent maxFrameNumber front rest (set_mQueue q c) l
    = let '(front', rest', c', l') :=
        dropLoop expectedPresent maxFrameNumber front rest c l in
      (front', rest', set_mQueue q c', l').
Proof.
  induction rest as [|bufferItem rest IH]; intros front c l; simpl.
  - reflexivity.
  - destruct (dropTest _ _ front bufferItem); [|reflexivity].
    rewrite dropFront_set_mQueue.
    destruct (dropFront front c l) as [c1 l1]. simpl. apply IH.
Qed.

(** The locals do not steer the loop. *)
Lemma dropLoop_any_locals (expectedPresent : Z) (maxFrameNumber : N)
    (rest : list BufferItem.t) :
  forall front c l l0,
    (dropLoop expectedPresent maxFrameNumber front rest c l).1
    = (dropLoop expectedPresent maxFrameNumber front rest c l0).1.
Proof.
  induction rest as [|bufferItem rest IH]; intros front c l l0; simpl.
  - reflexivity.
  - destruct (dropTest _ _ front bufferItem); [|reflexivity].
    pose proof (dropFront_core_any_locals front c l l0) as E.
    destruct (dropFront front c l) as [c1 l1].
    destruct (dropFront front c l0) as [c2 l2]. simpl in E. subst c2.
    apply IH.
Qed.

Lemma set_mQueue_twice (q1 q2 : list BufferItem.t) (c : t) :
  set_mQueue q2 (set_mQueue q1 c) = set_mQueue q2 c.
Proof. destruct c; reflexivity. Qed.

(** A timed [acquireBuffer] whose loop test fails on the first two
    entries does what an untimed one does, unless it defers. *)
Lemma acquireBuffer_no_drop (expectedPresent : Z) (maxFrameNumber : N)
    (c : t) (front0 : BufferItem.t) (rest0 : list BufferItem.t) :
  expectedPresent <> 0 ->
  numAcquiredBuffers (mSlots c) < mMaxAcquiredBufferCount c + 1 ->
  mQueue c = front0 :: rest0 ->
  match rest0 with
  | [] => True
  | second :: _ =>
      dropTest expectedPresent maxFrameNumber front0 second = false
  end ->
  acquireBuffer expectedPresent maxFrameNumber c
  = mkOutcome PRESENT_LATER None c [EvLock; EvUnlock]
  \/ acquireBuffer expectedPresent maxFrameNumber c
     = acquireBuffer 0 maxFrameNumber c.
Proof.
  intros Hexp Hcap Q Hno. unfold acquireBuffer.
  destruct (Z.leb_spec (mMaxAcquiredBufferCount c + 1)
              (numAcquiredBuffers (mSlots c))); [lia|].
  rewrite Q. destruct (Z.eqb_spec expectedPresent 0); [congruence|].
  assert (dropLoop expectedPresent maxFrameNumber front0 rest0 c initLocals
          = (front0, rest0, c, initLocals)) as ->.
  { destruct rest0 as [|second rest]; [reflexivity|].
    simpl. rewrite Hno. reflexivity. }
  rewrite <- Q, set_mQueue_same.
  destruct (negb _ || negb _); [left|right]; reflexivity.
Qed.

(** A timed [acquireBuffer] whose loop test holds on the first two
    entries accepts a frame, and ends as the same call does on the
    core with the front entry freed and erased. *)
Lemma acquireBuffer_after_drop (expectedPresent : Z) (maxFrameNumber : N)
    (c : t) (front0 second : BufferItem.t) (rest : list BufferItem.t) :
  expectedPresent <> 0 ->
  numAcquiredBuffers (mSlots c) < mMaxAcquiredBufferCount c + 1 ->
  mQueue c = front0 :: second :: rest ->
  dropTest expectedPresent maxFrameNumber front0 second = true ->
  let r := acquireBuffer expectedPresent maxFrameNumber c in
  let r' := acquireBuffer expectedPresent maxFrameNumber
              (set_mQueue (second :: rest)
                 (dropFront front0 c initLocals).1) in
  status r = NO_ERROR
  /\ status r = status r' /\ out r = out r' /\ core r = core r'.
Proof.
  intros Hexp Hcap Q T r r'. subst r r'. unfold acquireBuffer.
  destruct (Z.leb_spec (mMaxAcquiredBufferCount c + 1)
              (numAcquiredBuffers (mSlots c))); [lia|].
  rewrite Q. destruct (Z.eqb_spec expectedPresent 0); [congruence|].
  cbn [dropLoop]. rewrite T.
  pose proof (dropFront_count front0 c initLocals) as [Hcount Hmax].
  destruct (dropFront front0 c initLocals) as [c1 l1]. cbn [fst] in *.
  assert (mSlots (set_mQueue (second :: rest) c1) = mSlots c1) as ->
      by (destruct c1; reflexivity).
  assert (mMaxAcquiredBufferCount (set_mQueue (second :: rest) c1)
          = mMaxAcquiredBufferCount c1) as -> by (destruct c1; reflexivity).
  assert (mQueue (set_mQueue (second :: rest) c1) = second :: rest) as ->
      by (destruct c1; reflexivity).
  destruct (Z.leb_spec (mMaxAcquiredBufferCount c1 + 1)
              (numAcquiredBuffers (mSlots c1))); [lia|].
  rewrite dropLoop_set_mQueue.
  pose proof (dropLoop_any_locals expectedPresent maxFrameNumber rest
                second c1 l1 initLocals) as E.
  destruct (dropLoop expectedPresent maxFrameNumber second rest c1 l1)
    as [[[front rest'] c2] l2] eqn:D.
  destruct (dropLoop expectedPresent maxFrameNumber second rest c1 initLocals)
    as [[[front' rest''] c2'] l2'].
  cbn [fst] in E. injection E as <- <- <-.
  rewrite set_mQueue_twice.
  assert (bufferIsDue expectedPresent front = true
          /\ consumerIsReady maxFrameNumber front = true) as [-> ->].
  { assert (BufferItem.mTimestamp front <= expectedPresent
            /\ (maxFrameNumber = 0%N
                \/ (BufferItem.mFrameNumber front <= maxFrameNumber)%N))
      as [Hts Hmax'].
    { destruct (dropLoop_stops _ _ _ _ _ _ _ _ _ _ D)
        as [(-> & _ & _ & _)|Hdone]; [|exact Hdone].
      apply dropTest_true in T as (_ & Hm & _ & Hts). auto. }
    unfold bufferIsDue, consumerIsReady.
    apply Z.leb_le in Hts. rewrite Hts. split; [reflexivity|].
    destruct (N.ltb_spec 0 maxFrameNumber); [|reflexivity].
    destruct Hmax' as [->|Hle]; [lia|]. apply N.leb_le. exact Hle. }
  simpl. unfold acquireFront. simpl. auto.
Qed.

(** C3, as the code has it.  A call that finds the acquired-count cap
    reached returns [INVALID_OPERATION] and drops nothing.  Below the
    cap, with [expectedPresent != 0] and [expectedPresent - 10^9]
    representable, [acquireBuffer] drops the front entry exactly when the
    queue has a second entry, the front is not auto-timestamped, the
    second entry's frame number is acceptable and its timestamp lies in
    [expectedPresent - 10^9, expectedPresent].  When it does, the call
    accepts a frame and ends as the same call ends on the core in which
    the front entry's slot, if still tracked, has been marked FREE and
    appended to [mFreeBuffers], and the front entry erased: the loop
    repeats.  When it does not, the call either defers and leaves the
    core alone or does what an untimed call does to the front entry.
    The queue, slot table and [mFreeBuffers] the call leaves are those
    of the loop written from the specification, with the entry it stops
    on acquired unless the call defers, in which case that loop has
    dropped nothing.  An auto-timestamped front entry is never dropped,
    whatever the times. *)
Theorem drop_loop_matches_specification
    (expectedPresent : Z) (maxFrameNumber : N) :
  (INT64_MIN + MAX_REASONABLE_NSEC <= expectedPresent <= INT64_MAX ->
   (forall front second,
       dropTest expectedPresent maxFrameNumber front second = true <->
       BufferItem.mIsAutoTimestamp front = false
       /\ (maxFrameNumber = 0%N
           \/ (BufferItem.mFrameNumber second <= maxFrameNumber)%N)
       /\ expectedPresent - 10 ^ 9 <= BufferItem.mTimestamp second
                                   <= expectedPresent)
   /\ (forall front rest c l front' rest' c' l',
          dropLoop expectedPresent maxFrameNumber front rest c l
            = (front', rest', c', l') ->
          Spec.drop_loop expectedPresent maxFrameNumber (front :: rest)
            (mSlots c) (mFreeBuffers c)
            = (front' :: rest', mSlots c', mFreeBuffers c')
          /\ c' = set_mFreeBuffers (mFreeBuffers c')
                    (set_mSlots (mSlots c') c))
   /\ (forall c front0 rest0,
          expectedPresent <> 0 ->
          numAcquiredBuffers (mSlots c) < mMaxAcquiredBufferCount c + 1 ->
          mQueue c = front0 :: rest0 ->
          let r := acquireBuffer expectedPresent maxFrameNumber c in
          let r' := acquireBuffer expectedPresent maxFrameNumber
                      (set_mQueue rest0 (dropFront front0 c initLocals).1) in
          ((exists second rest,
               rest0 = second :: rest
               /\ BufferItem.mIsAutoTimestamp front0 = false
               /\ (maxFrameNumber = 0%N
                   \/ (BufferItem.mFrameNumber second <= maxFrameNumber)%N)
               /\ expectedPresent - 10 ^ 9 <= BufferItem.mTimestamp second
                                           <= expectedPresent) ->
           status r = NO_ERROR
           /\ status r = status r' /\ out r = out r' /\ core r = core r')
          /\ (~ (exists second rest,
                    rest0 = second :: rest
                    /\ BufferItem.mIsAutoTimestamp front0 = false
                    /\ (maxFrameNumber = 0%N
                        \/ (BufferItem.mFrameNumber second
                            <= maxFrameNumber)%N)
                    /\ expectedPresent - 10 ^ 9
                       <= BufferItem.mTimestamp second <= expectedPresent) ->
              r = mkOutcome PRESENT_LATER None c [EvLock; EvUnlock]
              \/ r = acquireBuffer 0 maxFrameNumber c))
   /\ (forall c,
          expectedPresent <> 0 ->
          numAcquiredBuffers (mSlots c) < mMaxAcquiredBufferCount c + 1 ->
          mQueue c <> [] ->
          let r := acquireBuffer expectedPresent maxFrameNumber c in
          let s := Spec.drop_loop expectedPresent maxFrameNumber
                     (mQueue c) (mSlots c) (mFreeBuffers c) in
          (status r = PRESENT_LATER
           /\ s = (mQueue c, mSlots c, mFreeBuffers c)
           /\ core r = c)
          \/ (status r = NO_ERROR
              /\ exists front,
                  s.1.1 = front :: mQueue (core r)
                  /\ out r = Some (if BufferItem.mAcquireCalled front
                                   then BufferItem.set_mGraphicBuffer None front
                                   else front)
                  /\ mFreeBuffers (core r) = s.2
                  /\ mSlots (core r)
                     = if stillTracking s.1.2 front
                       then updateSlot (BufferItem.mSlot front)
                              markAcquired s.1.2
                       else s.1.2)))
  /\ (forall c,
         mMaxAcquiredBufferCount c + 1 <= numAcquiredBuffers (mSlots c) ->
         acquireBuffer expectedPresent maxFrameNumber c
         = mkOutcome INVALID_OPERATION None c [EvLock; EvUnlock])
  /\ (forall front c l,
         dropLoop expectedPresent maxFrameNumber front [] c l
         = (front, [], c, l))
  /\ (forall front second rest c l,
         dropLoop expectedPresent maxFrameNumber front (second :: rest) c l
         = if dropTest expectedPresent maxFrameNumber front second
           then dropLoop expectedPresent maxFrameNumber second rest
                  (dropFront front c l).1 (dropFront front c l).2
           else (front, second :: rest, c, l))
  /\ (forall front c l,
         (stillTracking (mSlots c) front = true ->
          BufferSlot.mBufferState
            (slotAt (mSlots (dropFront front c l).1) (BufferItem.mSlot front))
            = BufferSlot.FREE
          /\ (forall j, j <> BufferItem.mSlot front ->
                slotAt (mSlots (dropFront front c l).1) j
                = slotAt (mSlots c) j)
          /\ mFreeBuffers (dropFront front c l).1
             = mFreeBuffers c ++ [BufferItem.mSlot front]
          /\ mQueue (dropFront front c l).1 = mQueue c)
         /\ (stillTracking (mSlots c) front = false ->
             dropFront front c l = (c, l)))
  /\ (forall front rest c l,
         BufferItem.mIsAutoTimestamp front = true ->
         dropLoop expectedPresent maxFrameNumber front rest c l
         = (front, rest, c, l))
  /\ (forall c front0 rest0,
         expectedPresent <> 0 ->
         numAcquiredBuffers (mSlots c) < mMaxAcquiredBufferCount c + 1 ->
         mQueue c = front0 :: rest0 ->
         BufferItem.mIsAutoTimestamp front0 = true ->
         acquireBuffer expectedPresent maxFrameNumber c
         = mkOutcome PRESENT_LATER None c [EvLock; EvUnlock]
         \/ acquireBuffer expectedPresent maxFrameNumber c
            = acquireBuffer 0 maxFrameNumber c).
Proof.
  assert (forall front second,
             INT64_MIN + MAX_REASONABLE_NSEC <= expectedPresent <= INT64_MAX ->
             dropTest expectedPresent maxFrameNumber front second = true <->
             BufferItem.mIsAutoTimestamp front = false
             /\ (maxFrameNumber = 0%N
                 \/ (BufferItem.mFrameNumber second <= maxFrameNumber)%N)
             /\ expectedPresent - 10 ^ 9 <= BufferItem.mTimestamp second
                                         <= expectedPresent) as Htest.
  { intros front second Hrange. rewrite dropTest_true.
    rewrite wrap_int64_id
      by (unfold in_int64, INT64_MIN, INT64_MAX, MAX_REASONABLE_NSEC in *; lia).
    unfold MAX_REASONABLE_NSEC. intuition lia. }
  split; [intros Hrange; split; [|split; [|split]]
         |split; [|split; [|split; [|split; [|split]]]]].
  - intros front second. apply Htest, Hrange.
  - intros front rest c l front' rest' c' l'. apply dropLoop_refines, Hrange.
  - intros c front0 rest0 Hexp Hcap Q r r'. split.
    + intros (second & rest & -> & Hauto & Hmax & Hts).
      apply (acquireBuffer_after_drop _ _ _ _ _ _ Hexp Hcap Q).
      apply Htest; auto.
    + intros Hnot. apply (acquireBuffer_no_drop _ _ _ _ _ Hexp Hcap Q).
      destruct rest0 as [|second rest]; [exact I|].
      destruct (dropTest expectedPresent maxFrameNumber front0 second) eqn:T;
        [|reflexivity].
      exfalso. apply Hnot. exists second, rest. split; [reflexivity|].
      apply Htest; assumption.
  - intros c Hexp Hcap Hq r s. subst r s. unfold acquireBuffer.
    destruct (Z.leb_spec (mMaxAcquiredBufferCount c + 1)
                (numAcquiredBuffers (mSlots c))); [lia|].
    destruct (mQueue c) as [|front0 rest0] eqn:Q; [congruence|].
    destruct (Z.eqb_spec expectedPresent 0); [congruence|].
    destruct (dropLoop expectedPresent maxFrameNumber front0 rest0 c initLocals)
      as [[[front rest] c1] l] eqn:D.
    pose proof (dropLoop_stops _ _ _ _ _ _ _ _ _ _ D) as Hstop.
    apply (dropLoop_refines _ _ _ Hrange) in D as [-> _].
    destruct (negb (bufferIsDue expectedPresent front)
              || negb (consumerIsReady maxFrameNumber front)) eqn:G;
      [left|right].
    + split; [reflexivity|].
      destruct Hstop as [(-> & -> & -> & _)|[Hts Hmax]].
      * split; [reflexivity|]. simpl. rewrite <- Q. apply set_mQueue_same.
      * exfalso. unfold bufferIsDue, consumerIsReady in G.
        apply Z.leb_le in Hts. rewrite Hts in G. simpl in G.
        destruct (N.ltb_spec 0 maxFrameNumber); [|discriminate].
        destruct Hmax as [->|Hle]; [lia|].
        apply N.leb_le in Hle. rewrite Hle in G. discriminate.
    + split; [reflexivity|]. exists front. unfold acquireFront. simpl.
      destruct c1 as [slots1 ? ? ? ? ? ? ? ? ? ? ? ? ? ? ? ? ? ?]. simpl.
      destruct (stillTracking slots1 front); auto.
  - intros c Hcap. unfold acquireBuffer.
    destruct (Z.leb_spec (mMaxAcquiredBufferCount c + 1)
                (numAcquiredBuffers (mSlots c))); [reflexivity|lia].
  - reflexivity.
  - intros front second rest c l. simpl.
    destruct (dropTest _ _ front second); [|reflexivity].
    destruct (dropFront front c l); reflexivity.
  - intros. apply dropFront_effect.
  - intros. apply dropLoop_auto. assumption.
  - intros c front0 rest0 Hexp Hcap Q Hauto.
    apply (acquireBuffer_no_drop _ _ _ _ _ Hexp Hcap Q).
    destruct rest0 as [|second rest]; [exact I|].
    unfold dropTest. rewrite Hauto. reflexivity.
Qed.

Lemma drop_loop_matches_specification_witness :
  let c := Scenario.twoTimely in
  let r := acquireBuffer 2000000000 0 c in
  let r' := acquireBuffer 2000000000 0
              (set_mQueue [Scenario.item 7 70 2 2000000000 false]
                 (dropFront (Scenario.item 3 30 1 1000000000 false)
                    c initLocals).1) in
  status r = NO_ERROR
  /\ status r = status r' /\ out r = out r' /\ core r = core r'.
Proof.
  assert (INT64_MIN + MAX_REASONABLE_NSEC <= 2000000000 <= INT64_MAX) as R
      by (vm_compute; split; discriminate).
  destruct (proj1 (drop_loop_matches_specification 2000000000 0) R)
    as (_ & _ & A & _).
  apply (A Scenario.twoTimely (Scenario.item 3 30 1 1000000000 false)
           [Scenario.item 7 70 2 2000000000 false]).
  - discriminate.
  - vm_compute. reflexivity.
  - reflexivity.
  - exists (Scenario.item 7 70 2 2000000000 false), [].
    split; [reflexivity|]. split; [reflexivity|]. split; [left; reflexivity|].
    vm_compute. split; discriminate.
Defined.

(** C3 as stated does not hold: two frames with explicit timestamps are
    queued, the second acceptable and timely for [expectedPresent] = 2 s,
    yet with two slots ACQUIRED and [mMaxAcquiredBufferCount = 1] the
    call returns [INVALID_OPERATION] and the front entry stays where it
    was. *)
Lemma acquire_at_cap_drops_nothing :
  let c := Scenario.atCapTwoTimely in
  let r := acquireBuffer 2000000000 0 c in
  mQueue c = [Scenario.item 3 30 3 1000000000 false;
              Scenario.item 7 70 4 2000000000 false]
  /\ dropTest 2000000000 0 (Scenario.item 3 30 3 1000000000 false)
       (Scenario.item 7 70 4 2000000000 false) = true
  /\ numAcquiredBuffers (mSlots c) = 2
  /\ mMaxAcquiredBufferCount c = 1
  /\ status r = INVALID_OPERATION
  /\ out r = None
  /\ core r = c.
Proof. repeat split; reflexivity. Qed.

(** ** The timing check *)

Lemma bufferIsDue_spec (expectedPresent : Z) (front : BufferItem.t) :
  INT64_MIN <= expectedPresent ->
  expectedPresent + MAX_REASONABLE_NSEC <= INT64_MAX ->
  bufferIsDue expectedPresent front
  = Spec.buffer_is_due expectedPresent (BufferItem.mTimestamp front).
Proof.
  intros Hlo Hhi. unfold bufferIsDue, Spec.buffer_is_due.
  rewrite wrap_int64_id
    by (unfold in_int64, INT64_MIN, INT64_MAX, MAX_REASONABLE_NSEC in *; lia).
  reflexivity.
Qed.

Lemma consumerIsReady_spec (maxFrameNumber : N) (front : BufferItem.t) :
  consumerIsReady maxFrameNumber front
  = Spec.consumer_is_ready maxFrameNumber (BufferItem.mFrameNumber front).
Proof.
  unfold consumerIsReady, Spec.consumer_is_ready.
  destruct (N.ltb_spec 0 maxFrameNumber);
    destruct (N.eqb_spec maxFrameNumber 0); try lia; reflexivity.
Qed.

Lemma buffer_is_due_iff (expected_present desired : Z) :
  Spec.buffer_is_due expected_present desired = true <->
  desired <= expected_present \/ desired > expected_present + 10 ^ 9.
Proof.
  unfold Spec.buffer_is_due, Spec.TOLERANCE.
  rewrite orb_true_iff, Z.leb_le, Z.ltb_lt. lia.
Qed.

Lemma consumer_is_ready_iff (max_frame_number frame_number : N) :
  Spec.consumer_is_ready max_frame_number frame_number = true <->
  max_frame_number = 0%N \/ (frame_number <= max_frame_number)%N.
Proof.
  unfold Spec.consumer_is_ready.
  rewrite orb_true_iff, N.eqb_eq, N.leb_le. reflexivity.
Qed.

(** The status of a call that gets as far as the timing check. *)
Lemma acquireBuffer_timed_status (expectedPresent : Z) (maxFrameNumber : N)
    (c : t) (front0 : BufferItem.t) (rest0 : list BufferItem.t) :
  expectedPresent <> 0 ->
  numAcquiredBuffers (mSlots c) < mMaxAcquiredBufferCount c + 1 ->
  mQueue c = front0 :: rest0 ->
  status (acquireBuffer expectedPresent maxFrameNumber c)
  = let front :=
      (dropLoop expectedPresent maxFrameNumber front0 rest0 c initLocals).1.1.1
    in
    if bufferIsDue expectedPresent front && consumerIsReady maxFrameNumber front
    then NO_ERROR else PRESENT_LATER.
Proof.
  intros Hexp Hcap Q. unfold acquireBuffer.
  destruct (Z.leb_spec (mMaxAcquiredBufferCount c + 1)
              (numAcquiredBuffers (mSlots c))); [lia|].
  rewrite Q. destruct (Z.eqb_spec expectedPresent 0); [congruence|].
  destruct (dropLoop expectedPresent maxFrameNumber front0 rest0 c initLocals)
    as [[[front rest] c1] l]. simpl.
  destruct (bufferIsDue expectedPresent front);
    destruct (consumerIsReady maxFrameNumber front); reflexivity.
Qed.

(** C4, as the code has it.  With [expectedPresent != 0] (and
    [expectedPresent + 10^9] representable), a non-empty queue and the acquired-count cap not
    reached, [acquireBuffer] returns [PRESENT_LATER] exactly when the
    entry the drop loop stops on is not due ([desired <= expectedPresent]
    or [desired > expectedPresent + 10^9] both fail) or the consumer is
    not ready for it ([maxFrameNumber = 0] or
    [frame <= maxFrameNumber] both fail); otherwise it returns
    [NO_ERROR].  A timestamp equal to [expectedPresent] is due, so a call
    whose [expectedPresent] equals the front entry's timestamp is
    accepted when the consumer is ready for that entry, and is deferred
    by the frame-number gate alone otherwise. *)
Theorem acquire_present_later_iff_not_due_or_not_ready
    (expectedPresent : Z) (maxFrameNumber : N) (c : t)
    (front0 : BufferItem.t) (rest0 : list BufferItem.t) :
  expectedPresent <> 0 ->
  INT64_MIN <= expectedPresent ->
  expectedPresent + MAX_REASONABLE_NSEC <= INT64_MAX ->
  numAcquiredBuffers (mSlots c) < mMaxAcquiredBufferCount c + 1 ->
  mQueue c = front0 :: rest0 ->
  let r := acquireBuffer expectedPresent maxFrameNumber c in
  let front :=
    (dropLoop expectedPresent maxFrameNumber front0 rest0 c initLocals).1.1.1 in
  let desired := BufferItem.mTimestamp front in
  (status r = PRESENT_LATER <->
   ~ (desired <= expectedPresent \/ desired > expectedPresent + 10 ^ 9)
   \/ ~ (maxFrameNumber = 0%N
         \/ (BufferItem.mFrameNumber front <= maxFrameNumber)%N))
  /\ (status r <> PRESENT_LATER -> status r = NO_ERROR)
  /\ (desired = expectedPresent ->
      (status r = PRESENT_LATER <->
       ~ (maxFrameNumber = 0%N
          \/ (BufferItem.mFrameNumber front <= maxFrameNumber)%N)))
  /\ (BufferItem.mTimestamp front0 = expectedPresent ->
      maxFrameNumber = 0%N
      \/ (BufferItem.mFrameNumber front0 <= maxFrameNumber)%N ->
      status r = NO_ERROR).
Proof.
  intros Hexp Hlo Hhi Hcap Q r front desired.
  assert (status r
          = if Spec.buffer_is_due expectedPresent desired
               && Spec.consumer_is_ready maxFrameNumber
                    (BufferItem.mFrameNumber front)
            then NO_ERROR else PRESENT_LATER) as S.
  { subst r. rewrite (acquireBuffer_timed_status _ _ _ _ _ Hexp Hcap Q).
    cbv zeta. fold front.
    rewrite bufferIsDue_spec, consumerIsReady_spec by assumption.
    reflexivity. }
  pose proof (buffer_is_due_iff expectedPresent desired) as Hdue.
  pose proof (consumer_is_ready_iff maxFrameNumber
                (BufferItem.mFrameNumber front)) as Hready.
  split; [|split; [|split]].
  - rewrite S.
    destruct (Spec.buffer_is_due expectedPresent desired);
      destruct (Spec.consumer_is_ready maxFrameNumber
                  (BufferItem.mFrameNumber front)); simpl;
      split; intros H; try discriminate; try reflexivity.
    + exfalso. destruct H as [H|H]; apply H; [apply Hdue|apply Hready];
        reflexivity.
    + right. intros H'. apply Hready in H'. discriminate.
    + left. intros H'. apply Hdue in H'. discriminate.
    + left. intros H'. apply Hdue in H'. discriminate.
  - rewrite S. destruct (_ && _); congruence.
  - intros Heq. rewrite S.
    assert (Spec.buffer_is_due expectedPresent desired = true) as ->
        by (apply Hdue; lia).
    simpl.
    destruct (Spec.consumer_is_ready maxFrameNumber
                (BufferItem.mFrameNumber front));
      split; intros H; try discriminate; try reflexivity.
    + exfalso. apply H, Hready. reflexivity.
    + intros H'. apply Hready in H'. discriminate.
  - intros Hts Hgate. rewrite S. subst front desired.
    destruct (dropLoop expectedPresent maxFrameNumber front0 rest0 c initLocals)
      as [[[front rest] c1] l] eqn:D. simpl in *.
    destruct (dropLoop_stops _ _ _ _ _ _ _ _ _ _ D)
      as [(-> & _ & _ & _)|[Hdesired Hmax]].
    + assert (Spec.buffer_is_due expectedPresent
                (BufferItem.mTimestamp front0) = true) as ->
          by (apply buffer_is_due_iff; lia).
      assert (Spec.consumer_is_ready maxFrameNumber
                (BufferItem.mFrameNumber front0) = true) as ->
          by (apply consumer_is_ready_iff; exact Hgate).
      reflexivity.
    + assert (Spec.buffer_is_due expectedPresent
                (BufferItem.mTimestamp front) = true) as ->
          by (apply buffer_is_due_iff; lia).
      assert (Spec.consumer_is_ready maxFrameNumber
                (BufferItem.mFrameNumber front) = true) as ->
          by (apply consumer_is_ready_iff; exact Hmax).
      reflexivity.
Qed.

Lemma acquire_present_later_iff_not_due_or_not_ready_witness :
  status (acquireBuffer 1000 0 Scenario.oneOnTime) = NO_ERROR.
Proof.
  apply (proj2 (proj2 (proj2
           (acquire_present_later_iff_not_due_or_not_ready 1000 0
              Scenario.oneOnTime (Scenario.item 3 30 1 1000 false) []
              ltac:(discriminate)
              ltac:(vm_compute; discriminate)
              ltac:(vm_compute; discriminate)
              ltac:(vm_compute; reflexivity)
              eq_refl)))).
  - reflexivity.
  - left. reflexivity.
Defined.

(** C4 as stated does not hold: the only queued frame has the timestamp
    [expectedPresent] = 1000 and the cap is not reached, yet the call is
    deferred, because the frame's number 5 is past
    [maxFrameNumber] = 4. *)
Lemma acquire_on_time_deferred_by_frame_gate :
  let c := Scenario.frameFive in
  let r := acquireBuffer 1000 4 c in
  mQueue c = [Scenario.item 3 30 5 1000 false]
  /\ BufferItem.mTimestamp (Scenario.item 3 30 5 1000 false) = 1000
  /\ numAcquiredBuffers (mSlots c) < mMaxAcquiredBufferCount c + 1
  /\ bufferIsDue 1000 (Scenario.item 3 30 5 1000 false) = true
  /\ consumerIsReady 4 (Scenario.item 3 30 5 1000 false) = false
  /\ status r = PRESENT_LATER
  /\ out r = None
  /\ core r = c.
Proof. repeat split; reflexivity. Qed.

(** ** Greedy acquisition *)

(** C5. With [expectedPresent = 0], a non-empty queue and the cap not
    reached, [acquireBuffer] takes the success path with the front entry,
    whatever [maxFrameNumber] is: it returns [NO_ERROR], hands out the
    front entry (its buffer pointer cleared when the entry was queued
    with [mAcquireCalled] set), erases it from the queue, and marks its
    slot acquired when the entry is still tracked.  It returns neither
    [PRESENT_LATER] nor [NO_BUFFER_AVAILABLE]. *)
Theorem acquire_greedy_ignores_maxFrameNumber
    (maxFrameNumber : N) (c : t) (front : BufferItem.t)
    (rest : list BufferItem.t) :
  numAcquiredBuffers (mSlots c) < mMaxAcquiredBufferCount c + 1 ->
  mQueue c = front :: rest ->
  let r := acquireBuffer 0 maxFrameNumber c in
  r = acquireBuffer 0 0 c
  /\ status r = NO_ERROR
  /\ out r = Some (if BufferItem.mAcquireCalled front
                   then BufferItem.set_mGraphicBuffer None front
                   else front)
  /\ mQueue (core r) = rest
  /\ mFreeBuffers (core r) = mFreeBuffers c
  /\ mSlots (core r)
     = (if stillTracking (mSlots c) front
        then updateSlot (BufferItem.mSlot front) markAcquired (mSlots c)
        else mSlots c)
  /\ (stillTracking (mSlots c) front = true ->
      BufferSlot.mBufferState (slotAt (mSlots (core r)) (BufferItem.mSlot front))
      = BufferSlot.ACQUIRED
      /\ BufferSlot.mAcquireCalled
           (slotAt (mSlots (core r)) (BufferItem.mSlot front)) = true).
Proof.
  intros Hcap Q r. subst r. unfold acquireBuffer.
  destruct (Z.leb_spec (mMaxAcquiredBufferCount c + 1)
              (numAcquiredBuffers (mSlots c))); [lia|].
  rewrite Q. simpl. unfold acquireFront.
  destruct c as [slots q ? free ? ? ? ? ? ? ? ? ? ? ? ? ? ? ?]. simpl in *.
  destruct (stillTracking slots front) eqn:T; simpl;
    (split; [reflexivity|]); (split; [reflexivity|]);
    (split; [reflexivity|]); (split; [reflexivity|]);
    (split; [reflexivity|]); (split; [reflexivity|]);
    intros Ht; [|discriminate].
  rewrite slotAt_updateSlot_eq by (apply stillTracking_in_table; exact T).
  split; reflexivity.
Qed.

Lemma acquire_greedy_ignores_maxFrameNumber_witness :
  status (acquireBuffer 0 4 Scenario.frameFive) = NO_ERROR
  /\ out (acquireBuffer 0 4 Scenario.frameFive)
     = Some (Scenario.item 3 30 5 1000 false).
Proof.
  destruct (acquire_greedy_ignores_maxFrameNumber 4 Scenario.frameFive
              (Scenario.item 3 30 5 1000 false) []
              ltac:(vm_compute; reflexivity) eq_refl)
    as (_ & S & O & _).
  split; [exact S|exact O].
Defined.

(** ** releaseBuffer *)

Lemma isQueued_true (slot : Z) (q : list BufferItem.t) :
  isQueued slot q = true <->
  exists current, In current q /\ BufferItem.mSlot current = slot.
Proof.
  unfold isQueued. rewrite existsb_exists.
  split; intros (current & Hin & H); exists current; split; auto;
    apply Z.eqb_eq; exact H.
Qed.

Lemma isAcquired_true (b : BufferSlot.t) :
  isAcquired b = true <-> BufferSlot.mBufferState b = BufferSlot.ACQUIRED.
Proof. unfold isAcquired. apply bool_decide_eq_true. Qed.





(** ** The release callbacks of acquireBuffer *)

Lemma tracked_cons (front : BufferItem.t) (b : bool)
    (dropped : list (BufferItem.t * bool)) :
  Dropped.tracked ((front, b) :: dropped)
  = ((if b then 1 else 0) + Dropped.tracked dropped)%nat.
Proof.
  unfold Dropped.tracked. rewrite filter_cons.
  destruct b; simpl; reflexivity.
Qed.

Lemma dropFront_listener (front : BufferItem.t) (c : t) (l : Locals) :
  mConnectedProducerListener (dropFront front c l).1
  = mConnectedProducerListener c.
Proof.
  unfold dropFront. destruct (stillTracking _ front); destruct c; reflexivity.
Qed.

Lemma dropLoop_log (expectedPresent : Z) (maxFrameNumber : N)
    (rest : list BufferItem.t) :
  forall front c l front' rest' c' l',
    dropLoop expectedPresent maxFrameNumber front rest c l
      = (front', rest', c', l') ->
    let dropped :=
      Dropped.ofLoop expectedPresent maxFrameNumber front rest c in
    map fst dropped ++ front' :: rest' = front :: rest
    /\ numDroppedBuffers l'
       = (numDroppedBuffers l + Dropped.tracked dropped)%nat
    /\ listener l'
       = (if Nat.eqb (Dropped.tracked dropped) 0 then listener l
          else mConnectedProducerListener c)
    /\ (dropped = []
        \/ (BufferItem.mTimestamp front' <= expectedPresent
            /\ (maxFrameNumber = 0%N
                \/ (BufferItem.mFrameNumber front' <= maxFrameNumber)%N))).
Proof.
  induction rest as [|second rest IH]; intros front c l front' rest' c' l'.
  - simpl. intros [= <- <- <- <-]. repeat split; auto with lia.
  - cbn [dropLoop Dropped.ofLoop].
    destruct (dropTest expectedPresent maxFrameNumber front second) eqn:T.
    2:{ intros [= <- <- <- <-]. simpl. repeat split; auto with lia. }
    rewrite (dropFront_core_any_locals front c initLocals l).
    pose proof (dropFront_listener front c l) as Hl.
    assert ((dropFront front c l).2
            = if stillTracking (mSlots c) front
              then {| listener := mConnectedProducerListener c;
                      numDroppedBuffers := S (numDroppedBuffers l) |}
              else l) as Hl2
        by (unfold dropFront; destruct (stillTracking _ front); reflexivity).
    destruct (dropFront front c l) as [c1 l1]. simpl in Hl, Hl2 |- *.
    intros H. pose proof (dropLoop_stops _ _ _ _ _ _ _ _ _ _ H) as Hstop.
    apply IH in H as (Hq & Hn & Hp & _).
    rewrite tracked_cons.
    split; [rewrite Hq; reflexivity|].
    split; [|split].
    + rewrite Hn, Hl2. destruct (stillTracking (mSlots c) front); simpl; lia.
    + rewrite Hp, Hl, Hl2.
      destruct (stillTracking (mSlots c) front); simpl; [|reflexivity].
      destruct (Nat.eqb _ 0); reflexivity.
    + right. apply dropTest_true in T as (_ & Hmax & _ & Hts).
      destruct Hstop as [(-> & _)|Hstop]; auto.
Qed.

Lemma notifyDropped_after_loop (l : Locals) (p : option ListenerId) (n : nat) :
  numDroppedBuffers l = n ->
  listener l = (if Nat.eqb n 0 then None else p) ->
  notifyDropped l
  = match p with
    | Some producer => repeat (EvOnBufferReleased producer) n
    | None => []
    end.
Proof.
  unfold notifyDropped. intros Hn Hl. rewrite Hl, Hn.
  destruct (Nat.eqb_spec n 0) as [->|_]; destruct p; reflexivity.
Qed.

(** C7, as the code has it.  Once the lock is released, [acquireBuffer]
    calls [onBufferReleased] on the connected producer listener once per
    entry that the drop loop dropped while the entry was still tracked,
    and makes no other callback; an entry dropped after its slot stopped
    tracking it is erased without a callback.  The calls that do not
    return [NO_ERROR] have dropped nothing and call nothing. *)
Theorem acquire_notifies_once_per_tracked_drop
    (expectedPresent : Z) (maxFrameNumber : N) (c : t) :
  let r := acquireBuffer expectedPresent maxFrameNumber c in
  let dropped := Dropped.ofAcquire expectedPresent maxFrameNumber c in
  events r
  = (if bool_decide (status r = NO_ERROR)
     then [EvLock; EvBroadcast; EvUnlock] else [EvLock; EvUnlock])
    ++ match mConnectedProducerListener c with
       | Some producer =>
           repeat (EvOnBufferReleased producer) (Dropped.tracked dropped)
       | None => []
       end
  /\ (status r = NO_ERROR ->
      exists front,
        mQueue c = map fst dropped ++ front :: mQueue (core r))
  /\ (status r <> NO_ERROR -> dropped = []).
Proof.
  intros r dropped. subst r dropped.
  unfold acquireBuffer, Dropped.ofAcquire.
  destruct (_ <=? _).
  { simpl. destruct (mConnectedProducerListener c); repeat split;
      intros; try discriminate; reflexivity. }
  destruct (mQueue c) as [|front0 rest0] eqn:Q.
  { simpl. destruct (mConnectedProducerListener c); repeat split;
      intros; try discriminate; reflexivity. }
  destruct (expectedPresent =? 0).
  { unfold acquireFront. simpl.
    split; [destruct (mConnectedProducerListener c); reflexivity|].
    split; [|congruence]. intros _. exists front0.
    destruct (stillTracking (mSlots c) front0); destruct c; reflexivity. }
  destruct (dropLoop expectedPresent maxFrameNumber front0 rest0 c initLocals)
    as [[[front rest] c1] l] eqn:D.
  apply dropLoop_log in D as (Hq & Hn & Hp & Hstop). simpl in Hn, Hp.
  destruct (negb (bufferIsDue expectedPresent front)
            || negb (consumerIsReady maxFrameNumber front)) eqn:G.
  - assert (Dropped.ofLoop expectedPresent maxFrameNumber front0 rest0 c = [])
      as E.
    { destruct Hstop as [E|[Hts Hmax]]; [exact E|exfalso].
      unfold bufferIsDue, consumerIsReady in G.
      apply Z.leb_le in Hts. rewrite Hts in G. simpl in G.
      destruct (N.ltb_spec 0 maxFrameNumber); [|discriminate].
      destruct Hmax as [->|Hle]; [lia|].
      apply N.leb_le in Hle. rewrite Hle in G. discriminate. }
    rewrite E. simpl.
    split; [destruct (mConnectedProducerListener c); reflexivity|].
    split; [discriminate|reflexivity].
  - unfold acquireFront. simpl.
    split; [|split; [|congruence]].
    + do 3 f_equal. apply notifyDropped_after_loop; [exact Hn|exact Hp].
    + intros _. exists front. rewrite Hq. reflexivity.
Qed.

(** C7 as stated does not hold: with the front entry no longer tracked,
    the call drops it (the queue of two entries ends empty, the second
    entry being the one handed out) and makes no callback at all, though
    a producer listener is connected. *)
Lemma acquire_drops_stale_front_silently :
  let r := acquireBuffer 2000000000 0 Scenario.staleFront in
  mConnectedProducerListener Scenario.staleFront = Some 7%nat
  /\ status r = NO_ERROR
  /\ map fst (Dropped.ofAcquire 2000000000 0 Scenario.staleFront)
     = [Scenario.item 3 30 1 1000000000 false]
  /\ out r = Some (Scenario.item 7 70 2 2000000000 false)
  /\ mQueue (core r) = []
  /\ events r = [EvLock; EvBroadcast; EvUnlock].
Proof. vm_compute. repeat split; reflexivity. Qed.

(** ** attachBuffer and the generation number *)

(** C9, as the code has it.  [attachBuffer] with a non-null [outSlot]
    and a buffer of another generation than the queue's changes nothing
    and hands out no slot.  It returns [BAD_VALUE] when fewer than
    [mMaxAcquiredBufferCount + 1] slots are ACQUIRED; at the cap it
    returns [INVALID_OPERATION], because the count is checked before the
    generation number. *)
Theorem attach_wrong_generation_rejected (buffer : GraphicBuffer) (c : t) :
  getGenerationNumber buffer <> mGenerationNumber c ->
  let r := attachBuffer true (Some buffer) c in
  core r = c
  /\ out r = None
  /\ (numAcquiredBuffers (mSlots c) < mMaxAcquiredBufferCount c + 1 ->
      status r = BAD_VALUE)
  /\ (mMaxAcquiredBufferCount c + 1 <= numAcquiredBuffers (mSlots c) ->
      status r = INVALID_OPERATION).
Proof.
  intros Hgen r. subst r. unfold attachBuffer. simpl.
  destruct (Z.leb_spec (mMaxAcquiredBufferCount c + 1)
              (numAcquiredBuffers (mSlots c))).
  - repeat split; intros; try reflexivity; lia.
  - destruct (N.eqb_spec (getGenerationNumber buffer) (mGenerationNumber c));
      [contradiction|].
    repeat split; intros; try reflexivity; lia.
Qed.

Lemma attach_wrong_generation_rejected_witness :
  status (attachBuffer true (Some (Scenario.buffer 13 1)) Scenario.oneAcquired)
  = BAD_VALUE
  /\ core (attachBuffer true (Some (Scenario.buffer 13 1)) Scenario.oneAcquired)
     = Scenario.oneAcquired.
Proof.
  destruct (attach_wrong_generation_rejected (Scenario.buffer 13 1)
              Scenario.oneAcquired ltac:(discriminate))
    as (C & _ & B & _).
  split; [apply B; vm_compute; reflexivity|exact C].
Defined.

(** C9 as stated does not hold: with two slots ACQUIRED and
    [mMaxAcquiredBufferCount = 1], a buffer of generation 1 offered to a
    queue of generation 0 is answered [INVALID_OPERATION]. *)
Lemma attach_at_cap_hides_generation_mismatch :
  getGenerationNumber (Scenario.buffer 13 1) = 1%N
  /\ mGenerationNumber Scenario.atCap = 0%N
  /\ numAcquiredBuffers (mSlots Scenario.atCap) = 2
  /\ mMaxAcquiredBufferCount Scenario.atCap = 1
  /\ status (attachBuffer true (Some (Scenario.buffer 13 1)) Scenario.atCap)
     = INVALID_OPERATION.
Proof. vm_compute. repeat split; reflexivity. Qed.

(** ** acquireBuffer on an entry that is no longer tracked *)

Lemma dropFront_slot_monotone (front : BufferItem.t) (c : t) (l : Locals)
    (i : Z) :
  BufferSlot.mAcquireCalled (slotAt (mSlots (dropFront front c l).1) i)
  = BufferSlot.mAcquireCalled (slotAt (mSlots c) i)
  /\ (BufferSlot.mBufferState (slotAt (mSlots (dropFront front c l).1) i)
      = BufferSlot.ACQUIRED ->
      BufferSlot.mBufferState (slotAt (mSlots c) i) = BufferSlot.ACQUIRED).
Proof.
  unfold dropFront. destruct (stillTracking (mSlots c) front) eqn:T; [|auto].
  destruct c as [slots ? ? ? ? ? ? ? ? ? ? ? ? ? ? ? ? ? ?]. simpl in *.
  destruct (Z.eq_dec i (BufferItem.mSlot front)) as [->|Hne].
  - rewrite slotAt_updateSlot_eq by (apply stillTracking_in_table; exact T).
    split; [reflexivity|discriminate].
  - rewrite slotAt_updateSlot_ne by congruence. auto.
Qed.

Lemma dropLoop_slot_monotone (expectedPresent : Z) (maxFrameNumber : N)
    (rest : list BufferItem.t) (i : Z) :
  forall front c l front' rest' c' l',
    dropLoop expectedPresent maxFrameNumber front rest c l
      = (front', rest', c', l') ->
    BufferSlot.mAcquireCalled (slotAt (mSlots c') i)
    = BufferSlot.mAcquireCalled (slotAt (mSlots c) i)
    /\ (BufferSlot.mBufferState (slotAt (mSlots c') i) = BufferSlot.ACQUIRED ->
        BufferSlot.mBufferState (slotAt (mSlots c) i) = BufferSlot.ACQUIRED).
Proof.
  induction rest as [|second rest IH]; intros front c l front' rest' c' l'.
  - simpl. intros [= <- <- <- <-]. auto.
  - simpl. destruct (dropTest _ _ front second).
    + pose proof (dropFront_slot_monotone front c l i) as [Hc Hs].
      destruct (dropFront front c l) as [c1 l1]. simpl in Hc, Hs.
      intros H. apply IH in H as [Hc' Hs']. rewrite Hc', Hc. auto.
    + intros [= <- <- <- <-]. auto.
Qed.

Lemma dropLoop_nothing_dropped (expectedPresent : Z) (maxFrameNumber : N)
    (front : BufferItem.t) (rest : list BufferItem.t) (c : t) (l : Locals) :
  Dropped.ofLoop expectedPresent maxFrameNumber front rest c = [] ->
  dropLoop expectedPresent maxFrameNumber front rest c l = (front, rest, c, l).
Proof.
  destruct rest as [|second rest]; [reflexivity|]. simpl.
  destruct (dropTest _ _ front second); [discriminate|reflexivity].
Qed.

(** C10. When [acquireBuffer] reaches its success path with a front
    entry that is no longer tracked, it still returns [NO_ERROR], hands
    out the entry and erases it from the queue, and the success path
    leaves the slot table as it found it: the core it returns is the
    core it reached the success path with, less the front entry.  Over
    the whole call no slot becomes ACQUIRED, no slot's [mAcquireCalled]
    changes, and the count of ACQUIRED slots is the one the success path
    started from; when the drop loop dropped nothing the slot table is
    the one the call started from. *)
Theorem acquire_untracked_front_changes_no_slot
    (expectedPresent : Z) (maxFrameNumber : N) (c : t)
    (front0 : BufferItem.t) (rest0 : list BufferItem.t) :
  numAcquiredBuffers (mSlots c) < mMaxAcquiredBufferCount c + 1 ->
  mQueue c = front0 :: rest0 ->
  let r := acquireBuffer expectedPresent maxFrameNumber c in
  let reached :=
    if expectedPresent =? 0 then (front0, rest0, c, initLocals)
    else dropLoop expectedPresent maxFrameNumber front0 rest0 c initLocals in
  let front := reached.1.1.1 in
  let rest := reached.1.1.2 in
  let c1 := reached.1.2 in
  status r <> PRESENT_LATER ->
  stillTracking (mSlots c1) front = false ->
  status r = NO_ERROR
  /\ out r = Some (if BufferItem.mAcquireCalled front
                   then BufferItem.set_mGraphicBuffer None front
                   else front)
  /\ core r = set_mQueue rest c1
  /\ mQueue (core r) = rest
  /\ mSlots (core r) = mSlots c1
  /\ mFreeBuffers (core r) = mFreeBuffers c1
  /\ numAcquiredBuffers (mSlots (core r)) = numAcquiredBuffers (mSlots c1)
  /\ (forall i,
         BufferSlot.mBufferState (slotAt (mSlots (core r)) i)
           = BufferSlot.ACQUIRED ->
         BufferSlot.mBufferState (slotAt (mSlots c) i) = BufferSlot.ACQUIRED)
  /\ (forall i,
         BufferSlot.mAcquireCalled (slotAt (mSlots (core r)) i)
         = BufferSlot.mAcquireCalled (slotAt (mSlots c) i))
  /\ (Dropped.ofAcquire expectedPresent maxFrameNumber c = [] ->
      mSlots (core r) = mSlots c
      /\ numAcquiredBuffers (mSlots (core r)) = numAcquiredBuffers (mSlots c)).
Proof.
  intros Hcap Q r reached front rest c1. subst r front rest c1 reached.
  unfold acquireBuffer, Dropped.ofAcquire.
  destruct (Z.leb_spec (mMaxAcquiredBufferCount c + 1)
              (numAcquiredBuffers (mSlots c))); [lia|].
  rewrite Q. destruct (expectedPresent =? 0).
  - simpl. intros _ T. unfold acquireFront. rewrite T. simpl.
    destruct c; simpl; repeat split; auto.
  - pose proof (dropLoop_nothing_dropped expectedPresent maxFrameNumber
                  front0 rest0 c initLocals) as Hnone.
    destruct (dropLoop expectedPresent maxFrameNumber front0 rest0 c initLocals)
      as [[[front rest] c1] l] eqn:D. simpl.
    destruct (negb _ || negb _); [simpl; congruence|].
    intros _ T. unfold acquireFront.
    pose proof (fun i => dropLoop_slot_monotone _ _ _ i _ _ _ _ _ _ _ D)
      as Hmono.
    assert (Dropped.ofLoop expectedPresent maxFrameNumber front0 rest0 c = [] ->
            mSlots c1 = mSlots c) as Hsame
        by (intros E; apply Hnone in E; injection E as _ _ -> _; reflexivity).
    clear D Hnone.
    destruct c1 as [slots1 ? ? ? ? ? ? ? ? ? ? ? ? ? ? ? ? ? ?].
    simpl in *. rewrite T. simpl.
    split; [reflexivity|]. split; [reflexivity|]. split; [reflexivity|].
    split; [reflexivity|]. split; [reflexivity|]. split; [reflexivity|].
    split; [reflexivity|].
    split; [intros i; apply Hmono|].
    split; [intros i; apply Hmono|].
    intros E. rewrite (Hsame E). auto.
Qed.

Lemma acquire_untracked_front_changes_no_slot_witness :
  status (acquireBuffer 0 0 Scenario.staleOnly) = NO_ERROR
  /\ out (acquireBuffer 0 0 Scenario.staleOnly)
     = Some (Scenario.item 3 30 1 1000 false)
  /\ mQueue (core (acquireBuffer 0 0 Scenario.staleOnly)) = []
  /\ mSlots (core (acquireBuffer 0 0 Scenario.staleOnly))
     = mSlots Scenario.staleOnly.
Proof.
  destruct (acquire_untracked_front_changes_no_slot 0 0 Scenario.staleOnly
              (Scenario.item 3 30 1 1000 false) []
              ltac:(vm_compute; reflexivity) eq_refl
              ltac:(vm_compute; discriminate) ltac:(vm_compute; reflexivity))
    as (S & O & _ & Hq & Hs & _).
  split; [exact S|]. split; [exact O|]. split; [exact Hq|exact Hs].
Defined.

(** ** Ordering of the frame callbacks *)

Section FrameOrder.

Import BufferLayer.

Variable item : BufferItem.t.


Lemma woken_timedOut (l : t) : woken timedOut l = note NoteTimedOut l.
Proof. reflexivity. Qed.




End FrameOrder.



(** A wake-up in which frame 2 has been received lets frame 3 through. *)
Example frame_taken_when_predecessor_arrives :
  exists l',
    BufferLayer.onFrameAvailable
      [BufferLayer.timedOut; LayerScenario.secondArrives]
      LayerScenario.third LayerScenario.fresh
    = BufferLayer.Returned l'
    /\ BufferLayer.mQueueItems l' = [LayerScenario.third]
    /\ BufferLayer.mQueuedFrames l' = 1
    /\ BufferLayer.mLastFrameNumberReceived l' = 3%N.
Proof. eexists. repeat split. Qed.

(** ** The specification's scenarios, run *)

(** Scenario 2, drop on timing: the first frame is dropped, its slot
    freed, the second frame acquired, and the producer told once. *)
Example scenario_drop_on_timing :
  let r := acquireBuffer 2000000000 0 Scenario.twoTimely in
  status r = NO_ERROR
  /\ out r = Some (Scenario.item 7 70 2 2000000000 false)
  /\ mQueue (core r) = []
  /\ mFreeBuffers (core r) = [3]
  /\ BufferSlot.mBufferState (slotAt (mSlots (core r)) 3) = BufferSlot.FREE
  /\ BufferSlot.mBufferState (slotAt (mSlots (core r)) 7) = BufferSlot.ACQUIRED
  /\ events r = [EvLock; EvBroadcast; EvUnlock; EvOnBufferReleased 7%nat].
Proof. vm_compute. repeat split; reflexivity. Qed.

(** Scenario 3: a frame wanted 4 s after [expectedPresent] is taken at
    once; one wanted half a second after it is deferred. *)
Example scenario_present_later :
  status
    (acquireBuffer 1000000000 0
       (Scenario.coreOf false (Scenario.table [(3, Scenario.slot BufferSlot.QUEUED 30 1)])
          [Scenario.item 3 30 1 5000000000 false] []))
  = NO_ERROR
  /\ status (acquireBuffer 1000000000 0 Scenario.oneLate) = PRESENT_LATER.
Proof. split; reflexivity. Qed.

(** Scenario 5: a slot attached by the consumer is released with frame
    number 0 and becomes FREE. *)
Example scenario_attach_then_release :
  let a := attachBuffer true (Some (Scenario.buffer 12 0)) Scenario.abandoned in
  let r := releaseBuffer 0 0 (Some NO_FENCE) 0 0 (core a) in
  out a = Some 0
  /\ status r = NO_ERROR
  /\ BufferSlot.mBufferState (slotAt (mSlots (core r)) 0) = BufferSlot.FREE.
Proof. vm_compute. repeat split; reflexivity. Qed.

(** * Further properties of the consumer endpoint *)

(** ** getReleasedBuffers *)

Lemma testbit_one_shifted (s b : N) :
  N.testbit (N.shiftl 1 s) b = (s =? b)%N.
Proof. rewrite N.shiftl_1_l. apply N.pow2_bits_eqb. Qed.

Lemma maskNotAcquired_bit (slots : list BufferSlot.t) :
  forall (s mask b : N),
    N.testbit (maskNotAcquired s slots mask) b
    = N.testbit mask b
      || ((s <=? b)%N
          && match slots !! N.to_nat (b - s) with
             | Some slot => negb (BufferSlot.mAcquireCalled slot)
             | None => false
             end).
Proof.
  induction slots as [|slot slots IH]; intros s mask b; simpl.
  - rewrite andb_false_r, orb_false_r. reflexivity.
  - rewrite IH. clear IH.
    destruct (N.leb_spec s b) as [Hle|Hlt].
    + destruct (N.eqb_spec s b) as [->|Hne].
      * rewrite N.sub_diag. simpl.
        destruct (N.leb_spec (b + 1) b); [lia|]. simpl.
        rewrite orb_false_r.
        destruct (BufferSlot.mAcquireCalled slot); simpl.
        -- rewrite orb_false_r. reflexivity.
        -- rewrite N.lor_spec, testbit_one_shifted, N.eqb_refl.
           rewrite orb_true_r. reflexivity.
      * destruct (N.leb_spec (s + 1) b); [|lia]. simpl.
        replace (N.to_nat (b - s)) with (S (N.to_nat (b - (s + 1)))) by lia.
        simpl. f_equal.
        destruct (BufferSlot.mAcquireCalled slot); [reflexivity|].
        rewrite N.lor_spec, testbit_one_shifted.
        destruct (N.eqb_spec s b); [contradiction|]. apply orb_false_r.
    + destruct (N.leb_spec (s + 1) b); [lia|]. simpl.
      rewrite !orb_false_r.
      destruct (BufferSlot.mAcquireCalled slot); [reflexivity|].
      rewrite N.lor_spec, testbit_one_shifted.
      destruct (N.eqb_spec s b); [lia|]. apply orb_false_r.
Qed.

Lemma maskClearQueued_bit (q : list BufferItem.t) :
  forall (mask b : N),
    N.testbit (maskClearQueued q mask) b
    = N.testbit mask b
      && forallb
           (fun current =>
              negb (BufferItem.mAcquireCalled current
                    && (Z.to_N (BufferItem.mSlot current) =? b)%N)) q.
Proof.
  induction q as [|current q IH]; intros mask b; simpl.
  - rewrite andb_true_r. reflexivity.
  - rewrite IH. clear IH.
    destruct (BufferItem.mAcquireCalled current); simpl; [|reflexivity].
    rewrite N.ldiff_spec, testbit_one_shifted, andb_assoc. reflexivity.
Qed.

Lemma slotAt_lookup (slots : list BufferSlot.t) (s : Z) (slot : BufferSlot.t) :
  0 <= s -> slots !! Z.to_nat s = Some slot -> slotAt slots s = slot.
Proof.
  intros Hs E. unfold slotAt.
  destruct (Z.leb_spec 0 s); [|lia]. rewrite E. reflexivity.
Qed.

Lemma small_when_high_bits_clear (mask n : N) :
  (forall b, (n <= b)%N -> N.testbit mask b = false) -> (mask < 2 ^ n)%N.
Proof.
  intros Hhigh. destruct (N.eq_dec mask 0%N) as [->|Hne].
  - apply N.neq_0_lt_0, N.pow_nonzero. discriminate.
  - apply N.log2_lt_pow2; [lia|].
    destruct (N.lt_ge_cases (N.log2 mask) n) as [Hlt|Hge]; [exact Hlt|].
    apply Hhigh in Hge. rewrite N.bit_log2 in Hge by exact Hne. discriminate.
Qed.

(** X1.  The mask of [getReleasedBuffers], bit by bit: on a core that is not
    abandoned, with its full slot table and queue entries for slots that
    are not negative, bit [s] is set exactly when [s] is a slot whose
    [mAcquireCalled] is clear and no queue entry for [s] has its own
    [mAcquireCalled] set.  The mask fits in 64 bits and the core is left
    alone. *)
Theorem released_mask_bit_by_bit (c : t) :
  mIsAbandoned c = false ->
  length (mSlots c) = Z.to_nat NUM_BUFFER_SLOTS ->
  (forall current, In current (mQueue c) -> 0 <= BufferItem.mSlot current) ->
  exists mask,
    getReleasedBuffers true c
    = mkOutcome NO_ERROR (Some mask) c [EvLock; EvUnlock]
    /\ (mask < 2 ^ 64)%N
    /\ forall s,
        0 <= s ->
        (N.testbit mask (Z.to_N s) = true <->
         s < NUM_BUFFER_SLOTS
         /\ BufferSlot.mAcquireCalled (slotAt (mSlots c) s) = false
         /\ forall current,
             In current (mQueue c) ->
             BufferItem.mAcquireCalled current = true ->
             BufferItem.mSlot current <> s).
Proof.
  intros Hab Hlen Hq. unfold getReleasedBuffers. rewrite Hab. simpl.
  eexists. split; [reflexivity|].
  assert (forall b,
             N.testbit
               (maskClearQueued (mQueue c)
                  (maskNotAcquired 0
                     (take (Z.to_nat NUM_BUFFER_SLOTS) (mSlots c)) 0)) b
             = match mSlots c !! N.to_nat b with
               | Some slot => negb (BufferSlot.mAcquireCalled slot)
               | None => false
               end
               && forallb
                    (fun current =>
                       negb (BufferItem.mAcquireCalled current
                             && (Z.to_N (BufferItem.mSlot current) =? b)%N))
                    (mQueue c)) as Hbit.
  { intros b. rewrite maskClearQueued_bit, maskNotAcquired_bit.
    rewrite N.bits_0, N.sub_0_r, take_ge by lia.
    replace (0 <=? b)%N with true by (symmetry; apply N.leb_le; lia).
    reflexivity. }
  split.
  - apply small_when_high_bits_clear. intros b Hb. rewrite Hbit.
    rewrite (lookup_ge_None_2 (mSlots c) (N.to_nat b)); [reflexivity|].
    rewrite Hlen. unfold NUM_BUFFER_SLOTS. lia.
  - intros s Hs. rewrite Hbit, Z_N_nat, andb_true_iff, forallb_forall.
    split.
    + intros [Hslot Hnone].
      destruct (mSlots c !! Z.to_nat s) as [slot|] eqn:E; [|discriminate].
      split; [|split].
      * apply lookup_lt_Some in E. rewrite Hlen in E. lia.
      * rewrite (slotAt_lookup _ _ _ Hs E).
        destruct (BufferSlot.mAcquireCalled slot); [discriminate|reflexivity].
      * intros current Hin Hcalled Heq. specialize (Hnone current Hin).
        rewrite Hcalled, <- Heq, N.eqb_refl in Hnone. discriminate.
    + intros (Hrange & Hslot & Hnone).
      destruct (lookup_lt_is_Some_2 (mSlots c) (Z.to_nat s)) as [slot E];
        [rewrite Hlen; lia|].
      rewrite E. rewrite (slotAt_lookup _ _ _ Hs E) in Hslot. rewrite Hslot.
      split; [reflexivity|]. intros current Hin.
      destruct (BufferItem.mAcquireCalled current) eqn:Hcalled;
        [|reflexivity]. simpl.
      destruct (N.eqb_spec (Z.to_N (BufferItem.mSlot current)) (Z.to_N s))
        as [Heq|_]; [|reflexivity].
      exfalso. apply (Hnone current Hin Hcalled).
      specialize (Hq current Hin). lia.
Qed.

Lemma released_mask_bit_by_bit_witness :
  exists mask,
    getReleasedBuffers true Scenario.twoTimely
    = mkOutcome NO_ERROR (Some mask) Scenario.twoTimely [EvLock; EvUnlock]
    /\ (mask < 2 ^ 64)%N.
Proof.
  destruct (released_mask_bit_by_bit Scenario.twoTimely eq_refl eq_refl)
    as (mask & E & Hsmall & _).
  - intros current [<-|[<-|[]]]; vm_compute; discriminate.
  - exists mask. split; [exact E|exact Hsmall].
Defined.

(** ** What acquireBuffer touches *)

Lemma set_queue_slots_free_same (c : t) :
  set_mFreeBuffers (mFreeBuffers c)
    (set_mQueue (mQueue c) (set_mSlots (mSlots c) c)) = c.
Proof. destruct c; reflexivity. Qed.

Lemma dropLoop_frame (expectedPresent : Z) (maxFrameNumber : N)
    (rest : list BufferItem.t) :
  forall front c l front' rest' c' l',
    dropLoop expectedPresent maxFrameNumber front rest c l
      = (front', rest', c', l') ->
    c' = set_mFreeBuffers (mFreeBuffers c') (set_mSlots (mSlots c') c)
    /\ mFreeBuffers c'
       = mFreeBuffers c
         ++ map (fun d => BufferItem.mSlot d.1)
              (filter (fun d => d.2 = true)
                 (Dropped.ofLoop expectedPresent maxFrameNumber front rest c)).
Proof.
  induction rest as [|second rest IH]; intros front c l front' rest' c' l'.
  - simpl. intros [= <- <- <- <-].
    rewrite app_nil_r, set_slots_free_same. auto.
  - cbn [dropLoop Dropped.ofLoop].
    destruct (dropTest expectedPresent maxFrameNumber front second).
    2:{ intros [= <- <- <- <-]. simpl.
        rewrite app_nil_r, set_slots_free_same. auto. }
    rewrite (dropFront_core_any_locals front c initLocals l).
    assert ((dropFront front c l).1
            = if stillTracking (mSlots c) front
              then set_mFreeBuffers (mFreeBuffers c ++ [BufferItem.mSlot front])
                     (set_mSlots
                        (updateSlot (BufferItem.mSlot front)
                           (BufferSlot.set_mBufferState BufferSlot.FREE)
                           (mSlots c)) c)
              else c) as E
        by (unfold dropFront; destruct (stillTracking _ front); reflexivity).
    destruct (dropFront front c l) as [c1 l1]. simpl in E |- *.
    intros H. apply IH in H as [Hc Hf]. rewrite filter_cons. simpl.
    destruct (stillTracking (mSlots c) front); simpl; subst c1.
    + split.
      * rewrite Hc at 1. apply set_slots_free_twice.
      * rewrite Hf. destruct c; simpl. rewrite <- app_assoc. reflexivity.
    + auto.
Qed.

(** X2.  [acquireBuffer] touches the slot table, the queue and
    [mFreeBuffers], and nothing else of the core: [mFreeSlots], the
    listeners, the abandoned flag and every setting are as they were.
    [mFreeBuffers] grows by the slots of the entries dropped while still
    tracked, in the order they were dropped. *)
Theorem acquire_touches_slots_queue_free_only
    (expectedPresent : Z) (maxFrameNumber : N) (c : t) :
  let r := acquireBuffer expectedPresent maxFrameNumber c in
  core r
  = set_mFreeBuffers (mFreeBuffers (core r))
      (set_mQueue (mQueue (core r)) (set_mSlots (mSlots (core r)) c))
  /\ mFreeBuffers (core r)
     = mFreeBuffers c
       ++ map (fun d => BufferItem.mSlot d.1)
            (filter (fun d => d.2 = true)
               (Dropped.ofAcquire expectedPresent maxFrameNumber c)).
Proof.
  intros r. subst r. unfold acquireBuffer, Dropped.ofAcquire.
  destruct (_ <=? _).
  { simpl. rewrite app_nil_r, set_queue_slots_free_same. auto. }
  destruct (mQueue c) as [|front0 rest0] eqn:Q.
  { simpl. rewrite app_nil_r, set_queue_slots_free_same. auto. }
  destruct (expectedPresent =? 0).
  { unfold acquireFront. simpl. rewrite app_nil_r.
    destruct (stillTracking (mSlots c) front0); destruct c; simpl; auto. }
  destruct (dropLoop expectedPresent maxFrameNumber front0 rest0 c initLocals)
    as [[[front rest] c1] l] eqn:D.
  apply dropLoop_frame in D as [Hc Hf]. rewrite <- Hf. clear Hf.
  destruct (negb _ || negb _); unfold acquireFront; simpl;
    rewrite Hc; destruct c as [slots ? ? ? ? ? ? ? ? ? ? ? ? ? ? ? ? ? ?];
    simpl; [auto|].
  destruct (stillTracking (mSlots c1) front); simpl; auto.
Qed.

(** ** The count of ACQUIRED slots *)






(** ** What a timed acquireBuffer hands out *)

(** X4.  With [expectedPresent != 0], the entry [acquireBuffer] hands out is
    one the consumer is ready for ([maxFrameNumber] is 0 or the entry's
    frame number does not exceed it) and one that is due (its timestamp
    is not after [expectedPresent], or is more than a second after
    it). *)
Theorem acquire_timed_hands_out_due_frame
    (expectedPresent : Z) (maxFrameNumber : N) (c : t) (item : BufferItem.t) :
  expectedPresent <> 0 ->
  out (acquireBuffer expectedPresent maxFrameNumber c) = Some item ->
  (maxFrameNumber = 0%N
   \/ (BufferItem.mFrameNumber item <= maxFrameNumber)%N)
  /\ (INT64_MIN <= expectedPresent ->
      expectedPresent + MAX_REASONABLE_NSEC <= INT64_MAX ->
      BufferItem.mTimestamp item <= expectedPresent
      \/ BufferItem.mTimestamp item > expectedPresent + 10 ^ 9).
Proof.
  intros Hexp. unfold acquireBuffer.
  destruct (_ <=? _); [discriminate|].
  destruct (mQueue c) as [|front0 rest0]; [discriminate|].
  destruct (Z.eqb_spec expectedPresent 0); [contradiction|].
  destruct (dropLoop expectedPresent maxFrameNumber front0 rest0 c initLocals)
    as [[[front rest] c1] l].
  destruct (bufferIsDue expectedPresent front) eqn:Due; [|discriminate].
  destruct (consumerIsReady maxFrameNumber front) eqn:Ready; [|discriminate].
  simpl. intros [= <-].
  assert (BufferItem.mFrameNumber
            (if BufferItem.mAcquireCalled front
             then BufferItem.set_mGraphicBuffer None front else front)
          = BufferItem.mFrameNumber front) as ->
      by (destruct (BufferItem.mAcquireCalled front); reflexivity).
  assert (BufferItem.mTimestamp
            (if BufferItem.mAcquireCalled front
             then BufferItem.set_mGraphicBuffer None front else front)
          = BufferItem.mTimestamp front) as ->
      by (destruct (BufferItem.mAcquireCalled front); reflexivity).
  split.
  - rewrite consumerIsReady_spec in Ready.
    apply consumer_is_ready_iff. exact Ready.
  - intros Hlo Hhi. rewrite bufferIsDue_spec in Due by assumption.
    apply buffer_is_due_iff. exact Due.
Qed.

Lemma acquire_timed_hands_out_due_frame_witness :
  (0%N = 0%N \/ (2 <= 0)%N)
  /\ (INT64_MIN <= 2000000000 ->
      2000000000 + MAX_REASONABLE_NSEC <= INT64_MAX ->
      2000000000 <= 2000000000 \/ 2000000000 > 2000000000 + 10 ^ 9).
Proof.
  apply (acquire_timed_hands_out_due_frame 2000000000 0 Scenario.twoTimely
           (Scenario.item 7 70 2 2000000000 false)
           ltac:(discriminate) eq_refl).
Defined.

Lemma last_cons_default {A : Type} (l : list A) :
  forall x d, List.last (x :: l) d = List.last l x.
Proof.
  induction l as [|y l IH]; intros x d; [reflexivity|].
  change (List.last (x :: y :: l) d) with (List.last (y :: l) d).
  rewrite (IH y d), (IH y x). reflexivity.
Qed.

Lemma dropLoop_drains (expectedPresent : Z) (maxFrameNumber : N)
    (rest : list BufferItem.t) :
  forall front c l,
    (forall item, In item (front :: rest) ->
       dropTest expectedPresent maxFrameNumber item item = true) ->
    exists c' l',
      dropLoop expectedPresent maxFrameNumber front rest c l
      = (List.last rest front, [], c', l').
Proof.
  induction rest as [|second rest IH]; intros front c l Hall.
  - simpl. eauto.
  - cbn [dropLoop].
    assert (dropTest expectedPresent maxFrameNumber front second = true) as ->.
    { pose proof (Hall front (or_introl eq_refl)) as Hf.
      pose proof (Hall second (or_intror (or_introl eq_refl))) as Hs.
      apply dropTest_true in Hf as (Ha & _).
      apply dropTest_true in Hs as (_ & Hm & Hlo & Hhi).
      apply dropTest_true. auto. }
    destruct (dropFront front c l) as [c1 l1].
    destruct (IH second c1 l1) as (c' & l' & E).
    { intros item Hin. apply Hall. right. exact Hin. }
    exists c', l'. rewrite E, last_cons_default. reflexivity.
Qed.

(** X5.  When every queued entry has an explicit timestamp within the second
    before [expectedPresent] and a frame number the consumer accepts, a
    timed [acquireBuffer] below the cap skips to the newest entry: it
    hands out the last entry of the queue and leaves the queue empty. *)
Theorem acquire_skips_to_newest_when_all_timely
    (expectedPresent : Z) (maxFrameNumber : N) (c : t)
    (front0 : BufferItem.t) (rest0 : list BufferItem.t) :
  expectedPresent <> 0 ->
  INT64_MIN + MAX_REASONABLE_NSEC <= expectedPresent <= INT64_MAX ->
  numAcquiredBuffers (mSlots c) < mMaxAcquiredBufferCount c + 1 ->
  mQueue c = front0 :: rest0 ->
  (forall item, In item (mQueue c) ->
     BufferItem.mIsAutoTimestamp item = false
     /\ (maxFrameNumber = 0%N
         \/ (BufferItem.mFrameNumber item <= maxFrameNumber)%N)
     /\ expectedPresent - 10 ^ 9 <= BufferItem.mTimestamp item
                                 <= expectedPresent) ->
  let r := acquireBuffer expectedPresent maxFrameNumber c in
  let newest := List.last rest0 front0 in
  status r = NO_ERROR
  /\ out r = Some (if BufferItem.mAcquireCalled newest
                   then BufferItem.set_mGraphicBuffer None newest
                   else newest)
  /\ mQueue (core r) = []
  /\ length (Dropped.ofAcquire expectedPresent maxFrameNumber c)
     = length rest0.
Proof.
  intros Hexp Hrange Hcap Q Hall r newest. subst r newest.
  assert (forall item, In item (front0 :: rest0) ->
            dropTest expectedPresent maxFrameNumber item item = true) as Hdrop.
  { intros item Hin. rewrite <- Q in Hin.
    destruct (Hall item Hin) as (Ha & Hm & Hlo & Hhi).
    apply dropTest_true. rewrite wrap_int64_id
      by (unfold in_int64, INT64_MIN, INT64_MAX, MAX_REASONABLE_NSEC in *; lia).
    unfold MAX_REASONABLE_NSEC. repeat split; auto; lia. }
  assert (In (List.last rest0 front0) (mQueue c)) as Hnewest.
  { rewrite Q. clear. revert front0.
    induction rest0 as [|x rest IH]; intros front0; [left; reflexivity|].
    right. rewrite last_cons_default. apply IH. }
  destruct (Hall _ Hnewest) as (_ & Hm & _ & Hhi).
  unfold acquireBuffer, Dropped.ofAcquire.
  destruct (Z.leb_spec (mMaxAcquiredBufferCount c + 1)
              (numAcquiredBuffers (mSlots c))); [lia|].
  rewrite Q. destruct (Z.eqb_spec expectedPresent 0); [contradiction|].
  destruct (dropLoop_drains expectedPresent maxFrameNumber rest0 front0 c
              initLocals Hdrop) as (c' & l' & E).
  pose proof (dropLoop_log _ _ _ _ _ _ _ _ _ _ E) as (Hq & _).
  rewrite E.
  assert (bufferIsDue expectedPresent (List.last rest0 front0) = true) as ->.
  { unfold bufferIsDue. apply orb_true_iff. left. apply Z.leb_le. exact Hhi. }
  assert (consumerIsReady maxFrameNumber (List.last rest0 front0) = true) as ->.
  { rewrite consumerIsReady_spec. apply consumer_is_ready_iff. exact Hm. }
  unfold acquireFront. simpl.
  split; [reflexivity|]. split; [reflexivity|].
  split; [reflexivity|].
  apply (f_equal (@length _)) in Hq.
  rewrite length_app, length_map in Hq. simpl in Hq. lia.
Qed.

Lemma acquire_skips_to_newest_when_all_timely_witness :
  status (acquireBuffer 2000000000 0 Scenario.twoTimely) = NO_ERROR
  /\ mQueue (core (acquireBuffer 2000000000 0 Scenario.twoTimely)) = [].
Proof.
  destruct (acquire_skips_to_newest_when_all_timely 2000000000 0
              Scenario.twoTimely
              (Scenario.item 3 30 1 1000000000 false)
              [Scenario.item 7 70 2 2000000000 false]
              ltac:(discriminate)
              ltac:(vm_compute; split; discriminate)
              ltac:(vm_compute; reflexivity)
              eq_refl) as (S & _ & Hq & _).
  - intros item [<-|[<-|[]]]; vm_compute; repeat split; auto; discriminate.
  - split; [exact S|exact Hq].
Defined.

(** ** attachBuffer: the slot it chooses and what it leaves there *)

Lemma slotAt_updateSlot_in (i : Z) (f : BufferSlot.t -> BufferSlot.t)
    (slots : list BufferSlot.t) :
  0 <= i < Z.of_nat (length slots) ->
  slotAt (updateSlot i f slots) i = f (slotAt slots i).
Proof.
  intros Hi. unfold slotAt, updateSlot.
  destruct (Z.leb_spec 0 i); [|lia].
  rewrite list_lookup_alter_eq.
  destruct (lookup_lt_is_Some_2 slots (Z.to_nat i)) as [b ->]; [lia|].
  reflexivity.
Qed.

(** The slot [findFreeSlot] settles on. *)
Lemma findFreeSlot_found (c : t) :
  (findFreeSlot c).1
  = match mFreeSlots c with
    | slot :: _ => slot
    | [] => List.hd INVALID_BUFFER_SLOT (mFreeBuffers c)
    end
  /\ mSlots (findFreeSlot c).2 = mSlots c
  /\ mQueue (findFreeSlot c).2 = mQueue c
  /\ mFreeSlots (findFreeSlot c).2 = List.tl (mFreeSlots c)
  /\ mFreeBuffers (findFreeSlot c).2
     = match mFreeSlots c with
       | _ :: _ => mFreeBuffers c
       | [] => filter (fun s => s <> (findFreeSlot c).1) (mFreeBuffers c)
       end.
Proof.
  unfold findFreeSlot.
  destruct c as [slots q freeSlots freeBuffers]. simpl.
  destruct freeSlots as [|slot others]; [destruct freeBuffers|]; simpl; auto.
Qed.

(** X6.  [attachBuffer] past its checks (non-null arguments, fewer than
    [mMaxAcquiredBufferCount + 1] slots ACQUIRED, matching generation).
    With no free slot and no free buffer it returns [NO_MEMORY] and
    changes nothing.  Otherwise it takes the first of [mFreeSlots] if
    there is one, else the front of [mFreeBuffers], every occurrence of
    which leaves that list; the slot, when it is a row of the table,
    ends up ACQUIRED, holding the buffer, attached by the consumer, with
    frame number 0, [mAcquireCalled] and [mNeedsCleanupOnRelease] clear
    and no fence pending.  No other slot changes and the queue is not
    touched. *)
Theorem attach_takes_first_free_slot (buffer : GraphicBuffer) (c : t) :
  numAcquiredBuffers (mSlots c) < mMaxAcquiredBufferCount c + 1 ->
  getGenerationNumber buffer = mGenerationNumber c ->
  let r := attachBuffer true (Some buffer) c in
  let found :=
    match mFreeSlots c with
    | slot :: _ => slot
    | [] => List.hd INVALID_BUFFER_SLOT (mFreeBuffers c)
    end in
  (mFreeSlots c = [] -> mFreeBuffers c = [] ->
   status r = NO_MEMORY /\ out r = None /\ core r = c)
  /\ (0 <= found < Z.of_nat (length (mSlots c)) ->
      status r = NO_ERROR
      /\ out r = Some found
      /\ slotAt (mSlots (core r)) found
         = {| BufferSlot.mGraphicBuffer := Some buffer;
              BufferSlot.mBufferState := BufferSlot.ACQUIRED;
              BufferSlot.mFence := Some NO_FENCE;
              BufferSlot.mFrameNumber := 0%N;
              BufferSlot.mAcquireCalled := false;
              BufferSlot.mAttachedByConsumer := true;
              BufferSlot.mNeedsCleanupOnRelease := false;
              BufferSlot.mEglDisplay :=
                BufferSlot.mEglDisplay (slotAt (mSlots c) found);
              BufferSlot.mEglFence :=
                BufferSlot.mEglFence (slotAt (mSlots c) found) |}
      /\ (forall j, j <> found ->
            slotAt (mSlots (core r)) j = slotAt (mSlots c) j)
      /\ mQueue (core r) = mQueue c
      /\ mFreeSlots (core r) = List.tl (mFreeSlots c)
      /\ mFreeBuffers (core r)
         = match mFreeSlots c with
           | _ :: _ => mFreeBuffers c
           | [] => filter (fun s => s <> found) (mFreeBuffers c)
           end
      /\ (mFreeSlots c = [] -> ~ In found (mFreeBuffers (core r)))).
Proof.
  intros Hcap Hgen r found. subst r. unfold attachBuffer. simpl.
  destruct (Z.leb_spec (mMaxAcquiredBufferCount c + 1)
              (numAcquiredBuffers (mSlots c))); [lia|].
  rewrite Hgen, N.eqb_refl. simpl.
  split.
  - intros E1 E2. unfold findFreeSlot. rewrite E1, E2. simpl. auto.
  - pose proof (findFreeSlot_found c) as (Hf & Hs & Hq & Hfs & Hfb).
    fold found in Hf. destruct (findFreeSlot c) as [found' c1].
    simpl in Hf, Hs, Hq, Hfs, Hfb. subst found'.
    intros Hin.
    destruct (Z.eqb_spec found INVALID_BUFFER_SLOT) as [E|_];
      [unfold INVALID_BUFFER_SLOT in E; lia|].
    simpl. destruct c1 as [slots1 q1 fs1 fb1]; simpl in *. subst slots1 q1.
    split; [reflexivity|]. split; [reflexivity|].
    split; [rewrite slotAt_updateSlot_in by exact Hin; reflexivity|].
    split; [intros j Hj; apply slotAt_updateSlot_ne; congruence|].
    split; [reflexivity|]. split; [exact Hfs|]. split; [exact Hfb|].
    intros E. rewrite E in Hfb. rewrite Hfb.
    rewrite <- list_elem_of_In, list_elem_of_filter. tauto.
Qed.

Lemma attach_takes_first_free_slot_witness :
  status (attachBuffer true (Some (Scenario.buffer 12 0)) Scenario.abandoned)
  = NO_ERROR
  /\ out (attachBuffer true (Some (Scenario.buffer 12 0)) Scenario.abandoned)
     = Some 0.
Proof.
  destruct (attach_takes_first_free_slot (Scenario.buffer 12 0)
              Scenario.abandoned ltac:(vm_compute; reflexivity) eq_refl)
    as [_ A].
  destruct A as (S & O & _); [vm_compute; split; [discriminate|reflexivity]|].
  split; [exact S|exact O].
Defined.

(** ** Acquire or attach, then release *)

Lemma isQueued_false (slot : Z) (q : list BufferItem.t) :
  (forall current, In current q -> BufferItem.mSlot current <> slot) ->
  isQueued slot q = false.
Proof.
  intros Hnone. destruct (isQueued slot q) eqn:E; [|reflexivity].
  apply isQueued_true in E as (current & Hin & Hs).
  exfalso. exact (Hnone current Hin Hs).
Qed.

(** [releaseBuffer] on a slot that is in range, ACQUIRED, not queued,
    and named with its current frame number. *)
Lemma releaseBuffer_acquired (slot : Z) (fence : Fence)
    (eglDisplay eglFence : Z) (c : t) :
  0 <= slot < NUM_BUFFER_SLOTS ->
  isAcquired (slotAt (mSlots c) slot) = true ->
  isQueued slot (mQueue c) = false ->
  releaseBuffer slot (BufferSlot.mFrameNumber (slotAt (mSlots c) slot))
    (Some fence) eglDisplay eglFence c
  = mkOutcome NO_ERROR None
      (set_mFreeBuffers (mFreeBuffers c ++ [slot])
         (set_mSlots
            (updateSlot slot (markReleased fence eglDisplay eglFence)
               (mSlots c)) c))
      ([EvLock; EvBroadcast; EvUnlock]
         ++ notifyReleased (mConnectedProducerListener c)).
Proof.
  intros Hslot Ha Hq. unfold releaseBuffer.
  destruct (Z.ltb_spec slot 0); [lia|].
  destruct (Z.leb_spec NUM_BUFFER_SLOTS slot); [lia|]. simpl.
  rewrite N.eqb_refl, Hq, Ha. reflexivity.
Qed.

(** X7.  A buffer attached by the consumer can be released at once with
    frame number 0 exactly when no queue entry names the slot it was
    given.  Then the release returns [NO_ERROR], and the slot ends up
    FREE, still holding the attached buffer, with the release fence
    stored, as the last element of [mFreeBuffers].  When a queue entry
    names the slot (an entry that has outlived its buffer), the release
    is refused with [BAD_VALUE], the core is left as the attach made it
    and the slot stays ACQUIRED. *)
Theorem attach_then_release (buffer : GraphicBuffer) (fence : Fence)
    (eglDisplay eglFence : Z) (c : t) (found : Z) :
  numAcquiredBuffers (mSlots c) < mMaxAcquiredBufferCount c + 1 ->
  getGenerationNumber buffer = mGenerationNumber c ->
  found = match mFreeSlots c with
          | slot :: _ => slot
          | [] => List.hd INVALID_BUFFER_SLOT (mFreeBuffers c)
          end ->
  0 <= found < NUM_BUFFER_SLOTS ->
  found < Z.of_nat (length (mSlots c)) ->
  let a := attachBuffer true (Some buffer) c in
  let r := releaseBuffer found 0 (Some fence) eglDisplay eglFence (core a) in
  out a = Some found
  /\ BufferSlot.mBufferState (slotAt (mSlots (core a)) found)
     = BufferSlot.ACQUIRED
  /\ (status r = NO_ERROR <->
      forall current, In current (mQueue c) ->
        BufferItem.mSlot current <> found)
  /\ ((forall current, In current (mQueue c) ->
         BufferItem.mSlot current <> found) ->
      BufferSlot.mBufferState (slotAt (mSlots (core r)) found)
      = BufferSlot.FREE
      /\ BufferSlot.mGraphicBuffer (slotAt (mSlots (core r)) found)
         = Some buffer
      /\ BufferSlot.mFence (slotAt (mSlots (core r)) found) = Some fence
      /\ mFreeBuffers (core r) = mFreeBuffers (core a) ++ [found]
      /\ numAcquiredBuffers (mSlots (core r))
         = numAcquiredBuffers (mSlots c)
           - (if isAcquired (slotAt (mSlots c) found) then 1 else 0))
  /\ ((exists current, In current (mQueue c)
                       /\ BufferItem.mSlot current = found) ->
      r = mkOutcome BAD_VALUE None (core a) [EvLock; EvUnlock]).
Proof.
  intros Hcap Hgen Hfound Hrange Hlen a r.
  assert (core a
          = set_mSlots (updateSlot found (markAttached buffer) (mSlots c))
              (findFreeSlot c).2
          /\ out a = Some found) as [Ea Eo].
  { subst a. unfold attachBuffer. simpl.
    destruct (Z.leb_spec (mMaxAcquiredBufferCount c + 1)
                (numAcquiredBuffers (mSlots c))); [lia|].
    rewrite Hgen, N.eqb_refl. simpl.
    pose proof (findFreeSlot_found c) as (Hf & Hs & _).
    rewrite <- Hfound in Hf.
    destruct (findFreeSlot c) as [found' c1]. simpl in Hf, Hs. subst found'.
    destruct (Z.eqb_spec found INVALID_BUFFER_SLOT) as [E|_];
      [unfold INVALID_BUFFER_SLOT in E; lia|].
    simpl. rewrite Hs. auto. }
  pose proof (findFreeSlot_found c) as (_ & Hs & Hq & _).
  assert (mSlots (core a) = updateSlot found (markAttached buffer) (mSlots c))
    as Eslots by (rewrite Ea; destruct (findFreeSlot c).2; reflexivity).
  assert (mQueue (core a) = mQueue c) as Equeue
      by (rewrite Ea, <- Hq; destruct (findFreeSlot c).2; reflexivity).
  assert (slotAt (mSlots (core a)) found
          = markAttached buffer (slotAt (mSlots c) found)) as Eslot
      by (rewrite Eslots; apply slotAt_updateSlot_in; lia).
  assert ((exists current, In current (mQueue c)
                           /\ BufferItem.mSlot current = found) ->
          r = mkOutcome BAD_VALUE None (core a) [EvLock; EvUnlock]) as Hbad.
  { intros Hin. apply isQueued_true in Hin. rewrite <- Equeue in Hin.
    subst r. unfold releaseBuffer.
    destruct (Z.ltb_spec found 0); [lia|].
    destruct (Z.leb_spec NUM_BUFFER_SLOTS found); [lia|]. simpl.
    rewrite Eslot. simpl. rewrite Hin. reflexivity. }
  assert ((forall current, In current (mQueue c) ->
             BufferItem.mSlot current <> found) ->
          r = mkOutcome NO_ERROR None
                (set_mFreeBuffers (mFreeBuffers (core a) ++ [found])
                   (set_mSlots
                      (updateSlot found
                         (markReleased fence eglDisplay eglFence)
                         (mSlots (core a))) (core a)))
                ([EvLock; EvBroadcast; EvUnlock]
                   ++ notifyReleased (mConnectedProducerListener (core a))))
    as Hgood.
  { intros Hnq.
    assert (r = releaseBuffer found
                  (BufferSlot.mFrameNumber (slotAt (mSlots (core a)) found))
                  (Some fence) eglDisplay eglFence (core a)) as Er
        by (rewrite Eslot; reflexivity).
    rewrite releaseBuffer_acquired in Er;
      [exact Er|exact Hrange|rewrite Eslot; reflexivity
      |apply isQueued_false; rewrite Equeue; exact Hnq]. }
  split; [exact Eo|]. split; [rewrite Eslot; reflexivity|].
  split; [|split; [|exact Hbad]].
  - split.
    + intros Hok current Hin Hslot.
      rewrite Hbad in Hok by (exists current; auto). discriminate.
    + intros Hnq. rewrite (Hgood Hnq). reflexivity.
  - intros Hnq. rewrite (Hgood Hnq).
    assert (slotAt
              (mSlots
                 (set_mFreeBuffers (mFreeBuffers (core a) ++ [found])
                    (set_mSlots
                       (updateSlot found
                          (markReleased fence eglDisplay eglFence)
                          (mSlots (core a))) (core a)))) found
            = markReleased fence eglDisplay eglFence
                (markAttached buffer (slotAt (mSlots c) found))) as Efinal.
    { destruct (core a) as [slotsA]; simpl in *. rewrite <- Eslot.
      apply slotAt_updateSlot_in. rewrite Eslots.
      unfold updateSlot. destruct (0 <=? found); [rewrite length_alter|]; lia. }
    cbn [core status]. rewrite Efinal.
    split; [reflexivity|]. split; [reflexivity|]. split; [reflexivity|].
    split; [destruct (core a); reflexivity|].
    destruct (core a) as [slotsA]; simpl in *. subst slotsA.
    rewrite !numAcquiredBuffers_updateSlot.
    destruct (Z.leb_spec 0 found); [|lia].
    destruct (Z.ltb_spec found NUM_BUFFER_SLOTS); [|lia]. simpl.
    unfold updateSlot. destruct (Z.leb_spec 0 found); [|lia].
    rewrite list_lookup_alter_eq.
    destruct (lookup_lt_is_Some_2 (mSlots c) (Z.to_nat found)) as [b Eb];
      [lia|].
    rewrite Eb. simpl.
    assert (slotAt (mSlots c) found = b) as ->
        by (apply slotAt_lookup; [lia|exact Eb]).
    replace (isAcquired (markAttached buffer b)) with true by reflexivity.
    replace (isAcquired (markReleased fence eglDisplay eglFence
                           (markAttached buffer b))) with false by reflexivity.
    destruct (isAcquired b); lia.
Qed.

Lemma attach_then_release_witness :
  status
    (releaseBuffer 0 0 (Some NO_FENCE) 0 0
       (core (attachBuffer true (Some (Scenario.buffer 12 0))
                Scenario.abandoned)))
  = NO_ERROR.
Proof.
  destruct (attach_then_release (Scenario.buffer 12 0) NO_FENCE 0 0
              Scenario.abandoned 0
              ltac:(vm_compute; reflexivity) eq_refl eq_refl
              ltac:(vm_compute; split; [discriminate|reflexivity])
              ltac:(vm_compute; reflexivity)) as (_ & _ & S & _).
  apply S. intros current [].
Defined.



(** ** acquireBuffer and the released-buffers mask *)

(** The mask as a function of the slot table and the queue. *)
Lemma getReleasedBuffers_bits (c : t) :
  mIsAbandoned c = false ->
  exists mask,
    out (getReleasedBuffers true c) = Some mask
    /\ forall b,
        N.testbit mask b
        = ((b <? 64)%N
           && match mSlots c !! N.to_nat b with
              | Some slot => negb (BufferSlot.mAcquireCalled slot)
              | None => false
              end)
          && forallb
               (fun current =>
                  negb (BufferItem.mAcquireCalled current
                        && (Z.to_N (BufferItem.mSlot current) =? b)%N))
               (mQueue c).
Proof.
  intros Hab. unfold getReleasedBuffers. rewrite Hab. simpl.
  eexists. split; [reflexivity|]. intros b.
  rewrite maskClearQueued_bit, maskNotAcquired_bit.
  rewrite N.bits_0, N.sub_0_r.
  replace (0 <=? b)%N with true by (symmetry; apply N.leb_le; lia).
  simpl. f_equal.
  destruct (N.ltb_spec b 64).
  - rewrite lookup_take_lt by (unfold NUM_BUFFER_SLOTS; lia). reflexivity.
  - rewrite lookup_take_ge by (unfold NUM_BUFFER_SLOTS; lia). reflexivity.
Qed.

(** X9.  A greedy acquire of a tracked front entry clears the bit of the slot
    it hands out in the released-buffers mask and leaves every other
    bit of the mask as it was. *)
Theorem acquire_clears_its_bit_in_released_mask
    (maxFrameNumber : N) (c : t) (front : BufferItem.t)
    (rest : list BufferItem.t) :
  mIsAbandoned c = false ->
  numAcquiredBuffers (mSlots c) < mMaxAcquiredBufferCount c + 1 ->
  mQueue c = front :: rest ->
  stillTracking (mSlots c) front = true ->
  exists before after,
    out (getReleasedBuffers true c) = Some before
    /\ out (getReleasedBuffers true (core (acquireBuffer 0 maxFrameNumber c)))
       = Some after
    /\ N.testbit after (Z.to_N (BufferItem.mSlot front)) = false
    /\ forall b,
        b <> Z.to_N (BufferItem.mSlot front) ->
        N.testbit after b = N.testbit before b.
Proof.
  intros Hab Hcap Q T.
  set (s := BufferItem.mSlot front) in *.
  assert (core (acquireBuffer 0 maxFrameNumber c)
          = set_mQueue rest
              (set_mSlots (updateSlot s markAcquired (mSlots c)) c)) as Ea.
  { unfold acquireBuffer.
    destruct (Z.leb_spec (mMaxAcquiredBufferCount c + 1)
                (numAcquiredBuffers (mSlots c))); [lia|].
    rewrite Q. simpl. unfold acquireFront. rewrite T. reflexivity. }
  assert (0 <= s) as Hs.
  { pose proof (stillTracking_in_table _ _ T) as Hin. fold s in Hin.
    unfold slotAt in Hin. destruct (Z.leb_spec 0 s); [lia|congruence]. }
  destruct (getReleasedBuffers_bits c Hab) as (before & Eb & Hb).
  destruct (getReleasedBuffers_bits (core (acquireBuffer 0 maxFrameNumber c)))
    as (after & Ea' & Ha); [rewrite Ea; destruct c; exact Hab|].
  exists before, after. split; [exact Eb|]. split; [exact Ea'|].
  assert (mSlots (core (acquireBuffer 0 maxFrameNumber c))
          = alter markAcquired (Z.to_nat s) (mSlots c)) as Eslots.
  { rewrite Ea. destruct c; simpl. unfold updateSlot.
    destruct (Z.leb_spec 0 s); [reflexivity|lia]. }
  assert (mQueue (core (acquireBuffer 0 maxFrameNumber c)) = rest) as Equeue
      by (rewrite Ea; destruct c; reflexivity).
  split.
  - rewrite Ha, Eslots, Z_N_nat, list_lookup_alter_eq.
    destruct (mSlots c !! Z.to_nat s); simpl;
      rewrite ?andb_false_r; reflexivity.
  - intros b Hne. rewrite Ha, Hb, Eslots, Equeue, Q.
    rewrite list_lookup_alter_ne by lia. simpl.
    destruct (N.eqb_spec (Z.to_N (BufferItem.mSlot front)) b) as [E|_];
      [subst s; congruence|].
    destruct (BufferItem.mAcquireCalled front); reflexivity.
Qed.

Lemma acquire_clears_its_bit_in_released_mask_witness :
  exists before after,
    out (getReleasedBuffers true Scenario.oneOnTime) = Some before
    /\ out (getReleasedBuffers true
              (core (acquireBuffer 0 0 Scenario.oneOnTime))) = Some after
    /\ N.testbit before 3 = true
    /\ N.testbit after 3 = false.
Proof.
  destruct (acquire_clears_its_bit_in_released_mask 0 Scenario.oneOnTime
              (Scenario.item 3 30 1 1000 false) []
              eq_refl ltac:(vm_compute; reflexivity) eq_refl
              ltac:(vm_compute; reflexivity))
    as (before & after & Eb & Ea & Hclear & _).
  exists before, after. split; [exact Eb|]. split; [exact Ea|].
  split; [|exact Hclear].
  vm_compute in Eb. injection Eb as <-. vm_compute. reflexivity.
Defined.

(** ** What releaseBuffer touches *)

Lemma length_updateSlot (i : Z) (f : BufferSlot.t -> BufferSlot.t)
    (slots : list BufferSlot.t) :
  length (updateSlot i f slots) = length slots.
Proof.
  unfold updateSlot. destruct (0 <=? i); [apply length_alter|reflexivity].
Qed.

(** X10.  [releaseBuffer], whatever its arguments: the queue, [mFreeSlots] and
    every slot other than the one named are left as they were, and so is
    everything of the core outside the slot table and [mFreeBuffers].
    A slot out of range or a null fence is refused with [BAD_VALUE]
    before the lock is taken.  Unless the call returns [NO_ERROR],
    [mFreeBuffers] is unchanged and no listener is called; when it does,
    the producer listener connected at the time, if any, is called
    once, after the lock is given up. *)
Theorem release_touches_one_slot
    (slot : Z) (frameNumber : N) (releaseFence : option Fence)
    (eglDisplay eglFence : Z) (c : t) :
  let r := releaseBuffer slot frameNumber releaseFence eglDisplay eglFence c in
  core r
  = set_mFreeBuffers (mFreeBuffers (core r)) (set_mSlots (mSlots (core r)) c)
  /\ length (mSlots (core r)) = length (mSlots c)
  /\ (forall j, j <> slot -> slotAt (mSlots (core r)) j = slotAt (mSlots c) j)
  /\ (slot < 0 \/ NUM_BUFFER_SLOTS <= slot \/ releaseFence = None ->
      r = mkOutcome BAD_VALUE None c [])
  /\ (status r <> NO_ERROR ->
      mFreeBuffers (core r) = mFreeBuffers c
      /\ forall p, ~ In (EvOnBufferReleased p) (events r))
  /\ (status r = NO_ERROR ->
      events r
      = [EvLock; EvBroadcast; EvUnlock]
          ++ match mConnectedProducerListener c with
             | Some p => [EvOnBufferReleased p]
             | None => []
             end).
Proof.
  intros r. subst r. unfold releaseBuffer.
  assert (forall st ev,
             let r := mkOutcome (A := unit) st None c ev in
             core r
             = set_mFreeBuffers (mFreeBuffers (core r))
                 (set_mSlots (mSlots (core r)) c)
             /\ length (mSlots (core r)) = length (mSlots c)
             /\ (forall j, j <> slot ->
                   slotAt (mSlots (core r)) j = slotAt (mSlots c) j))
    as Hsame.
  { intros st ev. simpl. rewrite set_slots_free_same. auto. }
  destruct releaseFence as [fence|].
  2:{ destruct (Hsame BAD_VALUE []) as (H1 & H2 & H3).
      repeat split; auto; try discriminate; try (intros ? []). }
  destruct (Z.ltb_spec slot 0); simpl.
  { destruct (Hsame BAD_VALUE []) as (H1 & H2 & H3).
    repeat split; auto; try discriminate; try (intros ? []). }
  destruct (Z.leb_spec NUM_BUFFER_SLOTS slot); simpl.
  { destruct (Hsame BAD_VALUE []) as (H1 & H2 & H3).
    repeat split; auto; try discriminate; try (intros ? []). }
  assert (forall p, ~ In (EvOnBufferReleased p) [EvLock; EvUnlock]) as Hquiet.
  { intros p [E|[E|[]]]; discriminate. }
  assert (slot < 0 \/ NUM_BUFFER_SLOTS <= slot \/ Some fence = None -> False)
    as Hok by (intros [?|[?|?]]; [lia|lia|discriminate]).
  destruct (negb _).
  { destruct (Hsame STALE_BUFFER_SLOT [EvLock; EvUnlock]) as (H1 & H2 & H3).
    repeat split; auto; try discriminate; intros; exfalso; auto. }
  destruct (isQueued _ _).
  { destruct (Hsame BAD_VALUE [EvLock; EvUnlock]) as (H1 & H2 & H3).
    repeat split; auto; try discriminate; intros; exfalso; auto. }
  destruct (isAcquired _).
  { simpl. split; [destruct c; reflexivity|].
    split; [destruct c; simpl; apply length_updateSlot|].
    split; [intros j Hj; destruct c; simpl;
            apply slotAt_updateSlot_ne; congruence|].
    split; [intros; exfalso; auto|].
    split; [congruence|]. intros _. reflexivity. }
  destruct (BufferSlot.mNeedsCleanupOnRelease _).
  { simpl. split; [destruct c; reflexivity|].
    split; [destruct c; simpl; apply length_updateSlot|].
    split; [intros j Hj; destruct c; simpl;
            apply slotAt_updateSlot_ne; congruence|].
    split; [intros; exfalso; auto|].
    split; [|discriminate]. intros _.
    split; [destruct c; reflexivity|exact Hquiet]. }
  destruct (Hsame BAD_VALUE [EvLock; EvUnlock]) as (H1 & H2 & H3).
  repeat split; auto; try discriminate; intros; exfalso; auto.
Qed.

(** ** detachBuffer *)

(** X11.  [detachBuffer] frees a buffer exactly when the core is not
    abandoned and the slot is in range and ACQUIRED; then the core it
    leaves is the one [freeBufferLocked] makes of it.  In every other
    case the core is unchanged: [NO_INIT] on an abandoned core (whatever
    the slot), [BAD_VALUE] otherwise. *)
Theorem detach_frees_only_an_acquired_slot
    (freeBufferLocked : Z -> t -> t) (slot : Z) (c : t) :
  let r := detachBuffer freeBufferLocked slot c in
  (status r = NO_ERROR <->
   mIsAbandoned c = false
   /\ 0 <= slot < NUM_BUFFER_SLOTS
   /\ BufferSlot.mBufferState (slotAt (mSlots c) slot) = BufferSlot.ACQUIRED)
  /\ (status r = NO_ERROR -> core r = freeBufferLocked slot c)
  /\ (status r <> NO_ERROR ->
      core r = c
      /\ (status r = NO_INIT <-> mIsAbandoned c = true)
      /\ (status r = BAD_VALUE <-> mIsAbandoned c = false)).
Proof.
  intros r. subst r. unfold detachBuffer.
  destruct (mIsAbandoned c).
  { simpl. repeat split; intros; try discriminate; try reflexivity.
    destruct H as [H _]. discriminate. }
  destruct (Z.ltb_spec slot 0); simpl.
  { repeat split; intros; try discriminate; try reflexivity; lia. }
  destruct (Z.leb_spec NUM_BUFFER_SLOTS slot); simpl.
  { repeat split; intros; try discriminate; try reflexivity; lia. }
  pose proof (isAcquired_true (slotAt (mSlots c) slot)) as Ha.
  destruct (isAcquired (slotAt (mSlots c) slot)); simpl.
  - repeat split; intros; try congruence; try lia. apply Ha. reflexivity.
  - repeat split; intros; try discriminate; try reflexivity.
    destruct H1 as (_ & _ & A). apply Ha in A. discriminate.
Qed.

(** ** connect and disconnect *)

(** X12.  A consumer that connects and then disconnects leaves the queue
    abandoned for good.  While it is connected, [disableAsyncBuffer] is
    refused.  [disconnect] hands [freeAllBuffersLocked] a core that is
    abandoned, has no consumer listener and an empty queue.  If that
    helper keeps those three as it finds them, then afterwards a new
    [connect] fails with [NO_INIT], a second [disconnect] fails with
    [BAD_VALUE], and [acquireBuffer] never returns a buffer. *)
Theorem disconnect_is_final (freeAllBuffersLocked : t -> t)
    (consumerListener : ListenerId) (controlledByApp : bool) (c : t) :
  (forall c0, mIsAbandoned (freeAllBuffersLocked c0) = mIsAbandoned c0) ->
  (forall c0, mConsumerListener (freeAllBuffersLocked c0)
              = mConsumerListener c0) ->
  (forall c0, mQueue (freeAllBuffersLocked c0) = mQueue c0) ->
  mIsAbandoned c = false ->
  let connected := connect (Some consumerListener) controlledByApp c in
  let gone := disconnect freeAllBuffersLocked (core connected) in
  status connected = NO_ERROR
  /\ mConsumerListener (core connected) = Some consumerListener
  /\ status (disableAsyncBuffer (core connected)) = INVALID_OPERATION
  /\ status gone = NO_ERROR
  /\ core gone
     = freeAllBuffersLocked
         (set_mQueue []
            (set_mConsumerListener None
               (set_mIsAbandoned true (core connected))))
  /\ mIsAbandoned (core gone) = true
  /\ (forall again app,
         status (connect (Some again) app (core gone)) = NO_INIT)
  /\ status (disconnect freeAllBuffersLocked (core gone)) = BAD_VALUE
  /\ (forall expectedPresent maxFrameNumber,
         out (acquireBuffer expectedPresent maxFrameNumber (core gone)) = None
         /\ status (acquireBuffer expectedPresent maxFrameNumber (core gone))
            <> NO_ERROR).
Proof.
  intros Hab Hl Hq Hc connected gone.
  set (c1 := set_mConsumerControlledByApp controlledByApp
               (set_mConsumerListener (Some consumerListener) c)).
  set (c2 := freeAllBuffersLocked
               (set_mQueue []
                  (set_mConsumerListener None (set_mIsAbandoned true c1)))).
  assert (connected = mkOutcome NO_ERROR None c1 [EvLock; EvUnlock]) as Ec
      by (subst connected; unfold connect; rewrite Hc; reflexivity).
  assert (mConsumerListener c1 = Some consumerListener) as E1
      by (subst c1; destruct c; reflexivity).
  assert (gone = mkOutcome NO_ERROR None c2 [EvLock; EvBroadcast; EvUnlock])
    as Eg.
  { subst gone. rewrite Ec. cbn [core]. unfold disconnect. rewrite E1.
    reflexivity. }
  rewrite Eg, Ec. cbn [status core].
  assert (mIsAbandoned c2 = true) as A2
      by (subst c2; rewrite Hab; destruct c1; reflexivity).
  assert (mConsumerListener c2 = None) as L2
      by (subst c2; rewrite Hl; destruct c1; reflexivity).
  assert (mQueue c2 = []) as Q2
      by (subst c2; rewrite Hq; destruct c1; reflexivity).
  split; [reflexivity|]. split; [exact E1|].
  split; [unfold disableAsyncBuffer; rewrite E1; reflexivity|].
  split; [reflexivity|]. split; [reflexivity|]. split; [exact A2|].
  split; [intros again app; unfold connect; rewrite A2; reflexivity|].
  split; [unfold disconnect; rewrite L2; reflexivity|].
  intros expectedPresent maxFrameNumber. unfold acquireBuffer.
  destruct (_ <=? _); [split; [reflexivity|discriminate]|].
  rewrite Q2. split; [reflexivity|discriminate].
Qed.

Lemma disconnect_is_final_witness :
  status
    (connect (Some 2%nat) false
       (core (disconnect (fun c => c)
                (core (connect (Some 1%nat) false Scenario.twoTimely)))))
  = NO_INIT.
Proof.
  destruct (disconnect_is_final (fun c => c) 1%nat false Scenario.twoTimely
              (fun _ => eq_refl) (fun _ => eq_refl) (fun _ => eq_refl) eq_refl)
    as (_ & _ & _ & _ & _ & _ & A & _).
  apply (A 2%nat false).
Defined.

(** ** setMaxAcquiredBufferCount *)

(** X13.  [setMaxAcquiredBufferCount] succeeds exactly when the count is
    between 1 and [MAX_MAX_ACQUIRED_BUFFERS] and no producer is
    connected; otherwise the core is unchanged ([BAD_VALUE] for the
    range, checked first and before the lock; [INVALID_OPERATION] for
    the producer).  After it succeeds with [n], [acquireBuffer] is
    refused with [INVALID_OPERATION] exactly when at least [n + 1] slots
    are ACQUIRED. *)
Theorem setMaxAcquiredBufferCount_sets_the_cap
    (MAX_MAX_ACQUIRED_BUFFERS maxAcquiredBuffers : Z) (c : t) :
  let r := setMaxAcquiredBufferCount MAX_MAX_ACQUIRED_BUFFERS
             maxAcquiredBuffers c in
  (status r = NO_ERROR <->
   1 <= maxAcquiredBuffers <= MAX_MAX_ACQUIRED_BUFFERS
   /\ mConnectedApi c = NO_CONNECTED_API)
  /\ (status r <> NO_ERROR -> core r = c)
  /\ (status r = BAD_VALUE <->
      maxAcquiredBuffers < 1 \/ MAX_MAX_ACQUIRED_BUFFERS < maxAcquiredBuffers)
  /\ (status r = NO_ERROR ->
      mMaxAcquiredBufferCount (core r) = maxAcquiredBuffers
      /\ core r = set_mMaxAcquiredBufferCount maxAcquiredBuffers c
      /\ forall expectedPresent maxFrameNumber,
          status (acquireBuffer expectedPresent maxFrameNumber (core r))
            = INVALID_OPERATION <->
          maxAcquiredBuffers + 1 <= numAcquiredBuffers (mSlots c)).
Proof.
  intros r. subst r. unfold setMaxAcquiredBufferCount.
  destruct (Z.ltb_spec maxAcquiredBuffers 1); simpl.
  { repeat split; intros; try discriminate; try reflexivity; try lia; auto. }
  destruct (Z.ltb_spec MAX_MAX_ACQUIRED_BUFFERS maxAcquiredBuffers); simpl.
  { repeat split; intros; try discriminate; try reflexivity; try lia; auto. }
  destruct (Z.eqb_spec (mConnectedApi c) NO_CONNECTED_API); simpl.
  2:{ repeat split; intros; try discriminate; try reflexivity; try lia. }
  split; [split; intros; [auto with lia|reflexivity]|].
  split; [congruence|]. split; [split; [discriminate|lia]|].
  intros _. split; [destruct c; reflexivity|]. split; [reflexivity|].
  intros expectedPresent maxFrameNumber. unfold acquireBuffer.
  replace (mMaxAcquiredBufferCount
             (set_mMaxAcquiredBufferCount maxAcquiredBuffers c))
    with maxAcquiredBuffers by (destruct c; reflexivity).
  replace (mSlots (set_mMaxAcquiredBufferCount maxAcquiredBuffers c))
    with (mSlots c) by (destruct c; reflexivity).
  destruct (Z.leb_spec (maxAcquiredBuffers + 1) (numAcquiredBuffers (mSlots c))).
  { simpl. tauto. }
  split; [|lia]. intros E. exfalso.
  destruct (mQueue _); [discriminate|].
  destruct (expectedPresent =? 0); [discriminate|].
  destruct (dropLoop _ _ _ _ _ _) as [[[front rest] c1] locals].
  destruct (negb _ || negb _); discriminate.
Qed.

Lemma release_touches_one_slot_witness :
  releaseBuffer 64 1 (Some NO_FENCE) 0 0 Scenario.oneAcquired
  = mkOutcome BAD_VALUE None Scenario.oneAcquired [].
Proof.
  apply (release_touches_one_slot 64 1 (Some NO_FENCE) 0 0
           Scenario.oneAcquired).
  right. left. vm_compute. discriminate.
Defined.

Lemma detach_frees_only_an_acquired_slot_witness :
  core (detachBuffer (fun _ c => c) 3 Scenario.oneAcquired)
  = Scenario.oneAcquired.
Proof.
  apply (proj1 (proj2 (detach_frees_only_an_acquired_slot (fun _ c => c) 3
                         Scenario.oneAcquired))).
  reflexivity.
Defined.

Lemma setMaxAcquiredBufferCount_sets_the_cap_witness :
  core (setMaxAcquiredBufferCount 64 2 Scenario.twoTimely)
  = Scenario.twoTimely.
Proof.
  apply (proj1 (proj2 (setMaxAcquiredBufferCount_sets_the_cap 64 2
                         Scenario.twoTimely))).
  vm_compute. discriminate.
Defined.

(** * Properties of the layer *)

Section LayerTiming.

Import Latching.

(** X14.  [shouldPresentNow] against the timing gate of [acquireBuffer], for
    a layer with no sideband change and no auto-refresh, a non-empty
    shadow queue and an [expectedPresent] whose sum with one second is
    representable.  The layer wants to present when the head's
    timestamp is before [expectedPresent] or at least a second after
    it.  The two tests agree except at two timestamps: at
    [expectedPresent] itself the layer does not ask to present though
    [acquireBuffer] would accept the frame, and at [expectedPresent]
    plus exactly one second the layer asks to present though
    [acquireBuffer] defers the frame. *)
Theorem shouldPresentNow_against_acquire_gate
    (expectedPresent : Z) (l : t) (head : BufferItem.t)
    (rest : list BufferItem.t) :
  mSidebandStreamChanged l = false ->
  mAutoRefresh l = false ->
  mQueueItems l = head :: rest ->
  INT64_MIN <= expectedPresent ->
  expectedPresent + 1000000000 <= INT64_MAX ->
  let timestamp := BufferItem.mTimestamp head in
  (shouldPresentNow expectedPresent l = true <->
   timestamp < expectedPresent \/ expectedPresent + 10 ^ 9 <= timestamp)
  /\ (timestamp <> expectedPresent ->
      timestamp <> expectedPresent + 10 ^ 9 ->
      shouldPresentNow expectedPresent l = bufferIsDue expectedPresent head)
  /\ (timestamp = expectedPresent ->
      shouldPresentNow expectedPresent l = false
      /\ bufferIsDue expectedPresent head = true)
  /\ (timestamp = expectedPresent + 10 ^ 9 ->
      shouldPresentNow expectedPresent l = true
      /\ bufferIsDue expectedPresent head = false).
Proof.
  intros Hs Ha Hq Hlo Hhi timestamp.
  unfold shouldPresentNow, bufferIsDue. rewrite Hs, Ha, Hq. simpl.
  unfold s2ns, MAX_REASONABLE_NSEC.
  rewrite !wrap_int64_id
    by (unfold in_int64, INT64_MIN, INT64_MAX in *; lia).
  fold timestamp.
  destruct (Z.ltb_spec timestamp expectedPresent);
    destruct (Z.ltb_spec timestamp (expectedPresent + 1 * 1000000000));
    destruct (Z.leb_spec timestamp expectedPresent);
    destruct (Z.ltb_spec (expectedPresent + 1000000000) timestamp);
    simpl; repeat split; intros; try lia; try reflexivity; try discriminate.
Qed.

End LayerTiming.

Lemma shouldPresentNow_against_acquire_gate_witness :
  Latching.shouldPresentNow 3000
    (LatchScenario.waiting [LatchScenario.frame 3]) = false
  /\ bufferIsDue 3000 (LatchScenario.frame 3) = true.
Proof.
  apply (shouldPresentNow_against_acquire_gate 3000
           (LatchScenario.waiting [LatchScenario.frame 3])
           (LatchScenario.frame 3) [] eq_refl eq_refl eq_refl
           ltac:(vm_compute; discriminate) ltac:(vm_compute; discriminate)).
  reflexivity.
Defined.

(** ** Sync points *)

Section SyncPoints.

Import Latching LatchTerms.

Lemma unnotified_cons (p : SyncPoint.t) (points : list SyncPoint.t) :
  unnotified (p :: points)
  = ((if SyncPoint.frameIsAvailable p then 0 else 1) + unnotified points)%nat.
Proof.
  unfold unnotified. rewrite filter_cons.
  destruct (SyncPoint.frameIsAvailable p); simpl; reflexivity.
Qed.

Lemma scanSyncPoints_spec (head : N) (points : list SyncPoint.t) :
  forall m a m' a' points',
    scanSyncPoints head points m a = (m', a', points') ->
    let reached := matchingPoints head points in
    map SyncPoint.getFrameNumber points' = map SyncPoint.getFrameNumber points
    /\ map SyncPoint.transactionIsApplied points'
       = map SyncPoint.transactionIsApplied points
    /\ m' = (m || match reached with [] => false | _ :: _ => true end)
    /\ (unnotified reached = 0%nat ->
        a' = a && forallb SyncPoint.transactionIsApplied reached
        /\ points' = points)
    /\ (unnotified reached <> 0%nat ->
        a' = false
        /\ unnotified (matchingPoints head points')
           = Nat.pred (unnotified reached)).
Proof.
  induction points as [|point points IH]; intros m a m' a' points'; simpl.
  - intros [= <- <- <-]. rewrite orb_false_r, andb_true_r.
    split; [reflexivity|]. split; [reflexivity|]. split; [reflexivity|].
    split; [auto|]. intros Hc. exfalso. apply Hc. reflexivity.
  - destruct (N.ltb_spec head (SyncPoint.getFrameNumber point)) as [Hlt|Hle].
    + intros [= <- <- <-]. rewrite orb_false_r, andb_true_r.
      split; [reflexivity|]. split; [reflexivity|]. split; [reflexivity|].
      split; [auto|]. intros Hc. exfalso. apply Hc. reflexivity.
    + destruct (SyncPoint.frameIsAvailable point) eqn:Av; simpl.
      * destruct (scanSyncPoints head points true
                    (a && SyncPoint.transactionIsApplied point))
          as [[m1 a1] rest] eqn:S.
        intros [= <- <- <-].
        destruct (IH _ _ _ _ _ S) as (Hf & Hp & Hm & Hzero & Hsome).
        rewrite unnotified_cons, Av. simpl.
        destruct (N.ltb_spec head (SyncPoint.getFrameNumber point)) as [?|_];
          [lia|].
        rewrite unnotified_cons, Av. simpl.
        split; [rewrite Hf; reflexivity|].
        split; [rewrite Hp; reflexivity|].
        split; [rewrite Hm, orb_true_r; reflexivity|].
        split.
        -- intros Hz. destruct (Hzero Hz) as [-> ->].
           rewrite andb_assoc. auto.
        -- intros Hnz. apply Hsome. exact Hnz.
      * intros [= <- <- <-]. simpl.
        destruct (N.ltb_spec head (SyncPoint.getFrameNumber point)) as [?|_];
          [lia|].
        rewrite !unnotified_cons, Av. simpl.
        rewrite orb_true_r.
        split; [reflexivity|]. split; [reflexivity|]. split; [reflexivity|].
        split; [intros; lia|]. intros _. split; reflexivity.
Qed.





Lemma matchingPoints_notified (head : N) (points : list SyncPoint.t) :
  matchingPoints head
    (map (fun point =>
            if (SyncPoint.getFrameNumber point <=? head)%N && true
            then SyncPoint.setFrameAvailable point
            else point) points)
  = map SyncPoint.setFrameAvailable (matchingPoints head points).
Proof.
  induction points as [|p points IH]; [reflexivity|]. simpl.
  destruct (N.leb_spec (SyncPoint.getFrameNumber p) head); simpl;
    destruct (N.ltb_spec head (SyncPoint.getFrameNumber p)); try lia;
    [|reflexivity].
  rewrite IH. reflexivity.
Qed.

Lemma unnotified_after_notice (points : list SyncPoint.t) :
  unnotified (map SyncPoint.setFrameAvailable points) = 0%nat.
Proof.
  induction points as [|p points IH]; [reflexivity|].
  simpl. rewrite unnotified_cons. simpl. exact IH.
Qed.

(** X16.  [notifyAvailableFrames] does nothing while the head fence is
    pending.  Once the head fence has signalled it notifies every sync
    point whose frame number is not past the head's; an
    [allTransactionsSignaled] that follows then changes nothing and
    answers whether the transactions of the points it can reach have all
    been applied. *)
Theorem notifyAvailableFrames_then_allTransactionsSignaled
    (latchUnsignaled : bool) (signalPending : BufferItem.t -> bool) (l : t) :
  let noticed := notifyAvailableFrames latchUnsignaled signalPending l in
  (headFenceHasSignaled latchUnsignaled signalPending l = false ->
   noticed = l)
  /\ (headFenceHasSignaled latchUnsignaled signalPending l = true ->
      (forall p, In p (mLocalSyncPoints noticed) ->
         (SyncPoint.getFrameNumber p <= getHeadFrameNumber l)%N ->
         SyncPoint.frameIsAvailable p = true)
      /\ allTransactionsSignaled noticed
         = (forallb SyncPoint.transactionIsApplied
              (matchingPoints (getHeadFrameNumber l) (mLocalSyncPoints l)),
            noticed)).
Proof.
  intros noticed. subst noticed. unfold notifyAvailableFrames. split.
  - intros ->.
    assert (map (fun point =>
                   if (SyncPoint.getFrameNumber point
                         <=? getHeadFrameNumber l)%N && false
                   then SyncPoint.setFrameAvailable point else point)
              (mLocalSyncPoints l) = mLocalSyncPoints l) as ->.
    { induction (mLocalSyncPoints l) as [|p ps IH]; [reflexivity|].
      simpl. rewrite IH, andb_false_r. reflexivity. }
    destruct l; reflexivity.
  - intros ->. set (head := getHeadFrameNumber l).
    set (points := map _ (mLocalSyncPoints l)).
    assert (mLocalSyncPoints (set_mLocalSyncPoints points l) = points) as Hget
        by (destruct l; reflexivity).
    assert (getHeadFrameNumber (set_mLocalSyncPoints points l) = head) as Hhead
        by (destruct l; reflexivity).
    split.
    + rewrite Hget. subst points. intros p Hin Hle.
      apply in_map_iff in Hin as (q & <- & _).
      destruct (N.leb_spec (SyncPoint.getFrameNumber q) head) as [_|Hgt];
        simpl; [reflexivity|].
      simpl in Hle. lia.
    + unfold allTransactionsSignaled. rewrite Hhead, Hget.
      destruct (scanSyncPoints head points false true) as [[m a] points'] eqn:S.
      destruct (scanSyncPoints_spec _ _ _ _ _ _ _ S) as (_ & _ & Hm & Hzero & _).
      subst points. rewrite matchingPoints_notified in Hm, Hzero.
      destruct (Hzero (unnotified_after_notice _)) as [-> ->].
      rewrite Hm. f_equal. simpl.
      assert (forall ps,
                 forallb SyncPoint.transactionIsApplied
                   (map SyncPoint.setFrameAvailable ps)
                 = forallb SyncPoint.transactionIsApplied ps) as Happlied.
      { induction ps as [|p ps IH]; [reflexivity|].
        simpl. rewrite IH. reflexivity. }
      rewrite Happlied.
      destruct (matchingPoints head (mLocalSyncPoints l)); reflexivity.
Qed.

Lemma notifyAvailableFrames_then_allTransactionsSignaled_witness :
  let l :=
    set_mLocalSyncPoints
      [LatchScenario.point 1 false true; LatchScenario.point 2 false true]
      (LatchScenario.waiting [LatchScenario.frame 2]) in
  (allTransactionsSignaled
     (notifyAvailableFrames false (fun _ => false) l)).1 = true.
Proof.
  intros l.
  rewrite (proj2 (proj2 (notifyAvailableFrames_then_allTransactionsSignaled
                           false (fun _ => false) l) eq_refl)).
  reflexivity.
Defined.

End SyncPoints.

(** ** Latching *)

Section Latch.

Import Latching LatchTerms.

Lemma promote_result (hal : HalFormats) (env : LatchEnv) (recompute : bool)
    (latchTime : Z) (oldOpacity : bool) (oldActiveBuffer : option Buffer)
    (active : Buffer) (l : t) :
  let r := promote hal env recompute latchTime oldOpacity oldActiveBuffer
             active l in
  r.1.1 = DirtyBounds
  /\ shadow r.2 = shadow l
  /\ mSidebandStreamChanged r.2 = mSidebandStreamChanged l
  /\ mSidebandStream r.2 = mSidebandStream l
  /\ mAutoRefresh r.2 = mAutoRefresh l
  /\ mUpdateTexImageFailed r.2 = mUpdateTexImageFailed l
  /\ mActiveBuffer r.2 = mActiveBuffer l
  /\ mRefreshPending r.2 = true
  /\ mFrameLatencyNeeded r.2 = true
  /\ mBufferLatched r.2 = true
  /\ mCurrentFrameNumber r.2 = getFrameNumber env
  /\ mPreviousFrameNumber r.2 = mCurrentFrameNumber l
  /\ mCurrentOpacity r.2 = getOpacityForFormat hal (format active)
  /\ mLocalSyncPoints r.2
     = pruneSyncPoints (getFrameNumber env) (mLocalSyncPoints l)
  /\ (oldActiveBuffer = None -> r.1.2 = true)
  /\ (recompute = true -> r.1.2 = true).
Proof.
  destruct l. unfold promote. simpl.
  match goal with
  | |- context [if ?b then set_mCurrentScalingMode _ _ else _] =>
      destruct b eqn:Changed
  end; simpl;
    repeat split; try reflexivity;
    intros ->; simpl;
    repeat match goal with
           | |- context [if ?b then true else _] => destruct b
           | |- context [match ?o with Some _ => _ | None => _ end] =>
               destruct o
           end; simpl; rewrite ?orb_true_r; reflexivity.
Qed.

(** While nothing is queued and auto-refresh is off, or while a refresh
    is pending, a [latchBuffer] without a sideband change returns the
    empty region and leaves the layer and [recomputeVisibleRegions] as
    they were. *)
Lemma latchBuffer_gated
    (hal : HalFormats) (env : LatchEnv) (recompute : bool) (latchTime : Z)
    (l : t) :
  mSidebandStreamChanged l = false ->
  (mQueuedFrames l <= 0 /\ mAutoRefresh l = false) \/ mRefreshPending l = true ->
  latchBuffer hal env recompute latchTime l = Some (NoDirty, recompute, l).
Proof.
  intros Hs Hgate. unfold latchBuffer. rewrite Hs.
  destruct Hgate as [[Hq Ha]|Hp].
  - rewrite Ha. destruct (Z.leb_spec (mQueuedFrames l) 0); [reflexivity|lia].
  - rewrite Hp. destruct (_ && _); reflexivity.
Qed.

Lemma wrap_int32_id (z : Z) :
  - 2 ^ 31 <= z <= 2 ^ 31 - 1 -> BufferLayer.wrap_int32 z = z.
Proof.
  intros Hz. unfold BufferLayer.wrap_int32. rewrite Z.mod_small; lia.
Qed.

Lemma allTransactionsSignaled_true (l : t) :
  (allTransactionsSignaled l).1 = true -> allTransactionsSignaled l = (true, l).
Proof.
  unfold allTransactionsSignaled.
  destruct (scanSyncPoints (getHeadFrameNumber l) (mLocalSyncPoints l)
              false true) as [[m a] points] eqn:S.
  destruct (scanSyncPoints_spec _ _ _ _ _ _ _ S) as (_ & _ & Hm & Hzero & Hsome).
  cbn [fst]. intros Ht.
  destruct (Nat.eq_dec
              (unnotified
                 (matchingPoints (getHeadFrameNumber l) (mLocalSyncPoints l)))
              0%nat) as [Hz|Hnz].
  - destruct (Hzero Hz) as [_ ->]. rewrite Ht. destruct l; reflexivity.
  - exfalso. destruct (Hsome Hnz) as [-> _]. rewrite Hm in Ht.
    destruct (matchingPoints _ _); [apply Hnz; reflexivity|discriminate].
Qed.

(** The reconciliation loop on a queue whose counter agrees with it. *)
Lemma removeStale_counted (current : N) (items : list BufferItem.t) :
  forall q items' q',
    removeStale current items q = Some (items', q') ->
    q = Z.of_nat (length items) ->
    q <= 2147483647 ->
    q' = Z.of_nat (length items') + 1
    /\ exists stale head,
        items = stale ++ head :: items'
        /\ BufferItem.mFrameNumber head = current
        /\ forall x, In x stale -> BufferItem.mFrameNumber x <> current.
Proof.
  induction items as [|head items IH]; intros q items' q'; simpl;
    [discriminate|].
  destruct (N.eqb_spec (BufferItem.mFrameNumber head) current) as [E|NE].
  - intros [= <- <-] -> _. split; [lia|].
    exists [], head. split; [reflexivity|]. split; [exact E|]. intros x [].
  - intros H -> Hq. rewrite wrap_int32_id in H by lia.
    apply IH in H as (-> & stale & h & -> & Hh & Hstale); [|lia|lia].
    split; [reflexivity|].
    exists (head :: stale), h. split; [reflexivity|]. split; [exact Hh|].
    intros x [<-|Hin]; auto.
Qed.

Lemma removeStale_found (current : N) (stale : list BufferItem.t)
    (head : BufferItem.t) (rest : list BufferItem.t) :
  BufferItem.mFrameNumber head = current ->
  (forall x, In x stale -> BufferItem.mFrameNumber x <> current) ->
  forall q, exists q', removeStale current (stale ++ head :: rest) q
                       = Some (rest, q').
Proof.
  intros Hh. induction stale as [|x stale IH]; intros Hstale q; simpl.
  - rewrite Hh, N.eqb_refl. eauto.
  - destruct (N.eqb_spec (BufferItem.mFrameNumber x) current) as [E|_].
    + exfalso. apply (Hstale x); [left; reflexivity|exact E].
    + apply IH. intros y Hin. apply Hstale. right. exact Hin.
Qed.

Lemma removeStale_missing (current : N) (items : list BufferItem.t) :
  (forall x, In x items -> BufferItem.mFrameNumber x <> current) ->
  forall q, removeStale current items q = None.
Proof.
  induction items as [|x items IH]; intros Hnone q; [reflexivity|]. simpl.
  destruct (N.eqb_spec (BufferItem.mFrameNumber x) current) as [E|_].
  - exfalso. apply (Hnone x); [left; reflexivity|exact E].
  - apply IH. intros y Hin. apply Hnone. right. exact Hin.
Qed.

Lemma allTransactionsSignaled_shadow (l : t) :
  shadow (allTransactionsSignaled l).2 = shadow l
  /\ mAutoRefresh (allTransactionsSignaled l).2 = mAutoRefresh l
  /\ mUpdateTexImageFailed (allTransactionsSignaled l).2
     = mUpdateTexImageFailed l
  /\ mActiveBuffer (allTransactionsSignaled l).2 = mActiveBuffer l.
Proof.
  unfold allTransactionsSignaled.
  destruct (scanSyncPoints _ _ _ _) as [[m a] points].
  destruct l; simpl; auto.
Qed.

(** What one [latchBuffer] can do to the shadow queue and its counter:
    nothing; or take the head off and count down once (a rejected
    buffer); or empty the queue and zero the counter (a failed update);
    or run the reconciliation loop and count down once more. *)
Lemma latchBuffer_shadow (hal : HalFormats) (env : LatchEnv)
    (recompute : bool) (latchTime : Z) (l : t) (d : Dirty) (recompute' : bool)
    (l' : t) :
  latchBuffer hal env recompute latchTime l = Some (d, recompute', l') ->
  (mQueueItems l' = mQueueItems l /\ mQueuedFrames l' = mQueuedFrames l)
  \/ (updateResult env = BufferRejected /\ queuedBuffer env = true
      /\ mQueueItems l' = List.tl (mQueueItems l)
      /\ mQueuedFrames l' = BufferLayer.wrap_int32 (mQueuedFrames l - 1))
  \/ (mQueueItems l' = [] /\ mQueuedFrames l' = 0
      /\ mUpdateTexImageFailed l' = true)
  \/ (exists q1,
         removeStale (getFrameNumber env) (mQueueItems l) (mQueuedFrames l)
         = Some (mQueueItems l', q1)
         /\ mQueuedFrames l' = BufferLayer.wrap_int32 (q1 - 1)).
Proof.
  unfold latchBuffer.
  destruct (mSidebandStreamChanged l) eqn:Sb.
  { intros [= <- <- <-]. left.
    destruct l; simpl. destruct (getSidebandStream env); auto. }
  destruct (_ && _); [intros [= <- <- <-]; auto|].
  destruct (mRefreshPending l); [intros [= <- <- <-]; auto|].
  destruct (negb (headFenceHasSignaled _ _ _));
    [intros [= <- <- <-]; left; destruct l; auto|].
  pose proof (allTransactionsSignaled_shadow l) as (Hsh & _).
  destruct (allTransactionsSignaled l) as [signaled l1]. simpl in Hsh.
  assert (mQueueItems l1 = mQueueItems l
          /\ mQueuedFrames l1 = mQueuedFrames l) as [Hq1 Hn1]
      by (unfold mQueueItems, mQueuedFrames; rewrite Hsh; auto).
  destruct (negb signaled);
    [intros [= <- <- <-]; left; rewrite <- Hq1, <- Hn1; destruct l1; auto|].
  unfold update.
  set (l2 := match autoRefreshOut env with
             | Some b => set_mAutoRefresh b l1
             | None => l1
             end).
  assert (mQueueItems l2 = mQueueItems l
          /\ mQueuedFrames l2 = mQueuedFrames l) as [Hq2 Hn2].
  { subst l2. rewrite <- Hq1, <- Hn1.
    destruct (autoRefreshOut env); destruct l1; auto. }
  clearbody l2. clear Hq1 Hn1 Hsh l1.
  assert (forall x,
             mQueueItems (set_mUpdateTexImageFailed true x) = mQueueItems x
             /\ mQueuedFrames (set_mUpdateTexImageFailed true x)
                = mQueuedFrames x
             /\ mUpdateTexImageFailed (set_mUpdateTexImageFailed true x) = true)
    as Hfail by (intros x; destruct x; auto).
  assert (forall x : t,
             mQueueItems (set_mQueuedFrames 0 (set_mQueueItems [] x)) = []
             /\ mQueuedFrames (set_mQueuedFrames 0 (set_mQueueItems [] x)) = 0)
    as Hclear by (intros x; destruct x as [sh]; destruct sh; auto).
  assert (forall updated,
             (if queuedBuffer env
              then set_mQueuedFrames 0 (set_mQueueItems [] l2) else l2)
             = updated ->
             Some (NoDirty, recompute || rejecterRecomputes env,
                   set_mUpdateTexImageFailed true updated)
             = Some (d, recompute', l') ->
             (mQueueItems l' = mQueueItems l
              /\ mQueuedFrames l' = mQueuedFrames l)
             \/ (updateResult env = BufferRejected /\ queuedBuffer env = true
                 /\ mQueueItems l' = List.tl (mQueueItems l)
                 /\ mQueuedFrames l'
                    = BufferLayer.wrap_int32 (mQueuedFrames l - 1))
             \/ (mQueueItems l' = [] /\ mQueuedFrames l' = 0
                 /\ mUpdateTexImageFailed l' = true)
             \/ (exists q1,
                    removeStale (getFrameNumber env) (mQueueItems l)
                      (mQueuedFrames l) = Some (mQueueItems l', q1)
                    /\ mQueuedFrames l' = BufferLayer.wrap_int32 (q1 - 1)))
    as Hfailed.
  { intros updated <- [= <- <- <-].
    destruct (Hfail (if queuedBuffer env
                     then set_mQueuedFrames 0 (set_mQueueItems [] l2)
                     else l2)) as (-> & -> & Hf).
    destruct (queuedBuffer env).
    - right. right. left. destruct (Hclear l2) as [-> ->]. auto.
    - left. auto. }
  destruct (updateResult env) eqn:U.
  - destruct (mUpdateTexImageFailed l2); [apply Hfailed; reflexivity|].
    destruct (queuedBuffer env) eqn:Qb.
    + destruct (removeStale (getFrameNumber env) (mQueueItems l2)
                  (mQueuedFrames l2)) as [[items q1]|] eqn:R; [|discriminate].
      rewrite Hq2, Hn2 in R.
      set (l3 := set_mQueuedFrames q1 (set_mQueueItems items l2)).
      assert (mQueueItems l3 = items /\ mQueuedFrames l3 = q1) as [Hq3 Hn3]
          by (subst l3; destruct l2 as [sh]; destruct sh; auto).
      clearbody l3. simpl.
      set (l4 := decQueuedFrames l3).
      assert (mQueueItems l4 = items
              /\ mQueuedFrames l4 = BufferLayer.wrap_int32 (q1 - 1))
        as [Hq4 Hn4].
      { subst l4. unfold decQueuedFrames. rewrite Hn3, <- Hq3.
        destruct l3 as [sh]; destruct sh; auto. }
      clearbody l4.
      match goal with
      | |- context [if ?b then signalLayerUpdate l4 else l4] =>
          set (l5 := if b then signalLayerUpdate l4 else l4)
      end.
      assert (mQueueItems l5 = items
              /\ mQueuedFrames l5 = BufferLayer.wrap_int32 (q1 - 1))
        as [Hq5 Hn5].
      { subst l5. rewrite <- Hq4, <- Hn4.
        destruct ((1 <? mQueuedFrames l3) || mAutoRefresh l3);
          destruct l4 as [sh]; destruct sh; auto. }
      clearbody l5.
      set (l6 := set_mActiveBufferSlot (getCurrentSlot env)
                   (set_mActiveBuffer (getCurrentBuffer env) l5)).
      assert (shadow l6 = shadow l5) as Hs6 by (destruct l5; reflexivity).
      clearbody l6.
      destruct (getCurrentBuffer env) as [active|].
      * pose proof (promote_result hal env
                      (recompute || rejecterRecomputes env) latchTime
                      (isOpaque (layerOpaque env) l)
                      (mActiveBuffer l) active l6) as (_ & Hsp & _).
        destruct (promote _ _ _ _ _ _ _ _) as [[d0 r0] l7]. simpl in Hsp.
        intros [= <- <- <-]. right. right. right. exists q1.
        unfold mQueueItems, mQueuedFrames in *.
        rewrite Hsp, Hs6, Hq5, Hn5. auto.
      * intros [= <- <- <-]. right. right. right. exists q1.
        unfold mQueueItems, mQueuedFrames in *.
        rewrite Hs6, Hq5, Hn5. auto.
    + simpl.
      match goal with
      | |- context [if ?b then signalLayerUpdate l2 else l2] =>
          set (l5 := if b then signalLayerUpdate l2 else l2)
      end.
      assert (shadow l5 = shadow l2
              \/ shadow l5 = BufferLayer.note BufferLayer.NoteSignalLayerUpdate
                               (shadow l2)) as Hs5
          by (subst l5; destruct (mAutoRefresh l2); destruct l2; auto).
      assert (mQueueItems l5 = mQueueItems l
              /\ mQueuedFrames l5 = mQueuedFrames l) as [Hq5 Hn5].
      { rewrite <- Hq2, <- Hn2. unfold mQueueItems, mQueuedFrames.
        destruct Hs5 as [->| ->]; auto. }
      clearbody l5.
      set (l6 := set_mActiveBufferSlot (getCurrentSlot env)
                   (set_mActiveBuffer (getCurrentBuffer env) l5)).
      assert (shadow l6 = shadow l5) as Hs6 by (destruct l5; reflexivity).
      clearbody l6.
      destruct (getCurrentBuffer env) as [active|].
      * pose proof (promote_result hal env
                      (recompute || rejecterRecomputes env) latchTime
                      (isOpaque (layerOpaque env) l)
                      (mActiveBuffer l) active l6) as (_ & Hsp & _).
        destruct (promote _ _ _ _ _ _ _ _) as [[d0 r0] l7]. simpl in Hsp.
        intros [= <- <- <-]. left.
        unfold mQueueItems, mQueuedFrames in *. rewrite Hsp, Hs6. auto.
      * intros [= <- <- <-]. left.
        unfold mQueueItems, mQueuedFrames in *. rewrite Hs6. auto.
  - intros [= <- <- <-]. left. rewrite <- Hq2, <- Hn2. destruct l2; auto.
  - intros [= <- <- <-]. destruct (queuedBuffer env) eqn:Qb.
    + right. left. rewrite <- Hq2, <- Hn2.
      split; [reflexivity|]. split; [reflexivity|].
      unfold decQueuedFrames. destruct l2 as [sh]; destruct sh; auto.
    + left. auto.
  - destruct (mUpdateTexImageFailed l2); apply Hfailed; reflexivity.
Qed.

(** X17.  [latchBuffer] keeps the counter of queued frames equal to the
    length of the shadow queue, and never lengthens the queue.  The
    precondition on a rejected buffer says that the consumer does not
    report a queued buffer rejected when the shadow queue is empty. *)
Theorem latch_keeps_counter_and_queue_in_step
    (hal : HalFormats) (env : LatchEnv) (recompute : bool) (latchTime : Z)
    (l : t) (d : Dirty) (recompute' : bool) (l' : t) :
  latchBuffer hal env recompute latchTime l = Some (d, recompute', l') ->
  counted l ->
  Z.of_nat (length (mQueueItems l)) <= 2147483647 ->
  (updateResult env = BufferRejected -> queuedBuffer env = true ->
   mQueueItems l <> []) ->
  counted l'
  /\ (length (mQueueItems l') <= length (mQueueItems l))%nat.
Proof.
  intros H Hc Hb Hrej. unfold counted in *.
  destruct (latchBuffer_shadow _ _ _ _ _ _ _ _ H)
    as [[-> ->]|[(U & Qb & -> & ->)|[(-> & -> & _)|(q1 & R & ->)]]].
  - split; [exact Hc|lia].
  - specialize (Hrej U Qb). rewrite Hc.
    destruct (mQueueItems l) as [|x items]; [contradiction|].
    simpl in *. rewrite wrap_int32_id by lia. split; lia.
  - simpl. split; lia.
  - destruct (removeStale_counted _ _ _ _ _ R Hc)
      as (-> & stale & head & E & _); [lia|].
    rewrite E, length_app in Hb |- *. simpl in *.
    rewrite wrap_int32_id by lia. split; lia.
Qed.

Lemma latch_keeps_counter_and_queue_in_step_witness :
  match latchBuffer LatchScenario.hal (LatchScenario.acquired 2) false 0
          (LatchScenario.waiting
             [LatchScenario.frame 1; LatchScenario.frame 2;
              LatchScenario.frame 3]) with
  | Some (_, _, l') => counted l' /\ length (mQueueItems l') = 1%nat
  | None => False
  end.
Proof.
  destruct (latchBuffer LatchScenario.hal (LatchScenario.acquired 2) false 0
              (LatchScenario.waiting
                 [LatchScenario.frame 1; LatchScenario.frame 2;
                  LatchScenario.frame 3]))
    as [[[d recompute'] l']|] eqn:E; [|vm_compute in E; discriminate].
  split.
  - apply (latch_keeps_counter_and_queue_in_step _ _ _ _ _ _ _ _ E).
    + unfold counted. vm_compute. reflexivity.
    + vm_compute. discriminate.
    + discriminate.
  - vm_compute in E. injection E as _ _ <-. reflexivity.
Defined.

Lemma latchBuffer_reaches_update (hal : HalFormats) (env : LatchEnv)
    (recompute : bool) (latchTime : Z) (l : t) :
  reachesUpdate env l ->
  latchBuffer hal env recompute latchTime l
  = update hal env recompute latchTime (isOpaque (layerOpaque env) l)
      (mActiveBuffer l) l.
Proof.
  intros (Hs & Hg & Hp & Hf & Ht). unfold latchBuffer.
  rewrite Hs, Hg, Hp, Hf, (allTransactionsSignaled_true l Ht). reflexivity.
Qed.

(** X18.  A [latchBuffer] that gets a queued buffer from a successful
    [updateTexImage] brings the shadow queue up to the frame the
    consumer holds: the entries before the first one with that frame
    number are dropped with it, those after it stay, and the counter
    follows.  Another update is signalled exactly when entries remain or
    auto-refresh is on.  The region is the layer's bounds when the
    consumer has a current buffer and empty when it has none.  When no
    entry of the shadow queue has the consumer's frame number the loop
    runs off the end of the queue. *)
Theorem latch_drops_shadow_entries_up_to_latched_frame
    (hal : HalFormats) (env : LatchEnv) (recompute : bool) (latchTime : Z)
    (l : t) :
  reachesUpdate env l ->
  updateResult env = Updated ->
  mUpdateTexImageFailed l = false ->
  queuedBuffer env = true ->
  counted l ->
  Z.of_nat (length (mQueueItems l)) <= 2147483647 ->
  ((forall x, In x (mQueueItems l) ->
      BufferItem.mFrameNumber x <> getFrameNumber env) ->
   latchBuffer hal env recompute latchTime l = None)
  /\ (forall stale head rest,
         mQueueItems l = stale ++ head :: rest ->
         BufferItem.mFrameNumber head = getFrameNumber env ->
         (forall x, In x stale ->
            BufferItem.mFrameNumber x <> getFrameNumber env) ->
         exists d recompute' l',
           latchBuffer hal env recompute latchTime l
           = Some (d, recompute', l')
           /\ mQueueItems l' = rest
           /\ mQueuedFrames l' = Z.of_nat (length rest)
           /\ BufferLayer.notes (shadow l')
              = BufferLayer.notes (shadow l)
                ++ (if negb (bool_decide (rest = []))
                       || default (mAutoRefresh l) (autoRefreshOut env)
                    then [BufferLayer.NoteSignalLayerUpdate] else [])
           /\ mActiveBuffer l' = getCurrentBuffer env
           /\ d = match getCurrentBuffer env with
                  | Some _ => DirtyBounds
                  | None => NoDirty
                  end).
Proof.
  intros Hreach U Hfail Qb Hc Hb.
  rewrite latchBuffer_reaches_update by exact Hreach. clear Hreach.
  unfold update, counted in *. rewrite U, Qb.
  set (oldOpacity := isOpaque (layerOpaque env) l).
  set (oldActive := mActiveBuffer l). clearbody oldOpacity oldActive.
  destruct l as [[items q lastReceived notes] sb ss ar rp failed ab abs bl
                   prev cur fln crop tr sm op pts cs].
  unfold mQueueItems, mQueuedFrames in *. simpl in *. subst failed q.
  assert (forall b, mUpdateTexImageFailed
                      match autoRefreshOut env with
                      | Some b' => set_mAutoRefresh b' b
                      | None => b
                      end = mUpdateTexImageFailed b) as Hf
      by (intros b; destruct (autoRefreshOut env); destruct b; reflexivity).
  rewrite Hf. simpl. clear Hf.
  split.
  - intros Hnone.
    destruct (autoRefreshOut env); simpl;
      rewrite removeStale_missing by exact Hnone; reflexivity.
  - intros stale head rest -> Hhead Hstale.
    destruct (removeStale_found _ stale head rest Hhead Hstale
                (Z.of_nat (length (stale ++ head :: rest)))) as [q1 R].
    destruct (removeStale_counted _ _ _ _ _ R eq_refl Hb) as [-> _].
    assert ((1 <? Z.of_nat (length rest) + 1)
            = negb (bool_decide (rest = []))) as Hmore.
    { destruct rest; simpl; [reflexivity|].
      apply Z.ltb_lt. lia. }
    assert (BufferLayer.wrap_int32 (Z.of_nat (length rest) + 1 - 1)
            = Z.of_nat (length rest)) as Hdec.
    { rewrite wrap_int32_id; [lia|].
      rewrite length_app in Hb. simpl in Hb. lia. }
    destruct (autoRefreshOut env) as [auto|]; cbn -[promote]; rewrite R;
      cbn -[promote];
      unfold decQueuedFrames, mQueuedFrames; cbn -[promote];
      rewrite Hmore, Hdec;
      destruct (getCurrentBuffer env) as [active|]; cbn -[promote].
    all: match goal with
         | |- context [if ?b then signalLayerUpdate _ else _] => destruct b
         end; cbn -[promote].
    all: try (eexists _, _, _; split; [reflexivity|]; simpl;
              rewrite ?app_nil_r; repeat split; reflexivity).
    all: match goal with
         | |- context [promote ?h ?e ?r ?t ?oo ?oa ?a ?x] =>
             pose proof (promote_result h e r t oo oa a x)
               as (Hd & Hsh & _ & _ & _ & _ & Hab & _);
             destruct (promote h e r t oo oa a x) as [[d0 r0] l7];
             simpl in Hd, Hsh, Hab; subst d0
         end;
      exists DirtyBounds, r0, l7; split; [reflexivity|];
      rewrite Hsh, Hab; simpl; rewrite ?app_nil_r; repeat split; reflexivity.
Qed.

Lemma latch_drops_shadow_entries_up_to_latched_frame_witness :
  exists d recompute' l',
    latchBuffer LatchScenario.hal (LatchScenario.acquired 2) false 0
      (LatchScenario.waiting
         [LatchScenario.frame 1; LatchScenario.frame 2;
          LatchScenario.frame 3])
    = Some (d, recompute', l')
    /\ mQueueItems l' = [LatchScenario.frame 3]
    /\ mQueuedFrames l' = 1
    /\ BufferLayer.notes (shadow l') = [BufferLayer.NoteSignalLayerUpdate]
    /\ mActiveBuffer l' = getCurrentBuffer (LatchScenario.acquired 2)
    /\ d = DirtyBounds.
Proof.
  assert (reachesUpdate (LatchScenario.acquired 2)
            (LatchScenario.waiting
               [LatchScenario.frame 1; LatchScenario.frame 2;
                LatchScenario.frame 3])) as Hreach.
  { unfold reachesUpdate.
    split; [|split; [|split; [|split]]]; vm_compute; reflexivity. }
  assert (forall x, In x [LatchScenario.frame 1] ->
            BufferItem.mFrameNumber x
            <> getFrameNumber (LatchScenario.acquired 2)) as Hstale.
  { intros x [<- | []]. vm_compute. discriminate. }
  exact (proj2
           (latch_drops_shadow_entries_up_to_latched_frame
              LatchScenario.hal (LatchScenario.acquired 2) false 0
              (LatchScenario.waiting
                 [LatchScenario.frame 1; LatchScenario.frame 2;
                  LatchScenario.frame 3])
              Hreach eq_refl eq_refl eq_refl eq_refl
              ltac:(vm_compute; discriminate))
           [LatchScenario.frame 1] (LatchScenario.frame 2)
           [LatchScenario.frame 3] eq_refl eq_refl Hstale).
Defined.

(** A [latchBuffer] that binds a buffer ends in [promote], on a layer
    that differs from the first in its shadow queue, its auto-refresh
    flag and its active buffer only. *)
Lemma latchBuffer_binds (hal : HalFormats) (env : LatchEnv)
    (recompute : bool) (latchTime : Z) (l : t) (d : Dirty)
    (recompute' : bool) (l' : t) :
  reachesUpdate env l ->
  updateResult env = Updated ->
  mUpdateTexImageFailed l = false ->
  getCurrentBuffer env <> None ->
  latchBuffer hal env recompute latchTime l = Some (d, recompute', l') ->
  exists r oo oa active x,
    promote hal env r latchTime oo oa active x = (d, recompute', l')
    /\ mSidebandStreamChanged x = false
    /\ mCurrentFrameNumber x = mCurrentFrameNumber l
    /\ mActiveBuffer x = getCurrentBuffer env
    /\ mLocalSyncPoints x = mLocalSyncPoints l.
Proof.
  intros Hreach U Hfail Hbuf E.
  pose proof Hreach as (Hs & _).
  rewrite latchBuffer_reaches_update in E by exact Hreach. clear Hreach.
  unfold update in E. rewrite U in E.
  set (oldOpacity := isOpaque (layerOpaque env) l) in E.
  set (oldActive := mActiveBuffer l) in E. clearbody oldOpacity oldActive.
  destruct l as [[items q lastReceived notes] sb ss ar rp failed ab abs bl
                   prev cur fln crop tr sm op pts cs].
  simpl in Hs, Hfail. subst sb failed.
  destruct (getCurrentBuffer env) as [active|] eqn:Eb; [|congruence].
  destruct (autoRefreshOut env), (queuedBuffer env);
    cbn -[promote removeStale] in E;
    try (destruct (removeStale _ _ _) as [[items' q']|];
         [|discriminate]; cbn -[promote] in E);
    match type of E with
    | context [if ?b then signalLayerUpdate _ else _] => destruct b
    end;
    cbn -[promote] in E; apply (inj Some) in E.
  all: match type of E with
       | promote _ _ ?r _ ?oo ?oa ?a ?x = _ => exists r, oo, oa, a, x
       end.
  all: split; [exact E|].
  all: split; [reflexivity|].
  all: split; [reflexivity|].
  all: split; reflexivity.
Qed.

Lemma pruneSyncPoints_filter (currentFrameNumber : N)
    (points : list SyncPoint.t) :
  pruneSyncPoints currentFrameNumber points
  = List.filter (fun p => negb (settled currentFrameNumber p)) points.
Proof.
  induction points as [|p points IH]; [reflexivity|]. simpl.
  unfold settled at 1.
  destruct (SyncPoint.frameIsAvailable p),
    (SyncPoint.transactionIsApplied p),
    (SyncPoint.getFrameNumber p <=? currentFrameNumber)%N; simpl;
    rewrite IH; reflexivity.
Qed.

(** X19.  A [latchBuffer] that binds a buffer reports the layer's bounds,
    moves the current frame number to the consumer's and keeps the old
    one as the previous.  From then on every [latchBuffer] returns the
    empty region and changes nothing, whatever the consumer would
    answer, until [onPreComposition] clears the pending refresh; and
    [onPostComposition] reports the latched frame once. *)
Theorem latch_once_per_composition
    (hal : HalFormats) (env : LatchEnv) (recompute : bool) (latchTime : Z)
    (l : t) (d : Dirty) (recompute' : bool) (l' : t) :
  reachesUpdate env l ->
  updateResult env = Updated ->
  mUpdateTexImageFailed l = false ->
  getCurrentBuffer env <> None ->
  latchBuffer hal env recompute latchTime l = Some (d, recompute', l') ->
  d = DirtyBounds
  /\ mCurrentFrameNumber l' = getFrameNumber env
  /\ mPreviousFrameNumber l' = mCurrentFrameNumber l
  /\ mActiveBuffer l' = getCurrentBuffer env
  /\ (forall env2 recompute2 latchTime2,
        latchBuffer hal env2 recompute2 latchTime2 l'
        = Some (NoDirty, recompute2, l'))
  /\ (forall refreshStartTime,
        mRefreshPending (onPreComposition refreshStartTime l').2 = false)
  /\ (forall desired ready present refresh,
        (onPostComposition desired ready present refresh l').1 = true
        /\ forall desired2 ready2 present2 refresh2,
             (onPostComposition desired2 ready2 present2 refresh2
                (onPostComposition desired ready present refresh l').2).1
             = false).
Proof.
  intros Hreach U Hfail Hbuf E.
  destruct (latchBuffer_binds _ _ _ _ _ _ _ _ Hreach U Hfail Hbuf E)
    as (r & oo & oa & active & x & P & Hsx & Hcx & Hax & _).
  pose proof (promote_result hal env r latchTime oo oa active x) as R.
  cbv zeta in R. rewrite P in R. simpl in R.
  destruct R as (Hd & _ & Hsb & _ & _ & _ & Hab & Hrp & Hfl & _ & Hcur
                 & Hprev & _).
  rewrite Hsx in Hsb. rewrite Hcx in Hprev. rewrite Hax in Hab.
  split; [exact Hd|]. split; [exact Hcur|]. split; [exact Hprev|].
  split; [exact Hab|]. split; [|split].
  - intros env2 recompute2 latchTime2.
    apply latchBuffer_gated; [exact Hsb|right; exact Hrp].
  - intros refreshStartTime. unfold onPreComposition.
    destruct (mBufferLatched l'); destruct l'; reflexivity.
  - intros desired ready present refresh. unfold onPostComposition.
    rewrite Hfl. simpl. split; [reflexivity|].
    intros desired2 ready2 present2 refresh2.
    destruct ready, present; destruct l'; reflexivity.
Qed.

Lemma latch_once_per_composition_witness :
  match latchBuffer LatchScenario.hal (LatchScenario.acquired 2) false 0
          (LatchScenario.waiting
             [LatchScenario.frame 1; LatchScenario.frame 2;
              LatchScenario.frame 3]) with
  | Some (d, _, l') =>
      d = DirtyBounds
      /\ mCurrentFrameNumber l' = 2%N
      /\ latchBuffer LatchScenario.hal (LatchScenario.acquired 3) false 1 l'
         = Some (NoDirty, false, l')
  | None => False
  end.
Proof.
  destruct (latchBuffer LatchScenario.hal (LatchScenario.acquired 2) false 0
              (LatchScenario.waiting
                 [LatchScenario.frame 1; LatchScenario.frame 2;
                  LatchScenario.frame 3]))
    as [[[d recompute'] l']|] eqn:E; [|vm_compute in E; discriminate].
  assert (reachesUpdate (LatchScenario.acquired 2)
            (LatchScenario.waiting
               [LatchScenario.frame 1; LatchScenario.frame 2;
                LatchScenario.frame 3])) as Hreach.
  { unfold reachesUpdate.
    split; [|split; [|split; [|split]]]; vm_compute; reflexivity. }
  destruct (latch_once_per_composition _ _ _ _ _ _ _ _ Hreach eq_refl eq_refl
              ltac:(discriminate) E)
    as (Hd & Hcur & _ & _ & Hgate & _).
  split; [exact Hd|]. split; [exact Hcur|]. apply Hgate.
Defined.

(** X20.  Once [mUpdateTexImageFailed] is set it stays set, and no later
    [latchBuffer] binds a buffer: each one returns, leaves the active
    buffer, the frame numbers and the refresh and latency flags as they
    were, and reports the empty region unless a sideband change was
    pending. *)
Theorem failed_update_is_permanent
    (hal : HalFormats) (env : LatchEnv) (recompute : bool) (latchTime : Z)
    (l : t) :
  mUpdateTexImageFailed l = true ->
  exists d recompute' l',
    latchBuffer hal env recompute latchTime l = Some (d, recompute', l')
    /\ mUpdateTexImageFailed l' = true
    /\ mActiveBuffer l' = mActiveBuffer l
    /\ mActiveBufferSlot l' = mActiveBufferSlot l
    /\ mCurrentFrameNumber l' = mCurrentFrameNumber l
    /\ mPreviousFrameNumber l' = mPreviousFrameNumber l
    /\ mBufferLatched l' = mBufferLatched l
    /\ mRefreshPending l' = mRefreshPending l
    /\ mFrameLatencyNeeded l' = mFrameLatencyNeeded l
    /\ (mSidebandStreamChanged l = false -> d = NoDirty).
Proof.
  intros Hfail. unfold latchBuffer, allTransactionsSignaled.
  destruct (scanSyncPoints _ _ _ _) as [[m a] points].
  unfold update.
  destruct l as [[items q lastReceived notes] sb ss ar rp failed ab abs bl
                   prev cur fln crop tr sm op pts cs].
  simpl in Hfail. subst failed.
  unfold mQueuedFrames, mQueueItems, decQueuedFrames, mQueuedFrames. simpl.
  destruct sb; simpl.
  { destruct (getSidebandStream env); simpl;
      eexists _, _, _; (split; [reflexivity|]); simpl;
      repeat split; try reflexivity; discriminate. }
  destruct ((q <=? 0) && negb ar);
    [eexists _, _, _; (split; [reflexivity|]); repeat split; reflexivity|].
  destruct rp;
    [eexists _, _, _; (split; [reflexivity|]); repeat split; reflexivity|].
  destruct (negb (headFenceHasSignaled _ _ _));
    [eexists _, _, _; (split; [reflexivity|]); repeat split; reflexivity|].
  destruct (negb (negb m || a));
    [eexists _, _, _; (split; [reflexivity|]); repeat split; reflexivity|].
  destruct (autoRefreshOut env), (updateResult env), (queuedBuffer env);
    simpl; eexists _, _, _; (split; [reflexivity|]); repeat split;
    reflexivity.
Qed.

Lemma failed_update_is_permanent_witness :
  exists d recompute' l',
    latchBuffer LatchScenario.hal (LatchScenario.acquired 1) false 0
      (set_mUpdateTexImageFailed true
         (LatchScenario.waiting [LatchScenario.frame 1]))
    = Some (d, recompute', l')
    /\ mUpdateTexImageFailed l' = true
    /\ mActiveBuffer l' = None
    /\ mCurrentFrameNumber l' = 0%N.
Proof.
  destruct (failed_update_is_permanent LatchScenario.hal
              (LatchScenario.acquired 1) false 0
              (set_mUpdateTexImageFailed true
                 (LatchScenario.waiting [LatchScenario.frame 1]))
              eq_refl)
    as (d & recompute' & l' & E & Hf & Hab & _ & Hcur & _).
  exists d, recompute', l'. auto.
Defined.

(** X21.  However many times [onSidebandStreamChanged] is called before the
    next [latchBuffer], one update is signalled; that [latchBuffer]
    takes the consumer's sideband stream, clears the flag, asks for
    visible regions to be recomputed and reports the layer's bounds
    without touching the shadow queue, and it sets the transaction
    flags exactly when the stream is not null. *)
Theorem sideband_change_latched_once
    (hal : HalFormats) (env : LatchEnv) (recompute : bool) (latchTime : Z)
    (l : t) :
  onSidebandStreamChanged (onSidebandStreamChanged l)
  = onSidebandStreamChanged l
  /\ BufferLayer.notes (shadow (onSidebandStreamChanged l))
     = BufferLayer.notes (shadow l)
       ++ (if mSidebandStreamChanged l then []
           else [BufferLayer.NoteSignalLayerUpdate])
  /\ exists l',
       latchBuffer hal env recompute latchTime (onSidebandStreamChanged l)
       = Some (DirtyBounds, true, l')
       /\ mSidebandStreamChanged l' = false
       /\ mSidebandStream l' = getSidebandStream env
       /\ shadow l' = shadow (onSidebandStreamChanged l)
       /\ mActiveBuffer l' = mActiveBuffer l
       /\ mRefreshPending l' = mRefreshPending l
       /\ calls l'
          = calls l
            ++ match getSidebandStream env with
               | Some _ => [CallSetTransactionFlags;
                            CallFlingerSetTransactionFlags]
               | None => []
               end.
Proof.
  destruct l as [[items q lastReceived notes] sb ss ar rp failed ab abs bl
                   prev cur fln crop tr sm op pts cs].
  unfold onSidebandStreamChanged, latchBuffer. simpl.
  destruct sb; simpl.
  - split; [reflexivity|]. split; [rewrite app_nil_r; reflexivity|].
    destruct (getSidebandStream env); simpl;
      eexists; (split; [reflexivity|]); simpl;
      rewrite <- ?app_assoc, ?app_nil_r; repeat split; reflexivity.
  - split; [reflexivity|]. split; [reflexivity|].
    destruct (getSidebandStream env); simpl;
      eexists; (split; [reflexivity|]); simpl;
      rewrite <- ?app_assoc, ?app_nil_r; repeat split; reflexivity.
Qed.

(** X22.  A [latchBuffer] that binds a buffer erases from the sync points
    exactly those whose frame is available, whose transaction is applied
    and whose frame number is not past the latched one; the others stay
    in their order. *)
Theorem latch_erases_settled_sync_points
    (hal : HalFormats) (env : LatchEnv) (recompute : bool) (latchTime : Z)
    (l : t) (d : Dirty) (recompute' : bool) (l' : t) :
  reachesUpdate env l ->
  updateResult env = Updated ->
  mUpdateTexImageFailed l = false ->
  getCurrentBuffer env <> None ->
  latchBuffer hal env recompute latchTime l = Some (d, recompute', l') ->
  mLocalSyncPoints l'
  = List.filter (fun p => negb (settled (getFrameNumber env) p))
      (mLocalSyncPoints l)
  /\ forall p, In p (mLocalSyncPoints l') ->
       In p (mLocalSyncPoints l)
       /\ (SyncPoint.frameIsAvailable p = false
           \/ SyncPoint.transactionIsApplied p = false
           \/ (mCurrentFrameNumber l' < SyncPoint.getFrameNumber p)%N).
Proof.
  intros Hreach U Hfail Hbuf E.
  destruct (latchBuffer_binds _ _ _ _ _ _ _ _ Hreach U Hfail Hbuf E)
    as (r & oo & oa & active & x & P & _ & _ & _ & Hpx).
  pose proof (promote_result hal env r latchTime oo oa active x) as R.
  cbv zeta in R. rewrite P in R. simpl in R.
  destruct R as (_ & _ & _ & _ & _ & _ & _ & _ & _ & _ & Hcur & _ & _ & Hp
                 & _).
  rewrite Hpx, pruneSyncPoints_filter in Hp.
  split; [exact Hp|].
  intros p Hin. rewrite Hp in Hin. apply filter_In in Hin as [Hin Hns].
  split; [exact Hin|]. rewrite Hcur. unfold settled in Hns.
  destruct (SyncPoint.frameIsAvailable p); [|left; reflexivity].
  destruct (SyncPoint.transactionIsApplied p); [|right; left; reflexivity].
  right. right. simpl in Hns. apply negb_true_iff, N.leb_gt in Hns.
  exact Hns.
Qed.

Lemma latch_erases_settled_sync_points_witness :
  match latchBuffer LatchScenario.hal (LatchScenario.acquired 2) false 0
          (set_mLocalSyncPoints
             [LatchScenario.point 1 true true;
              LatchScenario.point 2 true true;
              LatchScenario.point 3 false false]
             (LatchScenario.waiting
                [LatchScenario.frame 1; LatchScenario.frame 2;
                 LatchScenario.frame 3])) with
  | Some (_, _, l') =>
      mLocalSyncPoints l' = [LatchScenario.point 3 false false]
  | None => False
  end.
Proof.
  destruct (latchBuffer LatchScenario.hal (LatchScenario.acquired 2) false 0
              (set_mLocalSyncPoints
                 [LatchScenario.point 1 true true;
                  LatchScenario.point 2 true true;
                  LatchScenario.point 3 false false]
                 (LatchScenario.waiting
                    [LatchScenario.frame 1; LatchScenario.frame 2;
                     LatchScenario.frame 3])))
    as [[[d recompute'] l']|] eqn:E; [|vm_compute in E; discriminate].
  assert (reachesUpdate (LatchScenario.acquired 2)
            (set_mLocalSyncPoints
               [LatchScenario.point 1 true true;
                LatchScenario.point 2 true true;
                LatchScenario.point 3 false false]
               (LatchScenario.waiting
                  [LatchScenario.frame 1; LatchScenario.frame 2;
                   LatchScenario.frame 3]))) as Hreach.
  { unfold reachesUpdate.
    split; [|split; [|split; [|split]]]; vm_compute; reflexivity. }
  destruct (latch_erases_settled_sync_points _ _ _ _ _ _ _ _ Hreach eq_refl
              eq_refl ltac:(discriminate) E) as [Hp _].
  rewrite Hp. vm_compute. reflexivity.
Defined.

End Latch.

(** * Frames that arrive in order *)

Section Arrival.

Import LatchTerms.

Lemma onFrameAvailable_in_order (item : BufferItem.t) (s : BufferLayer.t) :
  BufferItem.mFrameNumber item
  = (BufferLayer.mLastFrameNumberReceived s + 1)%N ->
  (BufferLayer.mLastFrameNumberReceived s + 1 < 2 ^ 64)%N ->
  BufferLayer.onFrameAvailable [] item s
  = BufferLayer.Returned
      (BufferLayer.accept item
         (BufferLayer.note
            (BufferLayer.NoteSaveBufferUpdate (BufferItem.mFrameNumber item))
            s)).
Proof.
  intros Hnext Hsmall.
  unfold BufferLayer.onFrameAvailable, BufferLayer.arrive.
  destruct (N.eqb_spec (BufferItem.mFrameNumber item) 1) as [Hone|Hmore].
  - assert (BufferLayer.mLastFrameNumberReceived s = 0%N) as Hzero by lia.
    destruct s as [items q lastReceived notes]. simpl in *. subst lastReceived.
    unfold BufferLayer.inOrder. simpl. rewrite Hnext. reflexivity.
  - destruct s as [items q lastReceived notes]. simpl in *.
    unfold BufferLayer.inOrder, wrap_uint64. simpl.
    rewrite N.mod_small by exact Hsmall.
    rewrite (proj2 (N.eqb_eq _ _) Hnext). reflexivity.
Qed.

(** X23.  Frames that reach [onFrameAvailable] with consecutive frame numbers,
    starting right after the last one received, are queued without any
    call having to wait: the shadow queue grows by them in order, the
    counter stays equal to its length, the last frame number received
    moves to the last of them, and each call records the buffer update,
    wakes the waiting callbacks and signals one layer update. *)
Theorem frames_in_order_are_queued_without_waiting
    (items : list BufferItem.t) :
  forall s : BufferLayer.t,
    consecutive (BufferLayer.mLastFrameNumberReceived s) items ->
    (BufferLayer.mLastFrameNumberReceived s + N.of_nat (length items)
     < 2 ^ 64)%N ->
    countedShadow s ->
    Z.of_nat (length (BufferLayer.mQueueItems s) + length items)
    <= 2147483647 ->
    exists s',
      deliver items s = BufferLayer.Returned s'
      /\ BufferLayer.mQueueItems s' = BufferLayer.mQueueItems s ++ items
      /\ countedShadow s'
      /\ BufferLayer.mLastFrameNumberReceived s'
         = (BufferLayer.mLastFrameNumberReceived s
            + N.of_nat (length items))%N
      /\ BufferLayer.notes s'
         = BufferLayer.notes s ++ flat_map arrivalNotes items.
Proof.
  induction items as [|item items IH]; intros s Hcons Hsmall Hcount Hlen.
  - exists s. simpl. rewrite !app_nil_r, N.add_0_r. auto.
  - destruct Hcons as [Hnext Hcons].
    cbn [length] in Hsmall, Hlen. cbn [deliver].
    rewrite onFrameAvailable_in_order by (try exact Hnext; lia).
    set (s1 := BufferLayer.accept item _).
    assert (BufferLayer.mQueueItems s1 = BufferLayer.mQueueItems s ++ [item])
      as Hq1 by (destruct s; reflexivity).
    assert (BufferLayer.mLastFrameNumberReceived s1
            = (BufferLayer.mLastFrameNumberReceived s + 1)%N) as Hl1
      by (destruct s; simpl; exact Hnext).
    assert (BufferLayer.notes s1
            = BufferLayer.notes s ++ arrivalNotes item) as Hn1.
    { destruct s; simpl. rewrite <- !app_assoc. reflexivity. }
    assert (countedShadow s1) as Hc1.
    { unfold countedShadow in *. rewrite Hq1, length_app.
      destruct s as [q0 n0 last0 notes0]. simpl in *. subst n0.
      rewrite wrap_int32_id by lia. lia. }
    clearbody s1.
    destruct (IH s1) as (s' & Hd & Hq & Hc & Hl & Hn).
    + rewrite Hl1. exact Hcons.
    + rewrite Hl1. lia.
    + exact Hc1.
    + rewrite Hq1, length_app. simpl. lia.
    + exists s'. split; [exact Hd|].
      split; [rewrite Hq, Hq1, <- app_assoc; reflexivity|].
      split; [exact Hc|].
      split; [rewrite Hl, Hl1; cbn [length]; lia|].
      rewrite Hn, Hn1, <- app_assoc. reflexivity.
Qed.

Lemma frames_in_order_are_queued_without_waiting_witness :
  exists s',
    deliver [LatchScenario.frame 1; LatchScenario.frame 2]
      (Latching.shadow (LatchScenario.waiting []))
    = BufferLayer.Returned s'
    /\ BufferLayer.mQueueItems s'
       = [LatchScenario.frame 1; LatchScenario.frame 2]
    /\ BufferLayer.mLastFrameNumberReceived s' = 2%N.
Proof.
  destruct (frames_in_order_are_queued_without_waiting
              [LatchScenario.frame 1; LatchScenario.frame 2]
              (Latching.shadow (LatchScenario.waiting []))
              ltac:(simpl; auto)
              ltac:(vm_compute; reflexivity)
              ltac:(reflexivity)
              ltac:(vm_compute; discriminate))
    as (s' & Hd & Hq & _ & Hl & _).
  exists s'. auto.
Defined.

End Arrival.
